(** * Laptop Galleria: checkout, inventory and image normalisation

    A shallow embedding of the request handlers of [app.py] that touch the
    product and order tables, the session cart and the upload folder,
    together with the Python built-ins they rely on.

    Conventions of the embedding.
    - A Python [int] is a [Z].  A commit always goes through in the
      embedding, whereas SQLite refuses an integer outside its 64-bit
      [INTEGER] range and the request then ends with status 500.  A
      statement that concludes what a commit stores is therefore made
      either of a request that returned its success response or of values
      within that range, [int64].
    - A Python [float] is a binary64 value of [SpecFloat]; an arithmetic
      operation whose Python counterpart raises [OverflowError] yields an
      infinity.
    - A Python [str] is the [string] of its UTF-8 bytes.
    - The session cart, a [dict] from [str(product_id)] to a quantity, is
      an association list keyed by the product identifier itself: the
      only writer stores [str(product_id)] and every reader applies
      [int(pid)].  The list keeps the order of insertion, which is the
      order of the dictionary within one request; the session cookie is
      written with its keys sorted, so the order does not outlive the
      request and no statement about the cart a request leaves depends on
      it.
    - A handler is a function from the state a request sees to the state
      it leaves and the response it returns.  An exception that no handler
      catches ends the request with status 500 and nothing committed.
    - The location of a [Redirect] is the string the handler passes to
      [redirect()].  Writing it into the [Location] header, the framework
      percent-encodes its components with [urllib.parse.quote], which is
      [Urllib.quote] below; how it splits the location into components is
      outside the model.
    - A picture is its size; memory and disk limits are outside the
      model. *)

From Stdlib Require Import ZArith String Ascii List Bool Lia.
From Stdlib Require Import Floats.SpecFloat DecimalString.
From stdpp Require Import gmap strings list.

Local Open Scope string_scope.
Local Open Scope list_scope.
Local Open Scope Z_scope.

(** ** Python built-ins *)

Module Py.

(** binary64 *)
Definition prec : Z := 53.
Definition emax : Z := 1024.

(** [float(n)] for an [int], also the implicit conversion in [x * 100]. *)
Definition float_of_int (n : Z) : spec_float :=
  binary_normalize prec emax n 0 false.

(** The correctly rounded quotient of two [int]s, for [b <> 0]. *)
Definition quotient (a b : Z) : spec_float :=
  match a with
  | 0 => S754_zero (b <? 0)
  | _ =>
      let '(q, e, l) := SFdiv_core_binary prec emax (Z.abs a) 0 (Z.abs b) 0 in
      binary_round_aux prec emax (xorb (a <? 0) (b <? 0)) q e l
  end.

(** [a / b] on two [int]s; [None] is [ZeroDivisionError]. *)
Definition int_truediv (a b : Z) : option spec_float :=
  if b =? 0 then None else Some (quotient a b).

Definition float_mul : spec_float -> spec_float -> spec_float := SFmul prec emax.
Definition float_add : spec_float -> spec_float -> spec_float := SFadd prec emax.
Definition float_div : spec_float -> spec_float -> spec_float := SFdiv prec emax.

(** [x > y] on floats. *)
Definition float_gt (x y : spec_float) : bool := SFltb y x.

(** What [int(x)] and [round(x)] raise on a non-finite float. *)
Inductive float_error := OverflowError | ValueError.

(** [int(x)]: truncation towards zero. *)
Definition int_of_float (x : spec_float) : float_error + Z :=
  match x with
  | S754_zero _ => inr 0
  | S754_finite s m e => inr (cond_Zopp s (Z.shiftl (Zpos m) e))
  | S754_infinity _ => inl OverflowError
  | S754_nan => inl ValueError
  end.

(** Nearest integer to [n / d], ties to the even one ([0 <= n], [0 < d]). *)
Definition half_even_div (n d : Z) : Z :=
  let q := n / d in
  match 2 * (n mod d) ?= d with
  | Lt => q
  | Gt => q + 1
  | Eq => if Z.even q then q else q + 1
  end.

(** Nearest integer to [m * 2^e * k], ties to even. *)
Definition scaled_round (m : positive) (e k : Z) : Z :=
  match e with
  | Zneg p => half_even_div (Zpos m * k) (2 ^ Zpos p)
  | _ => Zpos m * k * 2 ^ e
  end.

(** [round(x)] with one argument. *)
Definition round (x : spec_float) : float_error + Z :=
  match x with
  | S754_zero _ => inr 0
  | S754_finite s m e => inr (cond_Zopp s (scaled_round m e 1))
  | S754_infinity _ => inl OverflowError
  | S754_nan => inl ValueError
  end.

(** [str(n)] for an [int]. *)
Definition str (n : Z) : string := NilZero.string_of_int (Z.to_int n).

Definition two_digits (n : Z) : string :=
  if n <? 10 then "0" +:+ str n else str n.

(** [f"{x:.2f}"]: the decimal with two places nearest to the exact value
    of [x], ties to even. *)
Definition format_2f (x : spec_float) : string :=
  match x with
  | S754_zero s => (if s then "-" else "") +:+ "0.00"
  | S754_finite s m e =>
      let n := scaled_round m e 100 in
      (if s then "-" else "") +:+ str (n / 100) +:+ "." +:+ two_digits (n mod 100)
  | S754_infinity s => if s then "-inf" else "inf"
  | S754_nan => "nan"
  end.

(** [f"{x}"] for a value that may be [None]. *)
Definition format_opt (x : option string) : string := default "None" x.

(** [s.lower()].  Only ASCII letters are mapped; no character outside
    ASCII lower-cases to a letter of the extensions tested below. *)
Definition lower_char (c : ascii) : ascii :=
  let n := nat_of_ascii c in
  if (65 <=? n)%nat && (n <=? 90)%nat then ascii_of_nat (n + 32) else c.

Fixpoint lower (s : string) : string :=
  match s with
  | EmptyString => EmptyString
  | String c s' => String (lower_char c) (lower s')
  end.

Fixpoint has_dot (s : string) : bool :=
  match s with
  | EmptyString => false
  | String c s' => Ascii.eqb c "." || has_dot s'
  end.

(** [s.rsplit(".", 1)[-1]]: what follows the last dot, or all of [s] when
    it has none. *)
Fixpoint rsplit_dot_last (s : string) : string :=
  match s with
  | EmptyString => EmptyString
  | String c s' =>
      if has_dot s' then rsplit_dot_last s'
      else if Ascii.eqb c "." then s' else s
  end.

(** [sep.join(l)] *)
Definition join (sep : string) (l : list string) : string := String.concat sep l.

(** A decimal literal [digits] or [digits.digits] with an optional sign,
    as [(negative, digits without the dot, number of decimals)]. *)
Definition split_literal (s : string) : option (bool * string * string) :=
  let '(neg, body) :=
    match s with
    | String "-" r => (true, r)
    | String "+" r => (false, r)
    | _ => (false, s)
    end in
  match index 0 "." body with
  | None => Some (neg, body, "")
  | Some i =>
      Some (neg, substring 0 i body,
            substring (S i) (String.length body - S i) body)
  end.

Definition digits_value (s : string) : option Z :=
  match s with
  | EmptyString => None
  | _ => option_map Z.of_N (option_map N.of_uint (NilZero.uint_of_string s))
  end.

(** [int(s)] on a plain literal, an optional sign and decimal digits, and
    [None], the [ValueError], on the other strings it covers.  The
    spellings with blanks or underscores are left out. *)
Definition int_of_literal (s : string) : option Z :=
  match split_literal s with
  | Some (neg, ds, "") =>
      if has_dot s then None
      else option_map (cond_Zopp neg) (digits_value ds)
  | _ => None
  end.

(** The exact value of a plain literal as a fraction [n / 10^k]. *)
Definition literal_fraction (s : string) : option (Z * Z) :=
  match split_literal s with
  | Some (neg, ip, fp) =>
      match digits_value (ip +:+ fp) with
      | Some n =>
          Some (cond_Zopp neg n, 10 ^ Z.of_nat (String.length fp))
      | None => None
      end
  | None => None
  end.

(** [float(s)] on a plain literal: the binary64 nearest to its exact
    value.  The spellings with an exponent, blanks or underscores, and
    [inf] and [nan], are left out. *)
Definition float_of_literal (s : string) : option spec_float :=
  match literal_fraction s with
  | Some (n, d) =>
      match n with
      | 0 => Some (S754_zero (match s with String "-" _ => true | _ => false end))
      | _ => int_truediv n d
      end
  | None => None
  end.

End Py.

(** ** The standard library's URL quoting *)

Module Urllib.






End Urllib.

(** ** Pillow *)

Module PIL.

(** An image, as far as its size goes: [(width, height)]. *)
Definition image : Type := Z * Z.

(** [im.resize(size, Image.LANCZOS)]: an image of the requested size;
    [None] is the [ValueError] raised unless both sides are positive. *)
Definition resize (im : image) (size : Z * Z) : option image :=
  if (1 <=? size.1) && (1 <=? size.2) then Some size else None.

(** [im.crop((left, upper, right, lower))]: [ValueError] when [right < left]
    or [lower < upper]; otherwise every coordinate goes through [round()],
    as in [map(int, map(round, box))], and the region between the rounded
    coordinates is returned, whether or not it lies inside [im]. *)
Definition crop (im : image) (box : spec_float * spec_float * spec_float * spec_float)
  : option image :=
  let '(x_left, y_upper, x_right, y_lower) := box in
  if SFltb x_right x_left || SFltb y_lower y_upper then None
  else
    match Py.round x_left, Py.round y_upper, Py.round x_right, Py.round y_lower with
    | inr x0, inr y0, inr x1, inr y1 => Some (Z.max (x1 - x0) 0, Z.max (y1 - y0) 0)
    | _, _, _, _ => None
    end.

End PIL.

(** ** Models *)

Module Product.

Record t := mk {
  name : string;
  slug : string;
  description : option string;
  price_cents : Z;
  image_filename : option string;
  stock : Z
}.

(** [self.price_cents / 100.0] *)
Definition price (self : t) : spec_float :=
  Py.float_div (Py.float_of_int (price_cents self)) (Py.float_of_int 100).

Definition with_stock (self : t) (n : Z) : t :=
  mk (name self) (slug self) (description self) (price_cents self)
     (image_filename self) n.

Definition with_price_cents (self : t) (c : Z) : t :=
  mk (name self) (slug self) (description self) c
     (image_filename self) (stock self).

Definition with_image_filename (self : t) (f : option string) : t :=
  mk (name self) (slug self) (description self) (price_cents self)
     f (stock self).

End Product.

Module Order.

Record t := mk {
  id : Z;
  created_at : Z;
  customer_name : option string;
  customer_address : option string;
  items : string;
  total_cents : Z
}.

End Order.

(** An uploaded file: its name and, when Pillow can open the stream, the
    size of the picture in it. *)
Record file_storage := {
  filename : string;
  stream : option PIL.image
}.

(** What a request sees: the two tables, the upload folder, and the
    client's session. *)
Record state := {
  products : gmap Z Product.t;
  orders : list Order.t;
  uploads : gmap string PIL.image;
  cart : list (Z * Z);
  admin : bool
}.

(** The object [view_cart] builds for each line of the cart page. *)
Record cart_item := {
  product : Product.t;
  qty : Z;
  total : Z
}.

(** What a handler returns: a redirect, with the message it flashed and
    the location it passed to [redirect()]; the cart page; or an abort. *)
Inductive response :=
  | Redirect (flashed : option string) (location : string)
  | CartPage (items : list cart_item) (total_cents : Z)
  | Abort (status : Z).

(** The peso sign, U+20B1, in UTF-8. *)
Definition peso : string :=
  String "226" (String "130" (String "177" EmptyString)).

(** ** Helpers *)

Definition allowed_file (filename : string) : bool :=
  let ext := Py.lower (Py.rsplit_dot_last filename) in
  existsb (String.eqb ext) ["jpg"; "jpeg"; "png"; "webp"].

(** The result of a call that may raise. *)
Inductive raising (A : Type) :=
  | Return (a : A)
  | Raise.
Arguments Return {A} a.
Arguments Raise {A}.

Definition of_option {A} (o : option A) : raising A :=
  match o with Some a => Return a | None => Raise end.

Definition of_sum {E A} (o : E + A) : raising A :=
  match o with inr a => Return a | inl _ => Raise end.

#[global] Instance raising_ret : MRet raising := fun A a => Return a.

#[global] Instance raising_bind : MBind raising := fun A B k m =>
  match m with Return a => k a | Raise => Raise end.

(** The size of the picture [save_and_resize_image] writes, from the size
    of the decoded upload. *)
Definition cover_crop (im : PIL.image) (output_size : Z * Z) : raising PIL.image :=
  let '(target_w, target_h) := output_size in
  im_ratio ← of_option (Py.int_truediv im.1 im.2);
  target_ratio ← of_option (Py.int_truediv target_w target_h);
  new_size ←
    (if Py.float_gt im_ratio target_ratio then
       scale ← of_option (Py.int_truediv target_h im.2);
       new_width ← of_sum (Py.int_of_float (Py.float_mul (Py.float_of_int im.1) scale));
       Return (new_width, target_h)
     else
       scale ← of_option (Py.int_truediv target_w im.1);
       new_height ← of_sum (Py.int_of_float (Py.float_mul (Py.float_of_int im.2) scale));
       Return (target_w, new_height));
  let '(new_width, new_height) := new_size in
  im_resized ← of_option (PIL.resize im (new_width, new_height));
  let x_left := Py.quotient (new_width - target_w) 2 in
  let y_top := Py.quotient (new_height - target_h) 2 in
  let x_right := Py.float_add x_left (Py.float_of_int target_w) in
  let y_bottom := Py.float_add y_top (Py.float_of_int target_h) in
  of_option (PIL.crop im_resized (x_left, y_top, x_right, y_bottom)).

(** [uuid_hex] is the value of [uuid.uuid4().hex] drawn by the call.  The
    result pairs the upload folder after the call with what the call
    returned. *)
Definition save_and_resize_image (file_storage : file_storage)
    (output_size : Z * Z) (uuid_hex : string) (folder : gmap string PIL.image)
  : gmap string PIL.image * raising (option string) :=
  let filename := filename file_storage in
  if negb (allowed_file filename) then (folder, Return None)
  else
    let ext := Py.lower (Py.rsplit_dot_last filename) in
    let unique_name := uuid_hex +:+ "." +:+ ext in
    match im ← of_option (stream file_storage); cover_crop im output_size with
    | Raise => (folder, Raise)
    | Return im_cropped => (<[unique_name := im_cropped]> folder, Return (Some unique_name))
    end.

(** The first half of [cover_crop] on its own: the size the decoded upload
    is scaled to, [(new_width, new_height)]. *)
Definition cover_resize (im : PIL.image) (output_size : Z * Z) : raising (Z * Z) :=
  let '(target_w, target_h) := output_size in
  im_ratio ← of_option (Py.int_truediv im.1 im.2);
  target_ratio ← of_option (Py.int_truediv target_w target_h);
  if Py.float_gt im_ratio target_ratio then
    scale ← of_option (Py.int_truediv target_h im.2);
    new_width ← of_sum (Py.int_of_float (Py.float_mul (Py.float_of_int im.1) scale));
    Return (new_width, target_h)
  else
    scale ← of_option (Py.int_truediv target_w im.1);
    new_height ← of_sum (Py.int_of_float (Py.float_mul (Py.float_of_int im.2) scale));
    Return (target_w, new_height).

(** The second half: the box the scaled picture is cropped to,
    [(left, top, right, bottom)]. *)
Definition crop_box (new_size output_size : Z * Z)
  : spec_float * spec_float * spec_float * spec_float :=
  let x_left := Py.quotient (new_size.1 - output_size.1) 2 in
  let y_top := Py.quotient (new_size.2 - output_size.2) 2 in
  (x_left, y_top,
   Py.float_add x_left (Py.float_of_int output_size.1),
   Py.float_add y_top (Py.float_of_int output_size.2)).

Definition cart_total_cents (products : gmap Z Product.t) (cart : list (Z * Z)) : Z :=
  fold_left
    (fun total '(pid, qty) =>
       match products !! pid with
       | Some p => total + Product.price_cents p * qty
       | None => total
       end)
    cart 0.

(** [cart[key] = value] on the ordered dictionary. *)
Fixpoint dict_set (key value : Z) (d : list (Z * Z)) : list (Z * Z) :=
  match d with
  | [] => [(key, value)]
  | (k, v) :: d' =>
      if k =? key then (key, value) :: d' else (k, v) :: dict_set key value d'
  end.

(** [cart.get(key, 0)] *)
Fixpoint dict_get (key : Z) (d : list (Z * Z)) : Z :=
  match d with
  | [] => 0
  | (k, v) :: d' => if k =? key then v else dict_get key d'
  end.

(** [cart.pop(key, None)] *)
Definition dict_pop (key : Z) (d : list (Z * Z)) : list (Z * Z) :=
  filter (fun kv => kv.1 ≠ key) d.

(** The identifier SQLite gives the next row of a table whose rows have
    the identifiers [ids]. *)
Definition next_id (ids : list Z) : Z := foldr Z.max 0 ids + 1.

(** ** Routes *)

Definition with_cart (st : state) (c : list (Z * Z)) : state :=
  {| products := products st; orders := orders st; uploads := uploads st;
     cart := c; admin := admin st |}.

Definition view_cart (st : state) : state * response :=
  let items :=
    fold_left
      (fun items '(pid, qty) =>
         match products st !! pid with
         | Some p =>
             items ++ [{| product := p; qty := qty;
                          total := Product.price_cents p * qty |}]
         | None => items
         end)
      (cart st) [] in
  let total := cart_total_cents (products st) (cart st) in
  (st, CartPage items total).

Definition remove_from_cart (product_id : Z) (st : state) : state * response :=
  (with_cart st (dict_pop product_id (cart st)),
   Redirect (Some "Removed from cart") "/cart").

(** The first loop of [checkout]: the message flashed at the first entry
    that fails, or the summary lines and the total. *)
Fixpoint checkout_verify (products : gmap Z Product.t) (cart : list (Z * Z))
    (items_summary : list string) (total : Z) : string + list string * Z :=
  match cart with
  | [] => inr (items_summary, total)
  | (pid, qty) :: rest =>
      match products !! pid with
      | None => inl "Product missing"
      | Some p =>
          if Product.stock p <? qty then
            inl ("Not enough stock for " +:+ Product.name p +:+ ". Available: "
                 +:+ Py.str (Product.stock p))
          else
            checkout_verify products rest
              (items_summary ++
                 [Product.name p +:+ " x" +:+ Py.str qty +:+ " @ " +:+ peso
                  +:+ Py.format_2f (Product.price p)])
              (total + Product.price_cents p * qty)
      end
  end.

(** The second loop of [checkout]; [None] is the [AttributeError] of
    [p.stock] on a missing product. *)
Fixpoint checkout_decrement (products : gmap Z Product.t) (cart : list (Z * Z))
  : option (gmap Z Product.t) :=
  match cart with
  | [] => Some products
  | (pid, qty) :: rest =>
      match products !! pid with
      | None => None
      | Some p =>
          checkout_decrement
            (<[pid := Product.with_stock p (Z.max (Product.stock p - qty) 0)]> products)
            rest
      end
  end.

(** The text handed to the chat page. *)
Definition order_text (order_id : Z) (items_summary : list string) (total : Z)
    (name address : option string) : string :=
  let order_text := "Laptop Galleria Order%0AOrder#: " +:+ Py.str order_id +:+ "%0A" in
  let order_text :=
    fold_left (fun order_text line => order_text +:+ "- " +:+ line +:+ "%0A")
      items_summary order_text in
  order_text +:+ "%0ATotal: " +:+ peso +:+ Py.format_2f (Py.quotient total 100)
    +:+ "%0AName: " +:+ Py.format_opt name
    +:+ "%0AAddress: " +:+ Py.format_opt address.

Section Routes.

(** Configuration read from the environment. *)
Variable PAGE_USERNAME : string.

(** Python's [float(s)] and [int(s)] on a [str]; [None] is [ValueError]. *)
Variable float_of_str : string -> option spec_float.
Variable int_of_str : string -> option Z.

(** The redirect goes to the referrer when the request names one. *)
Definition add_to_cart (product_id : Z) (form_qty : option string) (st : state)
  : state * response :=
  match (match form_qty with Some s => int_of_str s | None => Some 1 end) with
  | None => (st, Abort 500)
  | Some qty =>
      match products st !! product_id with
      | None => (st, Abort 404)
      | Some p =>
          if Product.stock p <? qty then
            (st, Redirect (Some "Not enough stock for that product.") "/")
          else
            let cart := cart st in
            let cart := dict_set product_id (dict_get product_id cart + qty) cart in
            (with_cart st cart, Redirect (Some "Added to cart") "/")
      end
  end.

(** [name] and [address] are the two form fields, [now] the clock read for
    [created_at]. *)
Definition checkout (name address : option string) (now : Z) (st : state)
  : state * response :=
  match cart st with
  | [] => (st, Redirect (Some "Cart is empty") "/cart")
  | _ =>
      match checkout_verify (products st) (cart st) [] 0 with
      | inl message => (st, Redirect (Some message) "/cart")
      | inr (items_summary, total) =>
          match checkout_decrement (products st) (cart st) with
          | None => (st, Abort 500)
          | Some products' =>
              let order :=
                Order.mk (next_id (Order.id <$> orders st)) now name address
                  (Py.join "; " items_summary) total in
              let order_text :=
                order_text (Order.id order) items_summary total name address in
              let messenger_url :=
                "https://m.me/" +:+ PAGE_USERNAME +:+ "?text=" +:+ order_text in
              ({| products := products'; orders := orders st ++ [order];
                  uploads := uploads st; cart := []; admin := admin st |},
               Redirect None messenger_url)
          end
      end
  end.

(** The fields of the admin forms; [None] is a field the request lacks. *)
Record product_form := {
  form_name : option string;
  form_slug : option string;
  form_description : option string;
  form_price : option string;
  form_stock : option string;
  form_image : option file_storage
}.

(** [float(request.form.get('price', '0') or 0)]: a field that is missing
    or empty gives [float('0')] or [float(0)], both [0.0]. *)
Definition price_field (f : product_form) : option spec_float :=
  match form_price f with
  | None | Some "" => Some (S754_zero false)
  | Some s => float_of_str s
  end.

(** [int(request.form.get('stock', '0') or 0)] *)
Definition stock_field (f : product_form) : option Z :=
  match form_stock f with
  | None | Some "" => Some 0
  | Some s => int_of_str s
  end.

(** [img and img.filename] *)
Definition has_upload (img : option file_storage) : option file_storage :=
  match img with
  | Some fs => if String.eqb (filename fs) "" then None else Some fs
  | None => None
  end.

Definition with_uploads (st : state) (folder : gmap string PIL.image) : state :=
  {| products := products st; orders := orders st; uploads := folder;
     cart := cart st; admin := admin st |}.

Definition with_products (st : state) (ps : gmap Z Product.t) : state :=
  {| products := ps; orders := orders st; uploads := uploads st;
     cart := cart st; admin := admin st |}.

(** The commit of a new product row: the [IntegrityError] cases are a
    missing name or slug and a slug already taken. *)
Definition insert_product (name slug : option string) (description : option string)
    (price_cents : Z) (image_filename : option string) (stock : Z)
    (ps : gmap Z Product.t) : option (gmap Z Product.t) :=
  match name, slug with
  | Some name, Some slug =>
      if existsb (fun kp => String.eqb (Product.slug kp.2) slug) (map_to_list ps)
      then None
      else
        Some (<[next_id (map_to_list ps).*1 :=
                Product.mk name slug description price_cents image_filename stock]> ps)
  | _, _ => None
  end.

(** The text of the database exception follows the flashed prefix; it is
    not part of the model. *)
Definition admin_add (f : product_form) (uuid_hex : string) (st : state)
  : state * response :=
  if negb (admin st) then (st, Redirect None "/admin")
  else
    match price_field f with
    | None => (st, Abort 500)
    | Some price_php =>
        match stock_field f with
        | None => (st, Abort 500)
        | Some stock =>
            let '(folder, saved) :=
              match has_upload (form_image f) with
              | Some img => save_and_resize_image img (600, 400) uuid_hex (uploads st)
              | None => (uploads st, Return None)
              end in
            match saved with
            | Raise => (with_uploads st folder, Abort 500)
            | Return filename =>
                match Py.int_of_float (Py.float_mul price_php (Py.float_of_int 100)) with
                | inl _ => (with_uploads st folder, Abort 500)
                | inr price_cents =>
                    match insert_product (form_name f) (form_slug f) (form_description f)
                            price_cents filename stock (products st) with
                    | Some ps =>
                        (with_products (with_uploads st folder) ps,
                         Redirect (Some "Product created") "/admin")
                    | None =>
                        (with_uploads st folder,
                         Redirect (Some "Error creating product: ") "/admin")
                    end
                end
            end
        end
    end.

(** The [try] block of [admin_edit]: the product with the new price and
    stock; [inl ValueError] is the branch of the [except] clause and
    [inl OverflowError] an exception it does not catch. *)
Definition edit_fields (price_in stock_in : option string) (p : Product.t)
  : Py.float_error + Product.t :=
  let priced :=
    match price_in with
    | None | Some "" => inr p
    | Some s =>
        match float_of_str s with
        | None => inl Py.ValueError
        | Some x =>
            match Py.int_of_float (Py.float_mul x (Py.float_of_int 100)) with
            | inl e => inl e
            | inr c => inr (Product.with_price_cents p c)
            end
        end
    end in
  match priced with
  | inl e => inl e
  | inr p =>
      match stock_in with
      | None => inr p
      | Some s =>
          match int_of_str s with
          | None => inl Py.ValueError
          | Some n => inr (Product.with_stock p n)
          end
      end
  end.

Definition admin_edit (product_id : Z) (f : product_form) (uuid_hex : string)
    (st : state) : state * response :=
  if negb (admin st) then (st, Redirect None "/admin")
  else
    match products st !! product_id with
    | None => (st, Abort 404)
    | Some p =>
        match edit_fields (form_price f) (form_stock f) p with
        | inl Py.ValueError => (st, Redirect (Some "Invalid price or stock") "/admin")
        | inl Py.OverflowError => (st, Abort 500)
        | inr p =>
            let '(folder, saved) :=
              match has_upload (form_image f) with
              | Some img => save_and_resize_image img (600, 400) uuid_hex (uploads st)
              | None => (uploads st, Return None)
              end in
            match saved with
            | Raise => (with_uploads st folder, Abort 500)
            | Return None =>
                (with_products (with_uploads st folder) (<[product_id := p]> (products st)),
                 Redirect (Some "Product updated") "/admin")
            | Return (Some filename) =>
                let folder :=
                  match Product.image_filename p with
                  | Some old => delete old folder
                  | None => folder
                  end in
                (with_products (with_uploads st folder)
                   (<[product_id := Product.with_image_filename p (Some filename)]>
                      (products st)),
                 Redirect (Some "Product updated") "/admin")
            end
        end
    end.

End Routes.

(** ** The session and the product page *)

(** [inject_cart_count]: the count every page shows beside its cart link,
    [sum(cart.values()) if cart else 0]. *)
Definition inject_cart_count (st : state) : Z :=
  match cart st with
  | [] => 0
  | c => fold_left Z.add c.*2 0
  end.

Module Route.

(** [product(slug)]: the row the product page is rendered for; [None] is
    the 404 of [first_or_404].  The query has no [ORDER BY]; the rows are
    searched in the order of the table's listing. *)
Definition product (slug : string) (st : state) : option Product.t :=
  snd <$> List.find (fun kp => String.eqb (Product.slug kp.2) slug)
            (map_to_list (products st)).

End Route.

Definition with_admin (st : state) (b : bool) : state :=
  {| products := products st; orders := orders st; uploads := uploads st;
     cart := cart st; admin := b |}.

Section Session.

(** Configuration read from the environment. *)
Variable ADMIN_PASS : string.

(** [password] is the form field; a request without it compares [None]
    with the password. *)
Definition admin_login (password : option string) (st : state) : state * response :=
  if bool_decide (password = Some ADMIN_PASS) then
    (with_admin st true, Redirect (Some "Logged in as admin") "/admin")
  else (st, Redirect (Some "Wrong password") "/admin").

End Session.

Definition admin_logout (st : state) : state * response :=
  (with_admin st false, Redirect (Some "Logged out") "/").

(** ** Vocabulary of the properties *)

(** The entries of a cart whose product still exists, with that product. *)
Definition priced_entries (ps : gmap Z Product.t) (c : list (Z * Z))
  : list (Product.t * Z) :=
  omap (fun '(pid, qty) => (fun p => (p, qty)) <$> ps !! pid) c.

Definition sum_Z (l : list Z) : Z := foldr Z.add 0 l.

(** The sum of unit price times quantity over those entries. *)
Definition grand_total (ps : gmap Z Product.t) (c : list (Z * Z)) : Z :=
  sum_Z ((fun '(p, qty) => Product.price_cents p * qty) <$> priced_entries ps c).

(** An entry that passes the check of [checkout]. *)
Definition available (ps : gmap Z Product.t) (entry : Z * Z) : Prop :=
  exists p, ps !! entry.1 = Some p /\ entry.2 <= Product.stock p.

(** An entry that fails it. *)
Definition unavailable (ps : gmap Z Product.t) (entry : Z * Z) : Prop :=
  ps !! entry.1 = None \/
  exists p, ps !! entry.1 = Some p /\ Product.stock p < entry.2.

(** The line of the order summary for an entry. *)
Definition summary_line (p : Product.t) (qty : Z) : string :=
  Product.name p +:+ " x" +:+ Py.str qty +:+ " @ " +:+ peso
  +:+ Py.format_2f (Product.price p).

(** The invariant of the product table. *)
Definition products_ok (ps : gmap Z Product.t) : Prop :=
  forall i p, ps !! i = Some p -> 0 <= Product.stock p /\ 0 <= Product.price_cents p.

(** [needle in haystack] *)
Fixpoint contains (needle haystack : string) : bool :=
  String.prefix needle haystack ||
  match haystack with
  | EmptyString => false
  | String _ rest => contains needle rest
  end.

(** [not (x < 0)] on a float. *)
Definition not_negative (x : spec_float) : Prop :=
  SFltb x (S754_zero false) = false.

(** A form whose stock and price, where they parse, are not negative.
    The arguments are Python's [float] and [int] on a [str]. *)
Definition submits_no_negative (float_of_str : string -> option spec_float)
    (int_of_str : string -> option Z) (f : product_form) : Prop :=
  (forall s n, form_stock f = Some s -> int_of_str s = Some n -> 0 <= n) /\
  (forall s x, form_price f = Some s -> float_of_str s = Some x -> not_negative x).

(** The extension of a file name in the usual sense: what follows the
    last dot of a name that has one. *)
Definition file_extension (filename : string) : option string :=
  if Py.has_dot filename then Some (Py.rsplit_dot_last filename) else None.

Definition allowed_extensions : list string := ["jpg"; "jpeg"; "png"; "webp"].

(** The whole number of minor units a price literal stands for. *)
Definition exact_cents (price : string) : option Z :=
  match Py.literal_fraction price with
  | Some (n, d) => if (n * 100) mod d =? 0 then Some (n * 100 / d) else None
  | None => None
  end.

(** A form with the same fields and no file. *)
Definition without_image (f : product_form) : product_form :=
  {| form_name := form_name f; form_slug := form_slug f;
     form_description := form_description f; form_price := form_price f;
     form_stock := form_stock f; form_image := None |}.

(** [int(request.form.get('qty', 1))]: the quantity a request to
    [add_to_cart] asks for; [None] is the [ValueError]. *)
Definition form_quantity (int_of_str : string -> option Z) (form_qty : option string)
  : option Z :=
  match form_qty with Some s => int_of_str s | None => Some 1 end.

(** [cart.values()] summed. *)
Definition quantities (c : list (Z * Z)) : Z := sum_Z c.*2.

(** No two rows of the product table share a slug. *)
Definition slugs_unique (ps : gmap Z Product.t) : Prop :=
  forall i j p q,
    ps !! i = Some p -> ps !! j = Some q -> Product.slug p = Product.slug q -> i = j.

(** The same row but for its stock. *)
Definition same_but_stock (p p' : Product.t) : Prop :=
  p' = Product.with_stock p (Product.stock p').

(** An amount of minor units written as units, a point and two digits. *)
Definition decimal_2 (cents : Z) : string :=
  Py.str (cents / 100) +:+ "." +:+ Py.two_digits (cents mod 100).

(** An integer SQLite stores in an [INTEGER] column, or takes as a key. *)
Definition int64 (n : Z) : Prop := - 2 ^ 63 <= n < 2 ^ 63.


(** The binary64 whose value is [n * 2^k], for [|n| < 2^53]. *)
Definition dyadic (n k : Z) : spec_float :=
  match n with
  | 0 => S754_zero false
  | Zpos p =>
      let d := Zpos (digits2_pos p) in
      S754_finite false (Z.to_pos (Zpos p * 2 ^ (53 - d))) (k + d - 53)
  | Zneg p =>
      let d := Zpos (digits2_pos p) in
      S754_finite true (Z.to_pos (Zpos p * 2 ^ (53 - d))) (k + d - 53)
  end.

(** The integer nearest to [n / 2], ties to even. *)
Definition half_round (n : Z) : Z :=
  cond_Zopp (n <? 0) (Py.half_even_div (Z.abs n) 2).

(** The rows [init_db] seeds into an empty product table. *)
Definition lenovo_ideapad : Product.t :=
  Product.mk "Lenovo IdeaPad" "lenovo-ideapad" (Some "Reliable everyday laptop.")
    2500000 None 5.
Definition dell_latitude : Product.t :=
  Product.mk "Dell Latitude" "dell-latitude" (Some "Business-grade laptop.")
    1800000 None 3.
Definition gaming_pc : Product.t :=
  Product.mk "Gaming PC" "gaming-pc" (Some "High-performance desktop for gaming.")
    4500000 None 2.
Definition mechanical_keyboard : Product.t :=
  Product.mk "Mechanical Keyboard" "mechanical-keyboard" (Some "RGB mechanical keyboard.")
    250000 None 10.
Definition gaming_mouse : Product.t :=
  Product.mk "Gaming Mouse" "gaming-mouse" (Some "High DPI gaming mouse.")
    120000 None 15.

Definition samples : list Product.t :=
  [lenovo_ideapad; dell_latitude; gaming_pc; mechanical_keyboard; gaming_mouse].

Definition init_db : gmap Z Product.t := list_to_map (zip [1; 2; 3; 4; 5] samples).

(** [setup_once], run before every request: on the first request of the
    process it calls [init_db], which seeds the product table when it has
    no row.  [initialized] is [hasattr(app, 'db_initialized')]; the result
    pairs the flag after the call with the table after it. *)
Definition setup_once (initialized : bool) (ps : gmap Z Product.t)
  : bool * gmap Z Product.t :=
  if initialized then (true, ps)
  else (true, if bool_decide (ps = ∅) then init_db else ps).

(** A freshly seeded shop seen by a client holding the cart [c]. *)
Definition seeded (c : list (Z * Z)) (is_admin : bool) : state :=
  {| products := init_db; orders := []; uploads := ∅; cart := c; admin := is_admin |}.

(** ** The cart *)

Lemma grand_total_nil ps : grand_total ps [] = 0.
Proof. reflexivity. Qed.

Lemma grand_total_cons ps pid qty c :
  grand_total ps ((pid, qty) :: c)
  = match ps !! pid with
    | Some p => Product.price_cents p * qty + grand_total ps c
    | None => grand_total ps c
    end.
Proof.
  unfold grand_total, priced_entries. simpl.
  by destruct (ps !! pid).
Qed.

Lemma priced_entries_cons ps pid qty c :
  priced_entries ps ((pid, qty) :: c)
  = match ps !! pid with
    | Some p => (p, qty) :: priced_entries ps c
    | None => priced_entries ps c
    end.
Proof. unfold priced_entries. simpl. by destruct (ps !! pid). Qed.

#[local] Arguments priced_entries : simpl never.
#[local] Arguments grand_total : simpl never.

Lemma cart_total_cents_acc ps c t :
  fold_left
    (fun total '(pid, qty) =>
       match ps !! pid with
       | Some p => total + Product.price_cents p * qty
       | None => total
       end) c t = t + grand_total ps c.
Proof.
  revert t. induction c as [|[pid qty] c IH]; intros t; simpl.
  - rewrite grand_total_nil. lia.
  - rewrite IH, grand_total_cons.
    destruct (ps !! pid) as [p|]; lia.
Qed.

Lemma cart_total_cents_grand_total ps c :
  cart_total_cents ps c = grand_total ps c.
Proof. unfold cart_total_cents. rewrite cart_total_cents_acc. lia. Qed.

Lemma view_cart_items_acc ps c acc :
  fold_left
    (fun items '(pid, qty) =>
       match ps !! pid with
       | Some p =>
           items ++ [{| product := p; qty := qty;
                        total := Product.price_cents p * qty |}]
       | None => items
       end) c acc
  = acc ++ ((fun '(p, q) => {| product := p; qty := q;
                               total := Product.price_cents p * q |})
              <$> priced_entries ps c).
Proof.
  revert acc. induction c as [|[pid qty] c IH]; intros acc; simpl.
  - by rewrite app_nil_r.
  - rewrite IH, priced_entries_cons.
    destruct (ps !! pid) as [p|]; simpl; [|done].
    by rewrite <- app_assoc.
Qed.

Lemma grand_total_skip ps c1 pid qty c2 :
  ps !! pid = None ->
  grand_total ps (c1 ++ (pid, qty) :: c2) = grand_total ps (c1 ++ c2).
Proof.
  intros Hnone. unfold grand_total, priced_entries.
  rewrite !omap_app. simpl. by rewrite Hnone.
Qed.

(** The cart is a dictionary: its keys stay distinct. *)
Lemma dict_set_keys key value d :
  (dict_set key value d).*1 = if decide (key ∈ d.*1) then d.*1 else d.*1 ++ [key].
Proof.
  induction d as [|[k v] d IH]; [done|]. cbn [dict_set].
  destruct (Z.eqb_spec k key) as [->|Hne]; rewrite !fmap_cons; cbn [fst].
  - by rewrite decide_True by apply list_elem_of_here.
  - rewrite IH. destruct (decide (key ∈ d.*1)) as [Hin|Hout].
    + by rewrite decide_True by (by apply list_elem_of_further).
    + rewrite decide_False; [done|].
      intros [?|?]%elem_of_cons; congruence.
Qed.

Lemma cart_keys_unique page int_of_str st :
  NoDup (cart st).*1 ->
  (forall product_id form_qty,
     NoDup (cart (add_to_cart int_of_str product_id form_qty st).1).*1) /\
  (forall product_id, NoDup (cart (remove_from_cart product_id st).1).*1) /\
  (forall name address now, NoDup (cart (checkout page name address now st).1).*1).
Proof.
  intros Hnd. split; [|split].
  - intros product_id form_qty. unfold add_to_cart.
    destruct (match form_qty with Some s => int_of_str s | None => Some 1 end)
      as [qty|]; [|done].
    destruct (products st !! product_id) as [p|]; [|done].
    destruct (Product.stock p <? qty); [done|]. simpl.
    rewrite dict_set_keys. destruct (decide (product_id ∈ (cart st).*1)); [done|].
    apply NoDup_app. split; [done|]. split; [|apply NoDup_singleton].
    intros k Hk Hk'. apply list_elem_of_singleton in Hk' as ->. done.
  - intros product_id. simpl. unfold dict_pop.
    induction (cart st) as [|[k v] c IH]; [constructor|].
    simpl in Hnd. apply NoDup_cons in Hnd as [Hk Hnd].
    rewrite filter_cons. destruct (decide ((k, v).1 ≠ product_id)); [|by apply IH].
    simpl. apply NoDup_cons. split; [|by apply IH].
    intros Hin. apply Hk. apply list_elem_of_fmap in Hin as ([k' v'] & -> & Hin).
    apply list_elem_of_filter in Hin as [_ Hin].
    apply list_elem_of_fmap. by exists (k', v').
  - intros name address now. unfold checkout.
    destruct (cart st) as [|entry c] eqn:Hc; [simpl; by rewrite Hc|].
    destruct (checkout_verify _ _ _ _) as [message|[items_summary total]];
      [simpl; by rewrite Hc|].
    destruct (checkout_decrement _ _); [constructor|simpl; by rewrite Hc].
Qed.

(** ** The two loops of checkout *)

Lemma checkout_verify_unavailable ps c acc t :
  Exists (unavailable ps) c ->
  exists message, checkout_verify ps c acc t = inl message.
Proof.
  revert acc t. induction c as [|[pid qty] c IH]; intros acc t Hex.
  - inversion Hex.
  - simpl. destruct (ps !! pid) as [p|] eqn:Hp; [|eauto].
    destruct (Z.ltb_spec (Product.stock p) qty) as [Hlt|Hlt]; [eauto|].
    apply Exists_cons in Hex as [Hbad|Hex]; [|by apply IH].
    destruct Hbad as [Hnone|(p' & Hp' & Hlow)]; simpl in *.
    + congruence.
    + assert (p' = p) by congruence. subst. lia.
Qed.

Lemma checkout_verify_app ps c rest acc t :
  Forall (available ps) c ->
  checkout_verify ps (c ++ rest) acc t
  = checkout_verify ps rest
      (acc ++ ((fun '(p, q) => summary_line p q) <$> priced_entries ps c))
      (t + grand_total ps c).
Proof.
  revert acc t. induction c as [|[pid qty] c IH]; intros acc t Hall.
  - simpl. rewrite grand_total_nil, app_nil_r. f_equal. lia.
  - apply Forall_cons in Hall as [(p & Hp & Hq) Hall]. simpl in *.
    rewrite Hp. destruct (Z.ltb_spec (Product.stock p) qty) as [Hlt|Hlt]; [lia|].
    rewrite IH by done. rewrite grand_total_cons, priced_entries_cons, Hp.
    simpl. rewrite <- app_assoc. f_equal. lia.
Qed.

Lemma checkout_verify_available ps c acc t :
  Forall (available ps) c ->
  checkout_verify ps c acc t
  = inr (acc ++ ((fun '(p, q) => summary_line p q) <$> priced_entries ps c),
         t + grand_total ps c).
Proof.
  intros Hall. rewrite <- (app_nil_r c) at 1.
  by rewrite checkout_verify_app.
Qed.

Lemma checkout_verify_inr ps c acc t items_summary total :
  checkout_verify ps c acc t = inr (items_summary, total) ->
  Forall (available ps) c.
Proof.
  revert acc t. induction c as [|[pid qty] c IH]; intros acc t Hv; [constructor|].
  simpl in Hv. destruct (ps !! pid) as [p|] eqn:Hp; [|done].
  destruct (Z.ltb_spec (Product.stock p) qty) as [Hlt|Hlt]; [done|].
  constructor; [|by eapply IH].
  exists p. simpl. split; [done|lia].
Qed.

Lemma available_priced_entries ps c :
  Forall (available ps) c -> (priced_entries ps c).*2 = c.*2.
Proof.
  induction 1 as [|[pid qty] c (p & Hp & _) _ IH]; [done|].
  simpl in Hp. rewrite priced_entries_cons, Hp. simpl. by f_equal.
Qed.

Lemma checkout_decrement_available ps ps0 c :
  dom ps = dom ps0 ->
  Forall (available ps0) c ->
  exists ps', checkout_decrement ps c = Some ps' /\ dom ps' = dom ps0.
Proof.
  revert ps. induction c as [|[pid qty] c IH]; intros ps Hdom Hall.
  - simpl. eauto.
  - apply Forall_cons in Hall as [(p0 & Hp0 & _) Hall]. simpl in *.
    assert (is_Some (ps !! pid)) as [p Hp].
    { apply elem_of_dom. rewrite Hdom. apply elem_of_dom. eauto. }
    rewrite Hp. apply IH; [|done].
    rewrite dom_insert_lookup_L; eauto.
Qed.

Lemma checkout_decrement_lookup ps c ps' :
  checkout_decrement ps c = Some ps' ->
  NoDup c.*1 ->
  forall pid,
    (pid ∉ c.*1 -> ps' !! pid = ps !! pid) /\
    (forall qty, (pid, qty) ∈ c ->
       exists p, ps !! pid = Some p /\
         ps' !! pid = Some (Product.with_stock p (Z.max (Product.stock p - qty) 0))).
Proof.
  revert ps. induction c as [|[k q] c IH]; intros ps Hdec Hnd pid.
  - simpl in Hdec. injection Hdec as <-. split; [done|].
    intros qty Hin. by apply elem_of_nil in Hin.
  - simpl in Hdec, Hnd. apply NoDup_cons in Hnd as [Hk Hnd].
    destruct (ps !! k) as [p|] eqn:Hp; [|done].
    destruct (IH _ Hdec Hnd pid) as [Hout Hin]. split.
    + intros Hnot. simpl in Hnot. apply not_elem_of_cons in Hnot as [Hne Hnot].
      rewrite Hout by done. by rewrite lookup_insert_ne.
    + intros qty Hmem. apply elem_of_cons in Hmem as [Heq|Hmem].
      * injection Heq as -> ->. exists p. split; [done|].
        destruct (IH _ Hdec Hnd k) as [Hout' _].
        rewrite Hout' by done. by rewrite lookup_insert_eq.
      * assert (pid ≠ k) as Hne.
        { intros ->. apply Hk. apply list_elem_of_fmap. by exists (k, qty). }
        destruct (Hin qty Hmem) as (p' & Hp' & Hps').
        rewrite lookup_insert_ne in Hp' by done. eauto.
Qed.

Lemma checkout_decrement_ok ps c ps' :
  checkout_decrement ps c = Some ps' -> products_ok ps -> products_ok ps'.
Proof.
  revert ps. induction c as [|[k q] c IH]; intros ps Hdec Hok.
  - simpl in Hdec. by injection Hdec as <-.
  - simpl in Hdec. destruct (ps !! k) as [p|] eqn:Hp; [|done].
    apply (IH _ Hdec). intros i p' Hi.
    destruct (decide (k = i)) as [->|Hne].
    + rewrite lookup_insert_eq in Hi. injection Hi as <-. simpl.
      split; [lia|]. by apply (Hok i p).
    + rewrite lookup_insert_ne in Hi by done. by apply (Hok i).
Qed.

(** ** Checkout *)

Lemma checkout_success page name address now st :
  cart st <> [] ->
  Forall (available (products st)) (cart st) ->
  exists ps',
    checkout_decrement (products st) (cart st) = Some ps' /\
    checkout page name address now st
    = ({| products := ps';
          orders := orders st ++
            [Order.mk (next_id (Order.id <$> orders st)) now name address
               (Py.join "; "
                  ((fun '(p, q) => summary_line p q)
                     <$> priced_entries (products st) (cart st)))
               (grand_total (products st) (cart st))];
          uploads := uploads st; cart := []; admin := admin st |},
       Redirect None
         ("https://m.me/" +:+ page +:+ "?text=" +:+
          order_text (next_id (Order.id <$> orders st))
            ((fun '(p, q) => summary_line p q)
               <$> priced_entries (products st) (cart st))
            (grand_total (products st) (cart st)) name address)).
Proof.
  intros Hne Hall.
  destruct (checkout_decrement_available (products st) (products st) (cart st))
    as (ps' & Hdec & _); [done..|].
  exists ps'. split; [done|].
  unfold checkout. destruct (cart st) as [|entry c] eqn:Hc; [done|].
  rewrite checkout_verify_available by done.
  rewrite Hdec. simpl. rewrite Z.add_0_l. reflexivity.
Qed.

Lemma checkout_redirect_none page name address now st st' url :
  checkout page name address now st = (st', Redirect None url) ->
  cart st <> [] /\ Forall (available (products st)) (cart st).
Proof.
  unfold checkout. intros Hco.
  destruct (cart st) as [|entry c] eqn:Hc; [done|].
  split; [done|].
  destruct (checkout_verify (products st) (entry :: c) [] 0)
    as [message|[items_summary total]] eqn:Hv; [done|].
  by eapply checkout_verify_inr.
Qed.

(** C1.  A cart that is empty, or that holds an entry whose product is
    missing or whose quantity exceeds the product's stock, makes checkout
    fail with a flashed message, and the state it leaves is the state it
    found: no stock changes and no order is recorded. *)
Theorem checkout_all_or_nothing page name address now st :
  cart st = [] \/ Exists (unavailable (products st)) (cart st) ->
  exists message,
    checkout page name address now st = (st, Redirect (Some message) "/cart").
Proof.
  intros [Hempty|Hbad]; unfold checkout.
  - rewrite Hempty. eauto.
  - destruct (cart st) as [|entry c] eqn:Hc; [eauto|].
    destruct (checkout_verify_unavailable (products st) (entry :: c) [] 0 Hbad)
      as [message ->].
    eauto.
Qed.

(** C2.  A checkout that returns its success response, the redirect to
    the messaging link, found every entry of the cart passing the check
    (the product exists and its stock is at least the quantity), and it
    leaves every line item's product with its old stock minus the cart
    quantity, which is not negative.  The keys of a cart are unique, as
    those of a dictionary are. *)
Theorem checkout_decrements_stock page name address now st st' url :
  checkout page name address now st = (st', Redirect None url) ->
  NoDup (cart st).*1 ->
  Forall (available (products st)) (cart st) /\
  forall pid qty, (pid, qty) ∈ cart st ->
    exists p p',
      products st !! pid = Some p /\
      products st' !! pid = Some p' /\
      Product.stock p' = Product.stock p - qty /\
      0 <= Product.stock p'.
Proof.
  intros Hco Hnd.
  destruct (checkout_redirect_none _ _ _ _ _ _ _ Hco) as [Hne Hall].
  split; [exact Hall|].
  destruct (checkout_success page name address now st Hne Hall)
    as (ps' & Hdec & Heq).
  rewrite Heq in Hco. injection Hco as <- _.
  intros pid qty Hin. simpl.
  destruct (checkout_decrement_lookup _ _ _ Hdec Hnd pid) as [_ Hl].
  destruct (Hl qty Hin) as (p & Hp & Hp').
  exists p, (Product.with_stock p (Z.max (Product.stock p - qty) 0)).
  rewrite Forall_forall in Hall.
  destruct (Hall (pid, qty) Hin) as (p0 & Hp0 & Hq).
  simpl in *. assert (p0 = p) by congruence. subst.
  repeat split; [done..|lia|lia].
Qed.

(** C3.  After a successful checkout the session cart is empty and the
    order table has gained exactly one order, whose total is the grand
    total the cart had before: the sum of price times quantity over its
    entries, every one of which has its product. *)
Theorem checkout_clears_cart_and_records_total page name address now st st' url :
  checkout page name address now st = (st', Redirect None url) ->
  cart st' = [] /\
  exists order,
    orders st' = orders st ++ [order] /\
    Order.total_cents order = cart_total_cents (products st) (cart st) /\
    Order.total_cents order = grand_total (products st) (cart st) /\
    (priced_entries (products st) (cart st)).*2 = (cart st).*2.
Proof.
  intros Hco.
  destruct (checkout_redirect_none _ _ _ _ _ _ _ Hco) as [Hne Hall].
  destruct (checkout_success page name address now st Hne Hall)
    as (ps' & Hdec & Heq).
  rewrite Heq in Hco. injection Hco as <- _.
  simpl. split; [done|].
  eexists. split; [reflexivity|]. simpl.
  rewrite cart_total_cents_grand_total.
  repeat split. by apply available_priced_entries.
Qed.

Lemma checkout_all_or_nothing_witness :
  Exists (unavailable init_db) [(3, 10)] /\
  exists message,
    checkout "page" (Some "Ann") (Some "1 Main St") 0 (seeded [(3, 10)] false)
    = (seeded [(3, 10)] false, Redirect (Some message) "/cart").
Proof.
  assert (Exists (unavailable init_db) [(3, 10)]) as Hbad.
  { apply Exists_cons_hd. right. exists gaming_pc.
    split; [vm_compute; reflexivity | simpl; lia]. }
  split; [exact Hbad|].
  apply (checkout_all_or_nothing "page" (Some "Ann") (Some "1 Main St") 0
           (seeded [(3, 10)] false)).
  right. exact Hbad.
Defined.

Lemma checkout_decrements_stock_witness :
  exists st' url,
    checkout "page" (Some "Ann") (Some "1 Main St") 0 (seeded [(1, 2); (5, 15)] false)
    = (st', Redirect None url) /\
    Forall (available init_db) [(1, 2); (5, 15)] /\
    forall pid qty, (pid, qty) ∈ [(1, 2); (5, 15)] ->
      exists p p',
        init_db !! pid = Some p /\
        products st' !! pid = Some p' /\
        Product.stock p' = Product.stock p - qty /\
        0 <= Product.stock p'.
Proof.
  destruct (checkout "page" (Some "Ann") (Some "1 Main St") 0
              (seeded [(1, 2); (5, 15)] false))
    as [st' [flashed url| |]] eqn:Hco; try (vm_compute in Hco; discriminate Hco).
  destruct flashed as [message|]; [vm_compute in Hco; discriminate Hco|].
  exists st', url. split; [reflexivity|].
  apply (checkout_decrements_stock _ _ _ _ _ _ _ Hco).
  simpl. compute_done.
Defined.

Lemma checkout_clears_cart_and_records_total_witness :
  exists st' url,
    checkout "page" (Some "Ann") (Some "1 Main St") 0 (seeded [(1, 2)] false)
    = (st', Redirect None url) /\
    cart st' = [] /\
    exists order,
      orders st' = [order] /\
      Order.total_cents order = cart_total_cents init_db [(1, 2)] /\
      Order.total_cents order = 5000000.
Proof.
  destruct (checkout "page" (Some "Ann") (Some "1 Main St") 0 (seeded [(1, 2)] false))
    as [st' [flashed url| |]] eqn:Hco; try (vm_compute in Hco; discriminate Hco).
  destruct flashed as [message|]; [vm_compute in Hco; discriminate Hco|].
  exists st', url. split; [reflexivity|].
  destruct (checkout_clears_cart_and_records_total _ _ _ _ _ _ _ Hco)
    as (Hcart & order & Horders & Htotal & Hsum & _).
  split; [exact Hcart|].
  exists order. split; [exact Horders|]. split; [exact Htotal|].
  rewrite Hsum. vm_compute. reflexivity.
Defined.

Lemma sum_Z_cons x l : sum_Z (x :: l) = x + sum_Z l.
Proof. reflexivity. Qed.

Lemma sum_Z_item_totals (l : list (Product.t * Z)) :
  sum_Z (total <$> ((fun '(p, q) => {| product := p; qty := q;
                                      total := Product.price_cents p * q |}) <$> l))
  = sum_Z ((fun '(p, qty) => Product.price_cents p * qty) <$> l).
Proof.
  induction l as [|[p q] l IH]; [done|].
  by rewrite !fmap_cons, !sum_Z_cons, IH.
Qed.

(** C4.  Pricing a cart leaves the state as it was and shows one item,
    with its subtotal, for each entry whose product exists; the grand
    total is the sum of price times quantity over exactly those entries,
    hence the sum of the subtotals shown, and an entry whose product is
    missing contributes nothing. *)
Theorem view_cart_prices_existing_entries st :
  view_cart st
  = (st, CartPage
           ((fun '(p, q) => {| product := p; qty := q;
                               total := Product.price_cents p * q |})
              <$> priced_entries (products st) (cart st))
           (grand_total (products st) (cart st))) /\
  cart_total_cents (products st) (cart st)
  = sum_Z ((fun '(p, qty) => Product.price_cents p * qty)
             <$> priced_entries (products st) (cart st)) /\
  (forall items total_cents,
     (view_cart st).2 = CartPage items total_cents ->
     total_cents = sum_Z (total <$> items)) /\
  (forall before pid qty after,
     products st !! pid = None ->
     cart_total_cents (products st) (before ++ (pid, qty) :: after)
     = cart_total_cents (products st) (before ++ after)).
Proof.
  assert (view_cart st
          = (st, CartPage
                   ((fun '(p, q) => {| product := p; qty := q;
                                       total := Product.price_cents p * q |})
                      <$> priced_entries (products st) (cart st))
                   (grand_total (products st) (cart st)))) as Hview.
  { unfold view_cart.
    by rewrite view_cart_items_acc, cart_total_cents_grand_total. }
  split; [exact Hview|]. split; [apply cart_total_cents_grand_total|]. split.
  - intros items total_cents. rewrite Hview. simpl. intros [= <- <-].
    by rewrite sum_Z_item_totals.
  - intros before pid qty after Hnone.
    rewrite !cart_total_cents_grand_total. by apply grand_total_skip.
Qed.

(** C6, as the code has it.  When the first entry that fails the check
    asks for more than the stock of its product, checkout flashes a message
    that names the product and the stock available, says nothing of the
    quantity asked for, and leaves cart, stock and orders as they were. *)
Theorem checkout_insufficient_stock_message page name address now st
    passed pid qty rest p :
  cart st = passed ++ (pid, qty) :: rest ->
  Forall (available (products st)) passed ->
  products st !! pid = Some p ->
  Product.stock p < qty ->
  checkout page name address now st
  = (st, Redirect
           (Some ("Not enough stock for " +:+ Product.name p +:+ ". Available: "
                  +:+ Py.str (Product.stock p)))
           "/cart").
Proof.
  intros Hcart Hpassed Hp Hlow. unfold checkout. rewrite Hcart.
  rewrite checkout_verify_app by done. simpl. rewrite Hp.
  destruct (Z.ltb_spec (Product.stock p) qty) as [_|Hge]; [|lia].
  by destruct passed.
Qed.

Lemma checkout_insufficient_stock_message_witness :
  checkout "page" (Some "Ann") (Some "1 Main St") 0 (seeded [(1, 2); (3, 10)] false)
  = (seeded [(1, 2); (3, 10)] false,
     Redirect (Some "Not enough stock for Gaming PC. Available: 2") "/cart").
Proof.
  apply (checkout_insufficient_stock_message "page" (Some "Ann") (Some "1 Main St") 0
           (seeded [(1, 2); (3, 10)] false) [(1, 2)] 3 10 [] gaming_pc).
  - reflexivity.
  - apply Forall_cons_2; [|apply Forall_nil_2].
    exists lenovo_ideapad. split; [vm_compute; reflexivity | simpl; lia].
  - vm_compute. reflexivity.
  - simpl. lia.
Defined.

(** C6, against the claim as stated.  For the cart [{3: 10}] on a product
    with stock 2 the message names the product and the stock, and the
    quantity asked for is nowhere in it; asking for 11 yields the very
    same message. *)
Lemma checkout_message_omits_requested_quantity :
  checkout "page" (Some "Ann") (Some "1 Main St") 0 (seeded [(3, 10)] false)
  = (seeded [(3, 10)] false,
     Redirect (Some "Not enough stock for Gaming PC. Available: 2") "/cart") /\
  contains (Py.str 10) "Not enough stock for Gaming PC. Available: 2" = false /\
  (checkout "page" (Some "Ann") (Some "1 Main St") 0 (seeded [(3, 11)] false)).2
  = (checkout "page" (Some "Ann") (Some "1 Main St") 0 (seeded [(3, 10)] false)).2.
Proof. repeat split; vm_compute; reflexivity. Qed.

(** ** The hand-off text *)

Lemma append_assoc (s t u : string) : (s +:+ t) +:+ u = s +:+ t +:+ u.
Proof.
  induction s as [|a s IH]; [done|].
  change (String a (s +:+ t) +:+ u = String a (s +:+ t +:+ u)).
  change (String a ((s +:+ t) +:+ u) = String a (s +:+ t +:+ u)).
  by rewrite IH.
Qed.

Lemma join_cons sep x y l :
  Py.join sep (x :: y :: l) = x +:+ sep +:+ Py.join sep (y :: l).
Proof. reflexivity. Qed.

Lemma order_text_loop (items_summary tail : list string) (text : string) :
  tail <> [] ->
  fold_left (fun order_text line => order_text +:+ "- " +:+ line +:+ "%0A")
    items_summary text +:+ Py.join "%0A" tail
  = text +:+ Py.join "%0A" (((fun line => "- " +:+ line) <$> items_summary) ++ tail).
Proof.
  intros Htail. revert text.
  induction items_summary as [|line items_summary IH]; intros text; [reflexivity|].
  rewrite fmap_cons. simpl fold_left. rewrite IH.
  destruct (((fun line => "- " +:+ line) <$> items_summary) ++ tail) as [|y l] eqn:Hl.
  { destruct items_summary, tail; done. }
  change ((("- " +:+ line) :: ((fun line => "- " +:+ line) <$> items_summary)) ++ tail)
    with (("- " +:+ line) :: (((fun line => "- " +:+ line) <$> items_summary) ++ tail)).
  rewrite Hl, join_cons. by rewrite !append_assoc.
Qed.

Lemma order_text_lines order_id items_summary total name address :
  order_text order_id items_summary total name address
  = Py.join "%0A"
      (["Laptop Galleria Order"; "Order#: " +:+ Py.str order_id]
       ++ ((fun line => "- " +:+ line) <$> items_summary)
       ++ [""; "Total: " +:+ peso +:+ Py.format_2f (Py.quotient total 100);
           "Name: " +:+ Py.format_opt name;
           "Address: " +:+ Py.format_opt address]).
Proof.
  unfold order_text.
  set (tail := [""; "Total: " +:+ peso +:+ Py.format_2f (Py.quotient total 100);
                "Name: " +:+ Py.format_opt name;
                "Address: " +:+ Py.format_opt address]).
  transitivity
    (fold_left (fun order_text line => order_text +:+ "- " +:+ line +:+ "%0A")
       items_summary ("Laptop Galleria Order%0AOrder#: " +:+ Py.str order_id +:+ "%0A")
     +:+ Py.join "%0A" tail).
  { reflexivity. }
  rewrite order_text_loop by done.
  destruct (((fun line => "- " +:+ line) <$> items_summary) ++ tail) as [|y l] eqn:Hl.
  { destruct items_summary; done. }
  change (["Laptop Galleria Order"; "Order#: " +:+ Py.str order_id] ++ y :: l)
    with ("Laptop Galleria Order" :: ("Order#: " +:+ Py.str order_id) :: y :: l).
  rewrite !join_cons. by rewrite !append_assoc.
Qed.








(** ** The admin forms *)

Lemma binary_round_aux_sign s m e l :
  match binary_round_aux Py.prec Py.emax s m e l with
  | S754_finite s' _ _ => s' = s
  | _ => True
  end.
Proof.
  unfold binary_round_aux.
  destruct (shr_fexp Py.prec Py.emax m e l) as [mrs' e'].
  destruct (shr_fexp Py.prec Py.emax _ e' loc_Exact) as [mrs'' e''].
  destruct (shr_m mrs''); [done| |done].
  by destruct (e'' <=? Py.emax - Py.prec).
Qed.

Lemma int_of_float_times_100_nonneg x c :
  not_negative x ->
  Py.int_of_float (Py.float_mul x (Py.float_of_int 100)) = inr c ->
  0 <= c.
Proof.
  unfold not_negative, Py.float_mul.
  change (Py.float_of_int 100) with (S754_finite false 7036874417766400 (-46)).
  destruct x as [s|s| |s m e]; intros Hx.
  - intros [= <-]. lia.
  - done.
  - done.
  - assert (s = false) as -> by (by destruct s).
    unfold SFmul, xorb.
    pose proof (binary_round_aux_sign false
                  (Z.pos (m * 7036874417766400)) (e + -46) loc_Exact) as Hsign.
    destruct (binary_round_aux Py.prec Py.emax false
                (Z.pos (m * 7036874417766400)) (e + -46) loc_Exact)
      as [s'|s'| |s' m' e']; try done.
    + intros [= <-]. lia.
    + subst s'. intros [= <-]. unfold cond_Zopp. apply Z.shiftl_nonneg. lia.
Qed.

Lemma products_ok_insert ps i p :
  products_ok ps ->
  0 <= Product.stock p -> 0 <= Product.price_cents p ->
  products_ok (<[i := p]> ps).
Proof.
  intros Hok Hs Hp j q Hj.
  destruct (decide (i = j)) as [->|Hne].
  - rewrite lookup_insert_eq in Hj. by injection Hj as <-.
  - rewrite lookup_insert_ne in Hj by done. by apply (Hok j).
Qed.

Lemma insert_product_Some name slug description price_cents image stock ps ps' :
  insert_product name slug description price_cents image stock ps = Some ps' ->
  exists name' slug',
    name = Some name' /\ slug = Some slug' /\
    ps' = <[next_id (map_to_list ps).*1 :=
             Product.mk name' slug' description price_cents image stock]> ps.
Proof.
  unfold insert_product. destruct name as [name'|], slug as [slug'|]; try done.
  destruct (existsb _ _); [done|]. intros [= <-]. eauto.
Qed.

Lemma next_id_fresh (ps : gmap Z Product.t) :
  ps !! next_id (map_to_list ps).*1 = None.
Proof.
  assert (forall (l : list Z) k, k ∈ l -> k < next_id l) as Hmax.
  { unfold next_id. induction l as [|x l IH]; intros k Hk.
    - by apply elem_of_nil in Hk.
    - apply elem_of_cons in Hk as [->|Hk]; simpl; [lia|].
      specialize (IH k Hk). lia. }
  destruct (ps !! next_id (map_to_list ps).*1) as [p|] eqn:Hp; [|done].
  apply elem_of_map_to_list in Hp.
  assert (next_id (map_to_list ps).*1 ∈ (map_to_list ps).*1) as Hin.
  { apply list_elem_of_fmap. by eexists (_, p). }
  apply Hmax in Hin. lia.
Qed.

Lemma admin_add_products_ok float_of_str int_of_str f uuid_hex st :
  products_ok (products st) ->
  submits_no_negative float_of_str int_of_str f ->
  products_ok (products (admin_add float_of_str int_of_str f uuid_hex st).1).
Proof.
  intros Hok [Hstock Hprice]. unfold admin_add.
  destruct (admin st); simpl; [|done].
  destruct (price_field float_of_str f) as [price_php|] eqn:Hpf; [|done].
  destruct (stock_field int_of_str f) as [stock|] eqn:Hsf; [|done].
  destruct (match has_upload (form_image f) with
            | Some img => save_and_resize_image img (600, 400) uuid_hex (uploads st)
            | None => (uploads st, Return None)
            end) as [folder [filename|]]; [|done].
  destruct (Py.int_of_float _) as [err|price_cents] eqn:Hint; [done|].
  destruct (insert_product _ _ _ _ _ _ _) as [ps|] eqn:Hins; [|done].
  apply insert_product_Some in Hins as (name' & slug' & _ & _ & ->).
  simpl. apply products_ok_insert; [done| |]; simpl.
  - unfold stock_field in Hsf.
    destruct (form_stock f) as [[|a s]|] eqn:Hfs; try (injection Hsf as <-; lia).
    by eapply Hstock.
  - apply (int_of_float_times_100_nonneg price_php); [|done].
    unfold price_field in Hpf.
    destruct (form_price f) as [[|a s]|] eqn:Hfp; try (by injection Hpf as <-).
    by eapply Hprice.
Qed.

Lemma edit_fields_ok float_of_str int_of_str f p p' :
  submits_no_negative float_of_str int_of_str f ->
  0 <= Product.stock p -> 0 <= Product.price_cents p ->
  edit_fields float_of_str int_of_str (form_price f) (form_stock f) p = inr p' ->
  0 <= Product.stock p' /\ 0 <= Product.price_cents p'.
Proof.
  intros [Hstock Hprice] Hs Hp. unfold edit_fields.
  assert (forall q, match form_price f with
                    | None | Some "" => inr p
                    | Some s =>
                        match float_of_str s with
                        | None => inl Py.ValueError
                        | Some x =>
                            match Py.int_of_float (Py.float_mul x (Py.float_of_int 100)) with
                            | inl e => inl e
                            | inr c => inr (Product.with_price_cents p c)
                            end
                        end
                    end = inr q ->
                    0 <= Product.stock q /\ 0 <= Product.price_cents q) as Hq.
  { intros q. destruct (form_price f) as [[|a s]|] eqn:Hfp; try (by intros [= <-]).
    destruct (float_of_str (String a s)) as [x|] eqn:Hx; [|done].
    destruct (Py.int_of_float _) as [err|c] eqn:Hint; [done|].
    intros [= <-]. simpl. split; [done|].
    eapply int_of_float_times_100_nonneg; [|done]. by eapply Hprice. }
  destruct (match form_price f with None | Some "" => _ | Some _ => _ end)
    as [err|q]; [done|].
  destruct (Hq q eq_refl) as [Hqs Hqp].
  destruct (form_stock f) as [s|] eqn:Hfs; [|by intros [= <-]].
  destruct (int_of_str s) as [n|] eqn:Hn; [|done].
  intros [= <-]. simpl. split; [by eapply Hstock|done].
Qed.

Lemma admin_edit_products_ok float_of_str int_of_str product_id f uuid_hex st :
  products_ok (products st) ->
  submits_no_negative float_of_str int_of_str f ->
  products_ok (products (admin_edit float_of_str int_of_str product_id f uuid_hex st).1).
Proof.
  intros Hok Hf. unfold admin_edit.
  destruct (admin st); simpl; [|done].
  destruct (products st !! product_id) as [p|] eqn:Hp; [|done].
  destruct (edit_fields _ _ _ _ p) as [[|]|p'] eqn:Hedit; [done..|].
  destruct (Hok _ _ Hp) as [Hs Hc].
  destruct (edit_fields_ok _ _ _ _ _ Hf Hs Hc Hedit) as [Hs' Hc'].
  destruct (match has_upload (form_image f) with
            | Some img => save_and_resize_image img (600, 400) uuid_hex (uploads st)
            | None => (uploads st, Return None)
            end) as [folder [[filename|]|]]; [| |done].
  - simpl. by apply products_ok_insert.
  - simpl. by apply products_ok_insert.
Qed.

Lemma checkout_products_ok page name address now st :
  products_ok (products st) ->
  products_ok (products (checkout page name address now st).1).
Proof.
  intros Hok. unfold checkout.
  destruct (cart st) as [|entry c]; [done|].
  destruct (checkout_verify _ _ _ _) as [message|[items_summary total]]; [done|].
  destruct (checkout_decrement _ _) as [ps'|] eqn:Hdec; [|done].
  simpl. by eapply checkout_decrement_ok.
Qed.

(** C5, as the code has it.  From a product table in which every stock and
    every price is non-negative, checkout leaves such a table, and so do
    admin create and admin edit when the stock and the price they are
    given are not negative.  (The admin forms carry no range check.) *)
Theorem core_operations_preserve_product_invariants page float_of_str int_of_str st :
  products_ok (products st) ->
  (forall name address now,
     products_ok (products (checkout page name address now st).1)) /\
  (forall f uuid_hex,
     submits_no_negative float_of_str int_of_str f ->
     products_ok (products (admin_add float_of_str int_of_str f uuid_hex st).1)) /\
  (forall product_id f uuid_hex,
     submits_no_negative float_of_str int_of_str f ->
     products_ok
       (products (admin_edit float_of_str int_of_str product_id f uuid_hex st).1)).
Proof.
  intros Hok. split; [|split].
  - intros. by apply checkout_products_ok.
  - intros. by apply admin_add_products_ok.
  - intros. by apply admin_edit_products_ok.
Qed.

Lemma init_db_ok : products_ok init_db.
Proof.
  intros i p Hi. unfold init_db, samples in Hi. simpl in Hi.
  repeat (rewrite lookup_insert in Hi; case_decide;
          [injection Hi as <-; simpl; lia|]).
  by rewrite lookup_empty in Hi.
Qed.

Lemma core_operations_preserve_product_invariants_witness :
  let f := {| form_name := Some "Used Case"; form_slug := Some "used-case";
              form_description := None; form_price := Some "19.99";
              form_stock := Some "7"; form_image := None |} in
  products_ok init_db /\
  submits_no_negative Py.float_of_literal Py.int_of_literal f /\
  products_ok
    (products (checkout "page" None None 0 (seeded [(1, 2)] true)).1) /\
  products_ok
    (products (admin_add Py.float_of_literal Py.int_of_literal f ""
                 (seeded [(1, 2)] true)).1) /\
  products_ok
    (products (admin_edit Py.float_of_literal Py.int_of_literal 1 f ""
                 (seeded [(1, 2)] true)).1).
Proof.
  intros f.
  assert (submits_no_negative Py.float_of_literal Py.int_of_literal f) as Hf.
  { split.
    - intros s n [= <-] Hn. vm_compute in Hn. injection Hn as <-. lia.
    - intros s x [= <-] Hx. vm_compute in Hx. by injection Hx as <-. }
  destruct (core_operations_preserve_product_invariants "page"
              Py.float_of_literal Py.int_of_literal (seeded [(1, 2)] true)
              init_db_ok) as (Hcheckout & Hadd & Hedit).
  split; [exact init_db_ok|]. split; [exact Hf|].
  split; [apply Hcheckout|]. split; [by apply Hadd|by apply Hedit].
Defined.

(** C5, against the claim as stated.  On the seeded table, which satisfies
    the invariant, an admin who creates a product with stock -5, or sets
    the stock of product 1 to -5, or its price to -1, leaves a table that
    does not. *)
Lemma admin_forms_store_negative_values :
  products_ok init_db /\
  let add_form := {| form_name := Some "Used Case"; form_slug := Some "used-case";
                     form_description := None; form_price := Some "19.99";
                     form_stock := Some "-5"; form_image := None |} in
  let stock_form := {| form_name := None; form_slug := None;
                       form_description := None; form_price := None;
                       form_stock := Some "-5"; form_image := None |} in
  let price_form := {| form_name := None; form_slug := None;
                       form_description := None; form_price := Some "-1";
                       form_stock := Some "5"; form_image := None |} in
  Product.stock <$>
    products (admin_add Py.float_of_literal Py.int_of_literal add_form ""
                (seeded [] true)).1 !! 6 = Some (-5) /\
  Product.stock <$>
    products (admin_edit Py.float_of_literal Py.int_of_literal 1 stock_form ""
                (seeded [] true)).1 !! 1 = Some (-5) /\
  Product.price_cents <$>
    products (admin_edit Py.float_of_literal Py.int_of_literal 1 price_form ""
                (seeded [] true)).1 !! 1 = Some (-100) /\
  ~ products_ok
      (products (admin_add Py.float_of_literal Py.int_of_literal add_form ""
                   (seeded [] true)).1) /\
  ~ products_ok
      (products (admin_edit Py.float_of_literal Py.int_of_literal 1 stock_form ""
                   (seeded [] true)).1) /\
  ~ products_ok
      (products (admin_edit Py.float_of_literal Py.int_of_literal 1 price_form ""
                   (seeded [] true)).1).
Proof.
  split; [exact init_db_ok|].
  intros add_form stock_form price_form.
  assert (forall ps i (v : Z) (proj : Product.t -> Z),
            (proj = Product.stock \/ proj = Product.price_cents) ->
            proj <$> ps !! i = Some v -> v < 0 -> ~ products_ok ps) as Hbad.
  { intros ps i v proj Hproj Hi Hv Hok.
    destruct (ps !! i) as [p|] eqn:Hp; [|done].
    injection Hi as <-. destruct (Hok i p Hp). destruct Hproj as [-> | ->]; lia. }
  split; [vm_compute; reflexivity|].
  split; [vm_compute; reflexivity|].
  split; [vm_compute; reflexivity|].
  split; [|split].
  - apply (Hbad _ 6 (-5) Product.stock); [by left|vm_compute; reflexivity|lia].
  - apply (Hbad _ 1 (-5) Product.stock); [by left|vm_compute; reflexivity|lia].
  - apply (Hbad _ 1 (-100) Product.price_cents); [by right|vm_compute; reflexivity|lia].
Qed.

(** ** Uploads *)

Lemma rsplit_dot_last_no_dot s :
  Py.has_dot s = false -> Py.rsplit_dot_last s = s.
Proof.
  destruct s as [|c s]; [done|]. simpl.
  destruct (Ascii.eqb c "."); [done|]. simpl. by intros ->.
Qed.

Lemma rsplit_dot_last_has_dot s :
  Py.has_dot s = true ->
  exists stem,
    s = stem +:+ "." +:+ Py.rsplit_dot_last s /\
    Py.has_dot (Py.rsplit_dot_last s) = false.
Proof.
  induction s as [|c s IH]; [done|]. simpl.
  destruct (Py.has_dot s) eqn:Hs.
  - intros _. destruct (IH eq_refl) as (stem & Heq & Hno).
    exists (String c stem). split; [|done].
    change (String c s = String c (stem +:+ "." +:+ Py.rsplit_dot_last s)).
    by rewrite <- Heq.
  - rewrite orb_false_r. intros Hc. rewrite Hc.
    apply Ascii.eqb_eq in Hc as ->. by exists "".
Qed.

Lemma allowed_file_spec filename :
  allowed_file filename = true <->
  Py.lower (Py.rsplit_dot_last filename) ∈ allowed_extensions.
Proof.
  unfold allowed_file, allowed_extensions. rewrite existsb_exists. split.
  - intros (e & He & Heq). apply String.eqb_eq in Heq as ->.
    by apply list_elem_of_In.
  - intros He. eexists. split; [by apply list_elem_of_In|].
    by apply String.eqb_eq.
Qed.

Lemma save_and_resize_image_rejects file size uuid_hex folder :
  save_and_resize_image file size uuid_hex folder = (folder, Return None) <->
  allowed_file (filename file) = false.
Proof.
  unfold save_and_resize_image.
  destruct (allowed_file (filename file)); simpl; [|done].
  split; [|done].
  by destruct (_ ≫= _).
Qed.

Lemma admin_add_rejected_upload float_of_str int_of_str f file uuid_hex st :
  has_upload (form_image f) = Some file ->
  allowed_file (filename file) = false ->
  admin_add float_of_str int_of_str f uuid_hex st
  = admin_add float_of_str int_of_str (without_image f) uuid_hex st.
Proof.
  intros Hup Hno. unfold admin_add. rewrite Hup. simpl.
  unfold price_field, stock_field. simpl.
  unfold save_and_resize_image. by rewrite Hno.
Qed.

(** C8, as the code has it.  The normaliser returns nothing, and leaves
    the upload folder as it was, exactly when the last dot-separated part
    of the file name in lower case (the extension of a name with a dot,
    all of a name without one) is outside [jpg], [jpeg], [png], [webp];
    the request that creates a product then goes on as if no file had been
    sent, and with a name, an unused slug, and a price and stock that
    parse and fit the 64-bit columns it adds the product with no image. *)
Theorem rejected_upload_skips_image float_of_str int_of_str f file uuid_hex st
    name slug price_php price_cents stock :
  (forall size folder,
     save_and_resize_image file size uuid_hex folder = (folder, Return None) <->
     Py.lower (Py.rsplit_dot_last (filename file)) ∉ allowed_extensions) /\
  (Py.has_dot (filename file) = true ->
   file_extension (filename file) = Some (Py.rsplit_dot_last (filename file)) /\
   exists stem, filename file = stem +:+ "." +:+ Py.rsplit_dot_last (filename file)) /\
  (has_upload (form_image f) = Some file ->
   Py.lower (Py.rsplit_dot_last (filename file)) ∉ allowed_extensions ->
   admin_add float_of_str int_of_str f uuid_hex st
   = admin_add float_of_str int_of_str (without_image f) uuid_hex st) /\
  (admin st = true ->
   has_upload (form_image f) = Some file ->
   Py.lower (Py.rsplit_dot_last (filename file)) ∉ allowed_extensions ->
   form_name f = Some name ->
   form_slug f = Some slug ->
   existsb (fun kp => String.eqb (Product.slug kp.2) slug) (map_to_list (products st))
   = false ->
   price_field float_of_str f = Some price_php ->
   Py.int_of_float (Py.float_mul price_php (Py.float_of_int 100)) = inr price_cents ->
   stock_field int_of_str f = Some stock ->
   int64 price_cents ->
   int64 stock ->
   int64 (next_id (map_to_list (products st)).*1) ->
   products st !! next_id (map_to_list (products st)).*1 = None /\
   admin_add float_of_str int_of_str f uuid_hex st
   = (with_products st
        (<[next_id (map_to_list (products st)).*1 :=
            Product.mk name slug (form_description f) price_cents None stock]>
           (products st)),
      Redirect (Some "Product created") "/admin")).
Proof.
  assert (Py.lower (Py.rsplit_dot_last (filename file)) ∉ allowed_extensions ->
          allowed_file (filename file) = false) as Hrejected.
  { rewrite <- allowed_file_spec. by destruct (allowed_file (filename file)). }
  split; [|split; [|split]].
  - intros size folder. rewrite save_and_resize_image_rejects.
    rewrite <- allowed_file_spec. by destruct (allowed_file (filename file)).
  - intros Hdot. unfold file_extension. rewrite Hdot. split; [done|].
    destruct (rsplit_dot_last_has_dot _ Hdot) as (stem & Heq & _). eauto.
  - intros Hup Hext. apply (admin_add_rejected_upload _ _ f file); auto.
  - intros Hadmin Hup Hext Hname Hslug Hfree Hprice Hcents Hstock _ _ _.
    split; [apply next_id_fresh|].
    rewrite (admin_add_rejected_upload _ _ f file) by auto.
    unfold admin_add. rewrite Hadmin. cbn [negb].
    change (price_field float_of_str (without_image f))
      with (price_field float_of_str f).
    change (stock_field int_of_str (without_image f))
      with (stock_field int_of_str f).
    rewrite Hprice, Hstock. cbn [has_upload without_image form_image].
    rewrite Hcents. unfold insert_product.
    cbn [form_name form_slug form_description without_image].
    rewrite Hname, Hslug, Hfree. by destruct st.
Qed.

(** A closed bound of the column range. *)
Ltac int64_bound :=
  unfold int64; split; [vm_compute; discriminate | vm_compute; reflexivity].

Lemma rejected_upload_skips_image_witness :
  let file := {| filename := "box.GIF"; stream := Some (800, 600) |} in
  let f := {| form_name := Some "Used Case"; form_slug := Some "used-case";
              form_description := None; form_price := Some "150";
              form_stock := Some "7"; form_image := Some file |} in
  (Py.lower (Py.rsplit_dot_last (filename file)) ∉ allowed_extensions) /\
  save_and_resize_image file (600, 400) "0f3a" ∅ = (∅, Return None) /\
  admin_add Py.float_of_literal Py.int_of_literal f "0f3a" (seeded [] true)
  = (with_products (seeded [] true)
       (<[6 := Product.mk "Used Case" "used-case" None 15000 None 7]> init_db),
     Redirect (Some "Product created") "/admin").
Proof.
  intros file f.
  assert (Py.lower (Py.rsplit_dot_last (filename file)) ∉ allowed_extensions) as Hext.
  { compute_done. }
  destruct (rejected_upload_skips_image Py.float_of_literal Py.int_of_literal
              f file "0f3a" (seeded [] true) "Used Case" "used-case"
              (S754_finite false 5277655813324800 (-45)) 15000 7)
    as (Hreject & _ & _ & Hadd).
  split; [exact Hext|]. split; [by apply Hreject|].
  destruct Hadd as [_ Heq];
    [reflexivity | reflexivity | exact Hext | reflexivity | reflexivity
    | vm_compute; reflexivity | vm_compute; reflexivity
    | vm_compute; reflexivity | vm_compute; reflexivity
    | int64_bound | int64_bound | int64_bound |].
  rewrite Heq. vm_compute. reflexivity.
Defined.

(** C8, against the claim as stated.  A file whose name is [png], which
    has no extension, is normalised and written like any other. *)
Lemma dotless_name_is_normalised :
  file_extension "png" = None /\
  save_and_resize_image {| filename := "png"; stream := Some (1200, 800) |}
    (600, 400) "0f3a" ∅
  = (<["0f3a.png" := (600, 400)]> ∅, Return (Some "0f3a.png")).
Proof. split; vm_compute; reflexivity. Qed.

(** C10.  The price [19.99] stands for 1999 minor units; [float] reads it
    as a binary fraction just below, whose product with 100 is nearer to
    1999 than to any other integer, and [int] cuts it down to 1998.  That
    is the price both admin forms store. *)
Theorem price_conversion_drops_a_cent :
  exists price x stored,
    exact_cents price = Some 1999 /\
    Py.float_of_literal price = Some x /\
    Py.round (Py.float_mul x (Py.float_of_int 100)) = inr 1999 /\
    Py.int_of_float (Py.float_mul x (Py.float_of_int 100)) = inr stored /\
    stored = 1998 /\
    (let f := {| form_name := Some "Used Case"; form_slug := Some "used-case";
                 form_description := None; form_price := Some price;
                 form_stock := Some "7"; form_image := None |} in
     Product.price_cents <$>
       products (admin_add Py.float_of_literal Py.int_of_literal f ""
                   (seeded [] true)).1 !! 6 = Some stored /\
     Product.price_cents <$>
       products (admin_edit Py.float_of_literal Py.int_of_literal 1 f ""
                   (seeded [] true)).1 !! 1 = Some stored).
Proof.
  exists "19.99", (S754_finite false 5626684784446013 (-48)), 1998.
  repeat split; vm_compute; reflexivity.
Qed.

(** ** Binary64 arithmetic on picture sizes *)

(** *** Digits and shifts *)

(** The powers of two that bound sizes and mantissas, as numerals. *)
Ltac power_of_two n v :=
  let H := fresh "Hpow" in assert (2 ^ n = v) as H by reflexivity.

Ltac powers_of_two :=
  power_of_two 16 65536; power_of_two 28 268435456;
  power_of_two 51 2251799813685248; power_of_two 52 4503599627370496;
  power_of_two 53 9007199254740992; power_of_two 54 18014398509481984.

Lemma digits2_pos_size p : digits2_pos p = Pos.size p.
Proof. induction p; simpl; congruence. Qed.

Lemma digits2_pos_bounds p :
  2 ^ (Zpos (digits2_pos p) - 1) <= Zpos p < 2 ^ Zpos (digits2_pos p).
Proof.
  rewrite digits2_pos_size. split.
  - pose proof (Pos.size_le p) as H.
    assert (Zpos (2 ^ Pos.size p) <= Zpos p~0) as H' by lia.
    rewrite Pos2Z.inj_pow in H'.
    replace (Zpos (Pos.size p)) with (Z.succ (Zpos (Pos.size p) - 1)) in H' by lia.
    rewrite Z.pow_succ_r in H' by lia. lia.
  - pose proof (Pos.size_gt p) as H.
    assert (Zpos p < Zpos (2 ^ Pos.size p)) as H' by lia.
    by rewrite Pos2Z.inj_pow in H'.
Qed.

Lemma digits2_pos_unique p d :
  2 ^ (d - 1) <= Zpos p < 2 ^ d -> Zpos (digits2_pos p) = d.
Proof.
  intros [Hlo Hhi]. pose proof (digits2_pos_bounds p) as [Hlo' Hhi'].
  assert (0 < d) as Hd.
  { destruct (Z.le_gt_cases d 0) as [H|H]; [|done].
    assert (2 ^ d <= 2 ^ 0) by (apply Z.pow_le_mono_r; lia). simpl in *. lia. }
  destruct (Z.lt_trichotomy (Zpos (digits2_pos p)) d) as [H|[H|H]]; [|done|].
  - assert (2 ^ Zpos (digits2_pos p) <= 2 ^ (d - 1)) by (apply Z.pow_le_mono_r; lia). lia.
  - assert (2 ^ d <= 2 ^ (Zpos (digits2_pos p) - 1)) by (apply Z.pow_le_mono_r; lia). lia.
Qed.

Lemma digits2_pos_shift p k :
  0 <= k -> forall q, Zpos q = Zpos p * 2 ^ k ->
  Zpos (digits2_pos q) = Zpos (digits2_pos p) + k.
Proof.
  intros Hk q Hq. apply digits2_pos_unique. rewrite Hq.
  pose proof (digits2_pos_bounds p) as [Hlo Hhi].
  replace (Zpos (digits2_pos p) + k - 1) with ((Zpos (digits2_pos p) - 1) + k) by lia.
  rewrite !Z.pow_add_r by lia.
  assert (0 < 2 ^ k) by (apply Z.pow_pos_nonneg; lia).
  split; [apply Z.mul_le_mono_nonneg_r; lia | apply Z.mul_lt_mono_pos_r; lia].
Qed.

(** iteration *)
Lemma iter_pos_comm {A} (f : A -> A) p x : SpecFloat.iter_pos f p (f x) = f (SpecFloat.iter_pos f p x).
Proof.
  revert x. induction p as [p IH|p IH|]; intros x; simpl; [|by rewrite !IH|done].
  by rewrite !IH.
Qed.

Lemma iter_pos_succ {A} (f : A -> A) p x :
  SpecFloat.iter_pos f (Pos.succ p) x = f (SpecFloat.iter_pos f p x).
Proof.
  revert x. induction p as [p IH|p IH|]; intros x; simpl.
  - rewrite !IH. by rewrite <- !iter_pos_comm.
  - by rewrite <- !iter_pos_comm.
  - done.
Qed.

Lemma shr_1_m mrs : 0 <= shr_m mrs -> shr_m (shr_1 mrs) = shr_m mrs / 2.
Proof.
  destruct mrs as [m r s]. simpl. intros Hm.
  destruct m as [|[p|p|]|p]; simpl; try done; try lia.
  - rewrite Pos2Z.inj_xI. apply Z.div_unique with 1; lia.
  - rewrite Pos2Z.inj_xO. apply Z.div_unique with 0; lia.
Qed.

Lemma iter_shr_m p mrs :
  0 <= shr_m mrs -> shr_m (SpecFloat.iter_pos shr_1 p mrs) = shr_m mrs / 2 ^ Zpos p.
Proof.
  intros Hm. induction p as [|p IH] using Pos.peano_ind.
  - simpl SpecFloat.iter_pos. rewrite shr_1_m by done. by rewrite Z.pow_1_r.
  - rewrite iter_pos_succ, shr_1_m.
    + rewrite IH, Pos2Z.inj_succ, Z.pow_succ_r by lia.
      rewrite Z.div_div by (try apply Z.pow_pos_nonneg; lia).
      f_equal. lia.
    + rewrite IH. apply Z.div_pos; [done|]. apply Z.pow_pos_nonneg; lia.
Qed.

Lemma iter_shr_exact p x :
  0 <= x ->
  SpecFloat.iter_pos shr_1 p {| shr_m := x * 2 ^ Zpos p; shr_r := false; shr_s := false |}
  = {| shr_m := x; shr_r := false; shr_s := false |}.
Proof.
  revert x. induction p as [|p IH] using Pos.peano_ind; intros x Hx.
  - simpl SpecFloat.iter_pos. rewrite Z.pow_1_r. destruct x as [|q|q]; [done| |lia].
    by replace (Zpos q * 2) with (Zpos q~0) by lia.
  - rewrite iter_pos_succ, Pos2Z.inj_succ, Z.pow_succ_r by lia.
    replace (x * (2 * 2 ^ Zpos p)) with ((x * 2) * 2 ^ Zpos p) by lia.
    rewrite IH by lia. destruct x as [|q|q]; [done| |lia].
    by replace (Zpos q * 2) with (Zpos q~0) by lia.
Qed.

Lemma round_nearest_even_cases x l :
  round_nearest_even x l = x \/ round_nearest_even x l = x + 1.
Proof. destruct l as [|[]]; simpl; auto. destruct (Z.even x); auto. Qed.

(** *** Rounding *)

Lemma fexp_normal e :
  -1074 <= e - 53 -> fexp Py.prec Py.emax e = e - 53.
Proof. unfold fexp, emin, Py.prec, Py.emax. lia. Qed.

Lemma shr_fexp_normal q e l :
  -1074 <= Zpos (digits2_pos q) + e - 53 ->
  shr_fexp Py.prec Py.emax (Zpos q) e l
  = shr (shr_record_of_loc (Zpos q) l) e (Zpos (digits2_pos q) - 53).
Proof.
  intros He. unfold shr_fexp, Zdigits2. rewrite fexp_normal by lia.
  f_equal. lia.
Qed.

Lemma shr_record_of_loc_m m l : shr_m (shr_record_of_loc m l) = m.
Proof. by destruct l as [|[]]. Qed.

(** Rounding a mantissa that already fits is exact. *)
Lemma binary_round_aux_exact s (x : positive) n E :
  Zpos (digits2_pos x) = 53 -> 0 <= n -> -1074 <= E + n <= 971 ->
  binary_round_aux Py.prec Py.emax s (Zpos x * 2 ^ n) E loc_Exact
  = S754_finite s x (E + n).
Proof.
  intros Hx Hn HE.
  assert (exists q, Zpos q = Zpos x * 2 ^ n) as [q Hq].
  { assert (0 < Zpos x * 2 ^ n) as H.
    { apply Z.mul_pos_pos; [lia|]. apply Z.pow_pos_nonneg; lia. }
    destruct (Zpos x * 2 ^ n) as [|q|q]; [lia| |lia]. by exists q. }
  rewrite <- Hq.
  pose proof (digits2_pos_shift x n Hn q Hq) as Hdq.
  unfold binary_round_aux. rewrite shr_fexp_normal by lia.
  rewrite Hdq, Hx. replace (53 + n - 53) with n by lia.
  assert (shr (shr_record_of_loc (Zpos q) loc_Exact) E n
          = ({| shr_m := Zpos x; shr_r := false; shr_s := false |}, E + n)) as ->.
  { destruct n as [|p|p]; [| |lia].
    - rewrite Z.pow_0_r, Z.mul_1_r in Hq. injection Hq as ->.
      simpl. f_equal. lia.
    - simpl. rewrite Hq. by rewrite iter_shr_exact by lia. }
  cbn [shr_m loc_of_shr_record round_nearest_even].
  rewrite shr_fexp_normal by lia.
  rewrite Hx. simpl.
  destruct (Z.leb_spec (E + n) (Py.emax - Py.prec)) as [_|H]; [done|].
  unfold Py.emax, Py.prec in H. lia.
Qed.

(** Rounding a longer mantissa: the result lies between the mantissa cut
    to 53 digits and its successor. *)
Lemma binary_round_aux_bounds s (q : positive) E l :
  let D := Zpos (digits2_pos q) in
  53 <= D -> -1074 <= E + (D - 53) -> E + (D - 53) + 1 <= 971 ->
  exists m e,
    binary_round_aux Py.prec Py.emax s (Zpos q) E l = S754_finite s m e /\
    2 ^ 52 <= Zpos m < 2 ^ 53 /\
    ((e = E + (D - 53) /\
      (Zpos m = Zpos q / 2 ^ (D - 53) \/ Zpos m = Zpos q / 2 ^ (D - 53) + 1)) \/
     (e = E + (D - 53) + 1 /\ Zpos m = 2 ^ 52 /\ Zpos q / 2 ^ (D - 53) + 1 = 2 ^ 53)).
Proof.
  intros D HD Hlo Hhi.
  set (n := D - 53) in *.
  set (x := Zpos q / 2 ^ n).
  assert (0 < 2 ^ n) as Hpow by (apply Z.pow_pos_nonneg; lia).
  assert (2 ^ 52 <= x < 2 ^ 53) as Hx.
  { pose proof (digits2_pos_bounds q) as [Hql Hqh]. fold D in Hql, Hqh.
    replace (D - 1) with (52 + n) in Hql by lia.
    replace D with (53 + n) in Hqh by lia.
    rewrite Z.pow_add_r in Hql, Hqh by lia. unfold x. split.
    - apply Z.div_le_lower_bound; lia.
    - apply Z.div_lt_upper_bound; lia. }
  unfold binary_round_aux. rewrite shr_fexp_normal by (fold D; lia).
  fold D. fold n.
  destruct (shr (shr_record_of_loc (Zpos q) l) E n) as [mrs' e'] eqn:Hshr.
  assert (shr_m mrs' = x /\ e' = E + n) as [Hm' ->].
  { unfold shr in Hshr. destruct n as [|p|p] eqn:Hn; [| |lia].
    - injection Hshr as <- <-. rewrite shr_record_of_loc_m.
      unfold x. rewrite Z.pow_0_r, Z.div_1_r. split; lia.
    - injection Hshr as <- <-. rewrite iter_shr_m by (rewrite shr_record_of_loc_m; lia).
      by rewrite shr_record_of_loc_m. }
  rewrite Hm'.
  set (m1 := round_nearest_even x (loc_of_shr_record mrs')).
  assert (m1 = x \/ m1 = x + 1) as Hm1 by apply round_nearest_even_cases.
  powers_of_two.
  destruct (Z.eq_dec m1 (2 ^ 53)) as [Hov|Hnov].
  - rewrite Hov. exists 4503599627370496%positive, (E + n + 1).
    split; [|split; [lia|right; lia]].
    change (2 ^ 53) with (Zpos 9007199254740992).
    rewrite shr_fexp_normal
      by (change (Zpos (digits2_pos 9007199254740992)) with 54; lia).
    change (Zpos (digits2_pos 9007199254740992)) with 54.
    change (shr (shr_record_of_loc (Zpos 9007199254740992) loc_Exact) (E + n) (54 - 53))
      with ({| shr_m := 4503599627370496; shr_r := false; shr_s := false |}, E + n + 1).
    cbn [shr_m].
    destruct (Z.leb_spec (E + n + 1) (Py.emax - Py.prec)) as [_|H]; [done|].
    unfold Py.emax, Py.prec in H. lia.
  - assert (2 ^ 52 <= m1 < 2 ^ 53) as Hm1r by lia.
    destruct m1 as [|m|m] eqn:Hm1e; [lia| |lia].
    exists m, (E + n). split; [|split; [lia|left; lia]].
    assert (Zpos (digits2_pos m) = 53) as Hdm by (apply digits2_pos_unique; simpl; lia).
    rewrite shr_fexp_normal by lia. rewrite Hdm.
    change (shr (shr_record_of_loc (Zpos m) loc_Exact) (E + n) (53 - 53))
      with ({| shr_m := Zpos m; shr_r := false; shr_s := false |}, E + n).
    cbn [shr_m].
    destruct (Z.leb_spec (E + n) (Py.emax - Py.prec)) as [_|H]; [done|].
    unfold Py.emax, Py.prec in H. lia.
Qed.

(** *** Exact values *)

Lemma pos_iter_xO m d : Zpos (Pos.iter xO m d) = Zpos m * 2 ^ Zpos d.
Proof.
  induction d as [|d IH] using Pos.peano_ind.
  - simpl. lia.
  - rewrite Pos.iter_succ, Pos2Z.inj_xO, IH, Pos2Z.inj_succ, Z.pow_succ_r by lia. lia.
Qed.

Lemma shl_align_fst m e e' :
  e' <= e -> Zpos (fst (shl_align m e e')) = Zpos m * 2 ^ (e - e').
Proof.
  intros He. unfold shl_align.
  destruct (e' - e) as [|d|d] eqn:Hd.
  - replace (e - e') with 0 by lia. simpl. lia.
  - lia.
  - simpl. rewrite pos_iter_xO. f_equal. f_equal. lia.
Qed.

Lemma digits2_pos_le_53 p : Zpos p < 2 ^ 53 -> Zpos (digits2_pos p) <= 53.
Proof.
  intros Hp. pose proof (digits2_pos_bounds p) as [Hlo _].
  destruct (Z.le_gt_cases (Zpos (digits2_pos p)) 53) as [H|H]; [done|].
  assert (2 ^ 53 <= 2 ^ (Zpos (digits2_pos p) - 1)) by (apply Z.pow_le_mono_r; lia).
  lia.
Qed.

Lemma normal_mantissa p :
  let d := Zpos (digits2_pos p) in
  d <= 53 ->
  Zpos (Z.to_pos (Zpos p * 2 ^ (53 - d))) = Zpos p * 2 ^ (53 - d) /\
  Zpos (digits2_pos (Z.to_pos (Zpos p * 2 ^ (53 - d)))) = 53.
Proof.
  intros d Hd.
  assert (0 < Zpos p * 2 ^ (53 - d)) as Hpos.
  { apply Z.mul_pos_pos; [lia|]. apply Z.pow_pos_nonneg; lia. }
  rewrite Z2Pos.id by done. split; [done|].
  rewrite (digits2_pos_shift p (53 - d)); [fold d; lia|lia|].
  by rewrite Z2Pos.id.
Qed.

(** Rounding a mantissa [p * 2^j] at exponent [k - j] gives the binary64
    of value [p * 2^k]. *)
Lemma binary_round_dyadic s (p M : positive) j k :
  Zpos M = Zpos p * 2 ^ j -> 0 <= j ->
  let d := Zpos (digits2_pos p) in
  d <= 53 -> -1074 <= k + d - 53 <= 971 ->
  binary_round Py.prec Py.emax s M (k - j)
  = S754_finite s (Z.to_pos (Zpos p * 2 ^ (53 - d))) (k + d - 53).
Proof.
  intros HM Hj d Hd Hk.
  destruct (normal_mantissa p Hd) as [Hx Hdx]. fold d in Hx, Hdx.
  set (x := Z.to_pos (Zpos p * 2 ^ (53 - d))) in *.
  set (F := k + d - 53) in *.
  pose proof (digits2_pos_shift p j Hj M HM) as HdM. fold d in HdM.
  unfold binary_round. rewrite HdM.
  rewrite fexp_normal by lia.
  replace (d + j + (k - j) - 53) with F by (unfold F; lia).
  destruct (Z.le_gt_cases F (k - j)) as [Hle|Hgt].
  - (* the mantissa is shifted left *)
    assert (shl_align M (k - j) F = (x, F)) as ->.
    { unfold shl_align. destruct (F - (k - j)) as [|e|e] eqn:He; [| lia |].
      - assert (53 - d = j) by (unfold F in He; lia).
        f_equal; [|lia]. apply Pos2Z.inj. rewrite Hx, HM. congruence.
      - f_equal. apply Pos2Z.inj. rewrite pos_iter_xO, Hx, HM.
        rewrite <- Z.mul_assoc, <- Z.pow_add_r by lia.
        do 2 f_equal. unfold F in He. lia. }
    replace (Zpos x) with (Zpos x * 2 ^ 0) by (simpl; lia).
    rewrite binary_round_aux_exact by (try done; lia).
    f_equal. lia.
  - (* it is longer than 53 digits and ends in zeros *)
    assert (shl_align M (k - j) F = (M, k - j)) as ->.
    { unfold shl_align. destruct (F - (k - j)) as [|e|e] eqn:He; [done|done|lia]. }
    assert (Zpos M = Zpos x * 2 ^ (F - (k - j))) as ->.
    { rewrite Hx, HM, <- Z.mul_assoc, <- Z.pow_add_r by (unfold F; lia).
      do 2 f_equal. unfold F. lia. }
    rewrite binary_round_aux_exact by (try done; lia).
    f_equal. lia.
Qed.

Lemma float_of_int_dyadic n :
  - 2 ^ 53 < n < 2 ^ 53 -> Py.float_of_int n = dyadic n 0.
Proof.
  intros Hn. unfold Py.float_of_int, binary_normalize, dyadic.
  destruct n as [|p|p]; [done| |].
  - replace 0 with (0 - 0) at 1 by lia.
    rewrite (binary_round_dyadic false p p 0 0); try done; try lia.
    + apply digits2_pos_le_53. lia.
    + pose proof (digits2_pos_le_53 p). pose proof (Pos2Z.is_pos (digits2_pos p)). lia.
  - replace 0 with (0 - 0) at 1 by lia.
    rewrite (binary_round_dyadic true p p 0 0); try done; try lia.
    + apply digits2_pos_le_53. lia.
    + pose proof (digits2_pos_le_53 p). pose proof (Pos2Z.is_pos (digits2_pos p)). lia.
Qed.

(** *** Halves and sums *)

Lemma SFdiv_core_binary_ints (a b : positive) :
  let s := 53 + Zpos (digits2_pos b) - Zpos (digits2_pos a) in
  0 < s <= 1074 ->
  SFdiv_core_binary Py.prec Py.emax (Zpos a) 0 (Zpos b) 0
  = (Zpos a * 2 ^ s / Zpos b, - s,
     new_location (Zpos b) ((Zpos a * 2 ^ s) mod Zpos b)).
Proof.
  intros s Hs. unfold SFdiv_core_binary, Zdigits2.
  rewrite fexp_normal by lia.
  replace (Z.min _ (0 - 0)) with (- s) by (unfold s; lia).
  replace (0 - 0 - - s) with s by lia.
  destruct s as [|ps|ps] eqn:Hps; [lia| |lia].
  rewrite Z.shiftl_mul_pow2 by lia.
  unfold Z.div, Z.modulo.
  by destruct (Z.div_eucl (Zpos a * 2 ^ Zpos ps) (Zpos b)).
Qed.

Lemma quotient_2_dyadic d :
  - 2 ^ 53 < d < 2 ^ 53 -> Py.quotient d 2 = dyadic d (-1).
Proof.
  intros Hd. unfold Py.quotient.
  assert (forall p : positive, Zpos p < 2 ^ 53 -> forall sg,
            (let '(q, e, l) := SFdiv_core_binary Py.prec Py.emax (Zpos p) 0 2 0 in
             binary_round_aux Py.prec Py.emax sg q e l)
            = S754_finite sg
                (Z.to_pos (Zpos p * 2 ^ (53 - Zpos (digits2_pos p))))
                (-1 + Zpos (digits2_pos p) - 53)) as Hcore.
  { intros p Hp sg.
    pose proof (digits2_pos_le_53 p Hp) as Hle.
    pose proof (Pos2Z.is_pos (digits2_pos p)) as Hdp.
    destruct (normal_mantissa p Hle) as [Hx Hdx].
    set (dp := Zpos (digits2_pos p)) in *.
    set (x := Z.to_pos (Zpos p * 2 ^ (53 - dp))) in *.
    rewrite SFdiv_core_binary_ints by (change (Zpos (digits2_pos 2)) with 2; fold dp; lia).
    change (Zpos (digits2_pos 2)) with 2. fold dp.
    assert (Zpos p * 2 ^ (53 + 2 - dp) = (Zpos x * 2 ^ 1) * 2) as ->.
    { rewrite Hx. replace (53 + 2 - dp) with (53 - dp + 1 + 1) by lia.
      rewrite !Z.pow_add_r by lia. lia. }
    rewrite Z.div_mul, Z.mod_mul by lia.
    change (new_location 2 0) with loc_Exact.
    rewrite binary_round_aux_exact by (try done; lia).
    f_equal. lia. }
  destruct d as [|p|p]; [done| |].
  - exact (Hcore p ltac:(lia) false).
  - exact (Hcore p ltac:(lia) true).
Qed.

Lemma dyadic_finite n k :
  n <> 0 -> - 2 ^ 53 < n < 2 ^ 53 ->
  exists x, dyadic n k = S754_finite (n <? 0) x (k + Zdigits2 n - 53) /\
            Zpos x = Z.abs n * 2 ^ (53 - Zdigits2 n) /\
            Zpos (digits2_pos x) = 53 /\ 0 < Zdigits2 n <= 53.
Proof.
  intros Hn Hr. destruct n as [|p|p]; [done| |]; simpl.
  - assert (Zpos (digits2_pos p) <= 53) as Hle by (apply digits2_pos_le_53; lia).
    destruct (normal_mantissa p Hle) as [Hx Hdx]. eexists. repeat split; try done; lia.
  - assert (Zpos (digits2_pos p) <= 53) as Hle by (apply digits2_pos_le_53; lia).
    destruct (normal_mantissa p Hle) as [Hx Hdx]. eexists. repeat split; try done; lia.
Qed.

Lemma binary_normalize_dyadic (n : Z) j k :
  0 <= j -> - 2 ^ 53 < n < 2 ^ 53 -> -1000 <= k <= 900 ->
  binary_normalize Py.prec Py.emax (n * 2 ^ j) (k - j) false = dyadic n k.
Proof.
  intros Hj Hn Hk.
  assert (0 < 2 ^ j) as Hpow by (apply Z.pow_pos_nonneg; lia).
  unfold binary_normalize, dyadic.
  destruct n as [|p|p]; [done| |].
  - assert (exists M, Zpos p * 2 ^ j = Zpos M) as [M HM].
    { destruct (Zpos p * 2 ^ j) as [|M|M] eqn:H; [lia| |lia]. by exists M. }
    rewrite HM.
    pose proof (digits2_pos_le_53 p ltac:(lia)). pose proof (Pos2Z.is_pos (digits2_pos p)).
    apply binary_round_dyadic; try done; lia.
  - assert (exists M, Zneg p * 2 ^ j = Zneg M /\ Zpos M = Zpos p * 2 ^ j) as (M & HM & HM').
    { destruct (Zneg p * 2 ^ j) as [|M|M] eqn:H; [lia|lia|]. exists M. split; [done|lia]. }
    rewrite HM.
    pose proof (digits2_pos_le_53 p ltac:(lia)). pose proof (Pos2Z.is_pos (digits2_pos p)).
    apply binary_round_dyadic; try done; lia.
Qed.

(** Adding an integer to a half-integer is exact. *)
Lemma float_add_half_int a b :
  0 < b < 2 ^ 52 -> - 2 ^ 52 < a < 2 ^ 52 -> - 2 ^ 53 < a + 2 * b < 2 ^ 53 ->
  Py.float_add (dyadic a (-1)) (Py.float_of_int b) = dyadic (a + 2 * b) (-1).
Proof.
  intros Hb Ha Hab. rewrite float_of_int_dyadic by lia.
  destruct (Z.eq_dec a 0) as [->|Hnz].
  { (* 0.0 + b *)
    destruct (dyadic_finite b 0) as (xb & -> & Hxb & Hdxb & Hdb); [lia..|].
    destruct (dyadic_finite (0 + 2 * b) (-1)) as (x & -> & Hx & Hdx & Hd); [lia..|].
    simpl dyadic. unfold Py.float_add, SFadd.
    assert (Zdigits2 (0 + 2 * b) = Zdigits2 b + 1) as Hd2.
    { destruct b as [|p|p]; try lia.
      change (0 + 2 * Zpos p) with (Zpos p~0). simpl. lia. }
    replace (0 + 2 * b <? 0) with (b <? 0) by lia.
    f_equal; [|lia]. apply Pos2Z.inj. rewrite Hx, Hxb, Hd2.
    replace (53 - Zdigits2 b) with (53 - (Zdigits2 b + 1) + 1) by lia.
    rewrite Z.pow_add_r by lia. lia. }
  destruct (dyadic_finite a (-1)) as (xa & -> & Hxa & Hdxa & Hda); [lia..|].
  destruct (dyadic_finite b 0) as (xb & -> & Hxb & Hdxb & Hdb); [lia..|].
  unfold Py.float_add, SFadd.
  set (ea := -1 + Zdigits2 a - 53) in *. set (eb := 0 + Zdigits2 b - 53) in *.
  set (ez := Z.min ea eb).
  assert (ez <= -1) as Hez by (unfold ez, ea; lia).
  assert (ez <= ea /\ ez <= eb) as [Hza Hzb] by (unfold ez; lia).
  assert (Zpos (fst (shl_align xa ea ez)) = Z.abs a * 2 ^ (-1 - ez)) as Hsa.
  { rewrite shl_align_fst, Hxa by done.
    rewrite <- Z.mul_assoc, <- Z.pow_add_r by (unfold ea; lia).
    do 2 f_equal. unfold ea. lia. }
  assert (Zpos (fst (shl_align xb eb ez)) = (2 * b) * 2 ^ (-1 - ez)) as Hsb.
  { rewrite shl_align_fst, Hxb by done.
    replace (Z.abs b) with b by lia.
    replace (2 * b * 2 ^ (-1 - ez)) with (b * (2 ^ 1 * 2 ^ (-1 - ez))) by lia.
    rewrite <- Z.mul_assoc, <- !Z.pow_add_r by (unfold eb; lia).
    do 2 f_equal. unfold eb. lia. }
  rewrite Hsa, Hsb.
  replace (b <? 0) with false by lia.
  assert (cond_Zopp (a <? 0) (Z.abs a * 2 ^ (-1 - ez)) + cond_Zopp false (2 * b * 2 ^ (-1 - ez))
          = (a + 2 * b) * 2 ^ (-1 - ez)) as ->.
  { unfold cond_Zopp. destruct (Z.ltb_spec a 0); lia. }
  replace ez with (-1 - (-1 - ez)) at 2 by lia.
  apply binary_normalize_dyadic; lia.
Qed.

(** *** The crop box *)

Lemma half_even_div_scale n j :
  0 <= n -> 0 <= j ->
  Py.half_even_div (n * 2 ^ j) (2 * 2 ^ j) = Py.half_even_div n 2.
Proof.
  intros Hn Hj. assert (0 < 2 ^ j) as Hpow by (apply Z.pow_pos_nonneg; lia).
  unfold Py.half_even_div.
  rewrite Z.div_mul_cancel_r, Z.mul_mod_distr_r by lia.
  replace (2 * (n mod 2 * 2 ^ j)) with (2 * (n mod 2) * 2 ^ j) by lia.
  by rewrite <- Zmult_compare_compat_r by lia.
Qed.

Lemma round_dyadic_half n :
  - 2 ^ 53 < n < 2 ^ 53 -> Py.round (dyadic n (-1)) = inr (half_round n).
Proof.
  intros Hn. destruct (Z.eq_dec n 0) as [->|Hnz]; [done|].
  destruct (dyadic_finite n (-1)) as (x & -> & Hx & _ & Hd); [done..|].
  unfold Py.round, half_round. do 2 f_equal.
  set (d := Zdigits2 n) in *.
  destruct (-1 + d - 53) as [|e|e] eqn:He; [lia|lia|].
  unfold Py.scaled_round. rewrite Z.mul_1_r, Hx.
  replace (2 ^ Zpos e) with (2 * 2 ^ (53 - d)).
  - apply half_even_div_scale; lia.
  - replace (Zpos e) with (1 + (53 - d)) by lia.
    rewrite Z.pow_add_r by lia. lia.
Qed.

Lemma even_cases x :
  (Z.even x = true /\ x mod 2 = 0) \/ (Z.even x = false /\ x mod 2 = 1).
Proof. rewrite Zmod_even. destruct (Z.even x); auto. Qed.

Lemma half_round_floor n :
  half_round n
  = if Z.even n then n / 2
    else if Z.even (n / 2) then n / 2 else n / 2 + 1.
Proof.
  unfold half_round, Py.half_even_div, cond_Zopp.
  pose proof (Z.div_mod n 2 ltac:(lia)).
  pose proof (Z.div_mod (Z.abs n) 2 ltac:(lia)).
  pose proof (Z.mod_pos_bound (Z.abs n) 2 ltac:(lia)).
  destruct (even_cases n) as [[He1 ?]|[He1 ?]];
    destruct (even_cases (n / 2)) as [[He2 ?]|[He2 ?]];
    destruct (even_cases (Z.abs n / 2)) as [[He3 ?]|[He3 ?]];
    rewrite ?He1, ?He2, ?He3;
    pose proof (Z.div_mod (n / 2) 2 ltac:(lia));
    pose proof (Z.div_mod (Z.abs n / 2) 2 ltac:(lia));
    destruct (Z.ltb_spec n 0);
    destruct (Z.compare_spec (2 * (Z.abs n mod 2)) 2); lia.
Qed.

Lemma half_round_shift n t :
  Z.even t = true -> half_round (n + 2 * t) = half_round n + t.
Proof.
  intros Ht. rewrite !half_round_floor.
  replace (n + 2 * t) with (n + t * 2) by lia.
  rewrite Z.div_add by lia.
  assert (Z.even (n + t * 2) = Z.even n) as ->.
  { rewrite Z.even_add, Z.even_mul, Ht. by destruct (Z.even n). }
  assert (Z.even (n / 2 + t) = Z.even (n / 2)) as ->.
  { rewrite Z.even_add, Ht. by destruct (Z.even (n / 2)). }
  destruct (Z.even n), (Z.even (n / 2)); lia.
Qed.

Lemma Zdigits2_mono a b :
  0 < a <= b -> Zdigits2 a <= Zdigits2 b.
Proof.
  intros Hab. destruct a as [|p|p], b as [|q|q]; try lia. simpl.
  pose proof (digits2_pos_bounds p) as [Hp _].
  pose proof (digits2_pos_bounds q) as [_ Hq].
  destruct (Z.le_gt_cases (Zpos (digits2_pos p)) (Zpos (digits2_pos q))) as [H|H]; [done|].
  assert (2 ^ Zpos (digits2_pos q) <= 2 ^ (Zpos (digits2_pos p) - 1))
    by (apply Z.pow_le_mono_r; lia).
  lia.
Qed.

Lemma dyadic_not_lt a b k :
  a < b -> 0 < b -> - 2 ^ 53 < a -> b < 2 ^ 53 ->
  SFltb (dyadic b k) (dyadic a k) = false.
Proof.
  intros Hab Hb Ha Hb'.
  destruct (dyadic_finite b k) as (xb & -> & Hxb & _ & Hdb); [lia..|].
  replace (b <? 0) with false by lia.
  destruct (Z.eq_dec a 0) as [->|Hnz]; [done|].
  destruct (dyadic_finite a k) as (xa & -> & Hxa & _ & Hda); [lia..|].
  unfold SFltb, SFcompare.
  destruct (Z.ltb_spec a 0) as [Hneg|Hpos]; [done|].
  assert (Zdigits2 a <= Zdigits2 b) as Hmono by (apply Zdigits2_mono; lia).
  destruct (Z.compare_spec (k + Zdigits2 b - 53) (k + Zdigits2 a - 53)) as [Heq|Hlt|Hgt];
    [|lia|done].
  assert (Zpos xa < Zpos xb) as Hx.
  { rewrite Hxa, Hxb. replace (Zdigits2 b) with (Zdigits2 a) by lia.
    apply Z.mul_lt_mono_pos_r; [apply Z.pow_pos_nonneg|]; lia. }
  change (Pos.compare_cont Eq xb xa) with (Pos.compare xb xa).
  by rewrite (proj2 (Pos.compare_gt_iff xb xa)) by lia.
Qed.

(** One axis of the crop box: for an even target [t] and any resized
    size, the rounded coordinates are [t] apart. *)
Lemma crop_axis d t :
  Z.even t = true -> 0 < t < 2 ^ 51 -> - t < d < 2 ^ 52 ->
  let low := Py.quotient d 2 in
  let high := Py.float_add low (Py.float_of_int t) in
  SFltb high low = false /\
  exists a b, Py.round low = inr a /\ Py.round high = inr b /\ b - a = t.
Proof.
  intros Ht Htr Hd low high.
  powers_of_two.
  assert (low = dyadic d (-1)) as Hlow by (apply quotient_2_dyadic; lia).
  assert (high = dyadic (d + 2 * t) (-1)) as Hhigh.
  { unfold high. rewrite Hlow. apply float_add_half_int; lia. }
  rewrite Hlow, Hhigh. split.
  - apply dyadic_not_lt; lia.
  - exists (half_round d), (half_round (d + 2 * t)).
    rewrite !round_dyadic_half by lia.
    split; [done|]. split; [done|].
    rewrite half_round_shift by done. lia.
Qed.

(** *** The aspect ratios *)

(** The quotient of two sizes below [2^28] is a positive binary64 within
    a factor [1 ± 2^-51] of the exact quotient. *)
Lemma quotient_bounds (a b : Z) :
  0 < a < 2 ^ 28 -> 0 < b < 2 ^ 28 ->
  exists m e,
    Py.quotient a b = S754_finite false m e /\
    2 ^ 52 <= Zpos m < 2 ^ 53 /\
    -80 <= e <= -24 /\
    (2 ^ 51 - 1) * (Zpos m * b) <= 2 ^ 51 * (a * 2 ^ (- e)) /\
    2 ^ 51 * (a * 2 ^ (- e)) <= (2 ^ 51 + 1) * (Zpos m * b).
Proof.
  intros Ha Hb.
  destruct a as [|a|a]; [lia| |lia]. destruct b as [|b|b]; [lia| |lia].
  powers_of_two.
  set (da := Zpos (digits2_pos a)). set (db := Zpos (digits2_pos b)).
  assert (1 <= da <= 28) as Hda.
  { split; [unfold da; lia|].
    destruct (Z.le_gt_cases da 28) as [H|H]; [done|].
    pose proof (digits2_pos_bounds a) as [Hl _]. fold da in Hl.
    assert (2 ^ 28 <= 2 ^ (da - 1)) by (apply Z.pow_le_mono_r; lia). lia. }
  assert (1 <= db <= 28) as Hdb.
  { split; [unfold db; lia|].
    destruct (Z.le_gt_cases db 28) as [H|H]; [done|].
    pose proof (digits2_pos_bounds b) as [Hl _]. fold db in Hl.
    assert (2 ^ 28 <= 2 ^ (db - 1)) by (apply Z.pow_le_mono_r; lia). lia. }
  set (s := 53 + db - da).
  set (a2s := Zpos a * 2 ^ s).
  set (q0 := a2s / Zpos b).
  assert (Py.quotient (Zpos a) (Zpos b)
          = binary_round_aux Py.prec Py.emax false q0 (- s)
              (new_location (Zpos b) (a2s mod Zpos b))) as ->.
  { unfold Py.quotient.
    change (Z.abs (Zpos a)) with (Zpos a). change (Z.abs (Zpos b)) with (Zpos b).
    by rewrite SFdiv_core_binary_ints by (fold da db; lia). }
  assert (0 < 2 ^ s) as Hps by (apply Z.pow_pos_nonneg; lia).
  assert (q0 * Zpos b <= a2s < (q0 + 1) * Zpos b) as [Hq1 Hq2].
  { unfold q0. pose proof (Z.mul_div_le a2s (Zpos b) ltac:(lia)).
    pose proof (Z.mul_succ_div_gt a2s (Zpos b) ltac:(lia)). lia. }
  assert (2 ^ (52 + db) <= a2s < 2 ^ (53 + db)) as [Ha1 Ha2].
  { pose proof (digits2_pos_bounds a) as [Hl Hh]. fold da in Hl, Hh.
    unfold a2s.
    replace (52 + db) with ((da - 1) + s) by (unfold s; lia).
    replace (53 + db) with (da + s) by (unfold s; lia).
    rewrite !Z.pow_add_r by lia. split.
    - apply Z.mul_le_mono_nonneg_r; lia.
    - apply Z.mul_lt_mono_pos_r; lia. }
  assert (2 ^ (db - 1) <= Zpos b < 2 ^ db) as [Hb1 Hb2]
    by (apply digits2_pos_bounds).
  assert (2 ^ 52 <= q0 < 2 ^ 54) as Hq0.
  { replace (52 + db) with (52 + 1 + (db - 1)) in Ha1 by lia.
    rewrite Z.pow_add_r in Ha1, Ha2 by lia.
    change (2 ^ (52 + 1)) with (2 ^ 53) in Ha1.
    replace (2 ^ db) with (2 * 2 ^ (db - 1)) in *
      by (rewrite <- Z.pow_succ_r by lia; f_equal; lia).
    assert (0 < 2 ^ (db - 1)) by (apply Z.pow_pos_nonneg; lia).
    split.
    - apply Z.div_le_lower_bound; [lia|]. nia.
    - apply Z.div_lt_upper_bound; [lia|]. nia. }
  destruct q0 as [|q|q] eqn:Hq0e; [lia| |lia].
  set (D := Zpos (digits2_pos q)).
  assert ((D = 53 /\ Zpos q < 2 ^ 53) \/ (D = 54 /\ 2 ^ 53 <= Zpos q)) as HD.
  { destruct (Z.lt_ge_cases (Zpos q) (2 ^ 53)) as [H|H].
    - left. split; [|done]. apply digits2_pos_unique. simpl. lia.
    - right. split; [|done]. apply digits2_pos_unique. simpl. lia. }
  destruct (binary_round_aux_bounds false q (- s)
              (new_location (Zpos b) (a2s mod Zpos b)))
    as (m & e & -> & Hm & Hcases); [fold D; unfold s; lia..|].
  fold D in Hcases.
  exists m, e. split; [done|]. split; [done|].
  assert (2 ^ 52 * Zpos b <= Zpos m * Zpos b) as HP
    by (apply Z.mul_le_mono_nonneg_r; lia).
  assert (forall c, 0 <= c -> e = - s + c ->
            a2s = Zpos a * 2 ^ (- e) * 2 ^ c) as Hsplit.
  { intros c Hc ->. unfold a2s. rewrite <- Z.mul_assoc, <- Z.pow_add_r by (unfold s; lia).
    do 2 f_equal. lia. }
  destruct HD as [[HD Hq53]|[HD Hq53]]; rewrite HD in Hcases.
  - (* the quotient has 53 digits *)
    change (2 ^ (53 - 53)) with 1 in Hcases. rewrite Z.div_1_r in Hcases.
    destruct Hcases as [[-> Hmq]|(-> & Hmq & Hov)].
    + pose proof (Hsplit 0 ltac:(lia) ltac:(lia)) as Hs. rewrite Z.pow_0_r in Hs.
      split; [unfold s; lia|]. nia.
    + pose proof (Hsplit 1 ltac:(lia) ltac:(lia)) as Hs. rewrite Z.pow_1_r in Hs.
      split; [unfold s; lia|]. nia.
  - (* it has 54 digits and loses one *)
    change (2 ^ (54 - 53)) with 2 in Hcases.
    pose proof (Z.div_mod (Zpos q) 2 ltac:(lia)) as Hdm.
    pose proof (Z.mod_pos_bound (Zpos q) 2 ltac:(lia)) as Hmb.
    destruct Hcases as [[-> Hmq]|(-> & Hmq & Hov)].
    + pose proof (Hsplit 1 ltac:(lia) ltac:(lia)) as Hs. rewrite Z.pow_1_r in Hs.
      split; [unfold s; lia|]. nia.
    + pose proof (Hsplit 2 ltac:(lia) ltac:(lia)) as Hs.
      change (2 ^ 2) with 4 in Hs.
      split; [unfold s; lia|]. nia.
Qed.

Lemma finite_lt_values (mx my : positive) ex ey :
  2 ^ 52 <= Zpos mx < 2 ^ 53 -> 2 ^ 52 <= Zpos my < 2 ^ 53 ->
  ex <= 0 -> ey <= 0 ->
  if SFltb (S754_finite false my ey) (S754_finite false mx ex)
  then Zpos my * 2 ^ (- ex) < Zpos mx * 2 ^ (- ey)
  else Zpos mx * 2 ^ (- ey) <= Zpos my * 2 ^ (- ex).
Proof.
  intros Hmx Hmy Hex Hey.
  powers_of_two.
  unfold SFltb, SFcompare.
  destruct (Z.compare_spec ey ex) as [->|Hlt|Hgt].
  - assert (0 < 2 ^ (- ex)) by (apply Z.pow_pos_nonneg; lia).
    change (Pos.compare_cont Eq my mx) with (Pos.compare my mx).
    destruct (Pos.compare_spec my mx) as [->|H'|H']; nia.
  - replace (- ey) with ((- ex) + (ex - ey)) by lia.
    rewrite Z.pow_add_r by lia.
    assert (0 < 2 ^ (- ex)) by (apply Z.pow_pos_nonneg; lia).
    assert (2 ^ 1 <= 2 ^ (ex - ey)) by (apply Z.pow_le_mono_r; lia).
    change (2 ^ 1) with 2 in *.
    set (P := 2 ^ (- ex)) in *. set (Q := 2 ^ (ex - ey)) in *.
    assert (Zpos my * P < 2 * Zpos mx * P) by (apply Z.mul_lt_mono_pos_r; lia).
    assert (Zpos mx * P * 2 <= Zpos mx * P * Q)
      by (apply Z.mul_le_mono_nonneg_l; nia).
    lia.
  - replace (- ex) with ((- ey) + (ey - ex)) by lia.
    rewrite Z.pow_add_r by lia.
    assert (0 < 2 ^ (- ey)) by (apply Z.pow_pos_nonneg; lia).
    assert (2 ^ 1 <= 2 ^ (ey - ex)) by (apply Z.pow_le_mono_r; lia).
    change (2 ^ 1) with 2 in *.
    set (P := 2 ^ (- ey)) in *. set (Q := 2 ^ (ey - ex)) in *.
    assert (Zpos mx * P < 2 * Zpos my * P) by (apply Z.mul_lt_mono_pos_r; lia).
    assert (Zpos my * P * 2 <= Zpos my * P * Q)
      by (apply Z.mul_le_mono_nonneg_l; nia).
    lia.
Qed.

(** What the comparison of the two aspect ratios says of the sizes. *)
Lemma ratio_comparison a b c d :
  0 < a < 2 ^ 28 -> 0 < b < 2 ^ 28 -> 0 < c < 2 ^ 28 -> 0 < d < 2 ^ 28 ->
  if Py.float_gt (Py.quotient a b) (Py.quotient c d)
  then (2 ^ 51 - 1) * (c * b) < (2 ^ 51 + 1) * (a * d)
  else (2 ^ 51 - 1) * (a * d) <= (2 ^ 51 + 1) * (c * b).
Proof.
  intros Ha Hb Hc Hd.
  destruct (quotient_bounds a b Ha Hb) as (mx & ex & -> & Hmx & Hex & Hx1 & Hx2).
  destruct (quotient_bounds c d Hc Hd) as (my & ey & -> & Hmy & Hey & Hy1 & Hy2).
  unfold Py.float_gt.
  pose proof (finite_lt_values mx my ex ey Hmx Hmy ltac:(lia) ltac:(lia)) as Hcmp.
  assert (0 < 2 ^ (- ex)) as HPx by (apply Z.pow_pos_nonneg; lia).
  assert (0 < 2 ^ (- ey)) as HPy by (apply Z.pow_pos_nonneg; lia).
  set (Px := 2 ^ (- ex)) in *. set (Py := 2 ^ (- ey)) in *.
  set (K := 2 ^ 51) in *.
  assert (2 <= K) as HK by (unfold K; simpl; lia).
  destruct (SFltb _ _).
  - (* K c Py <= (K+1) my d,  my Px < mx Py,  (K-1) mx b <= K a Px *)
    apply (Z.mul_lt_mono_pos_r (K * (Px * Py))); [nia|].
    apply Z.le_lt_trans with ((K + 1) * (K - 1) * (d * b) * (Zpos my * Px)).
    + replace ((K - 1) * (c * b) * (K * (Px * Py)))
        with ((K * (c * Py)) * ((K - 1) * (b * Px))) by ring.
      replace ((K + 1) * (K - 1) * (d * b) * (Zpos my * Px))
        with (((K + 1) * (Zpos my * d)) * ((K - 1) * (b * Px))) by ring.
      apply Z.mul_le_mono_nonneg_r; [nia|done].
    + apply Z.lt_le_trans with ((K + 1) * (K - 1) * (d * b) * (Zpos mx * Py)).
      * apply Z.mul_lt_mono_pos_l; [nia|done].
      * replace ((K + 1) * (K - 1) * (d * b) * (Zpos mx * Py))
          with (((K - 1) * (Zpos mx * b)) * ((K + 1) * (d * Py))) by ring.
        replace ((K + 1) * (a * d) * (K * (Px * Py)))
          with ((K * (a * Px)) * ((K + 1) * (d * Py))) by ring.
        apply Z.mul_le_mono_nonneg_r; [nia|done].
  - (* K a Px <= (K+1) mx b,  mx Py <= my Px,  (K-1) my d <= K c Py *)
    apply (Z.mul_le_mono_pos_r _ _ (K * (Px * Py))); [nia|].
    apply Z.le_trans with ((K + 1) * (K - 1) * (d * b) * (Zpos mx * Py)).
    + replace ((K - 1) * (a * d) * (K * (Px * Py)))
        with ((K * (a * Px)) * ((K - 1) * (d * Py))) by ring.
      replace ((K + 1) * (K - 1) * (d * b) * (Zpos mx * Py))
        with (((K + 1) * (Zpos mx * b)) * ((K - 1) * (d * Py))) by ring.
      apply Z.mul_le_mono_nonneg_r; [nia|done].
    + apply Z.le_trans with ((K + 1) * (K - 1) * (d * b) * (Zpos my * Px)).
      * apply Z.mul_le_mono_nonneg_l; [nia|done].
      * replace ((K + 1) * (K - 1) * (d * b) * (Zpos my * Px))
          with (((K - 1) * (Zpos my * d)) * ((K + 1) * (b * Px))) by ring.
        replace ((K + 1) * (c * b) * (K * (Px * Py)))
          with ((K * (c * Py)) * ((K + 1) * (b * Px))) by ring.
        apply Z.mul_le_mono_nonneg_r; [nia|done].
Qed.

(** *** The scaled side *)

(** [int(a * (c / b))] for a target side [c] and source sides [a], [b]
    with [a * c / b >= 1.5]: a positive integer below [2^52]. *)
Lemma scaled_side a b c :
  0 < a < 2 ^ 28 -> 0 < b < 2 ^ 28 -> 0 < c < 2 ^ 16 ->
  3 * b <= 2 * (a * c) ->
  exists r,
    Py.int_of_float (Py.float_mul (Py.float_of_int a) (Py.quotient c b)) = inr r /\
    1 <= r < 2 ^ 52.
Proof.
  intros Ha Hb Hc Hratio.
  powers_of_two.
  destruct (quotient_bounds c b ltac:(lia) Hb) as (m & e & -> & Hm & He & Hq1 & Hq2).
  rewrite float_of_int_dyadic by lia.
  destruct (dyadic_finite a 0) as (xa & -> & Hxa & Hdxa & Hda); [lia..|].
  replace (a <? 0) with false by lia.
  replace (Z.abs a) with a in Hxa by lia.
  set (da := Zdigits2 a) in *.
  assert (da <= 28) as Hda28.
  { destruct (Z.le_gt_cases da 28) as [H|H]; [done|].
    destruct a as [|pa|pa]; try lia.
    pose proof (digits2_pos_bounds pa) as [Hl _]. fold (Zdigits2 (Zpos pa)) in Hl.
    fold da in Hl.
    assert (2 ^ 28 <= 2 ^ (da - 1)) by (apply Z.pow_le_mono_r; lia). lia. }
  unfold Py.float_mul, SFmul. simpl xorb.
  set (E := 0 + da - 53 + e).
  set (P := 2 ^ (- e)) in *.
  assert (0 < P) as HP by (apply Z.pow_pos_nonneg; lia).
  assert (0 < 2 ^ (53 - da)) as HS by (apply Z.pow_pos_nonneg; lia).
  (* the exact product a * m * 2^e lies in [1, 2^45) *)
  assert (P <= a * Zpos m) as Hlow.
  { assert (3 * b * (2 ^ 51 * P) <= 2 * (a * c) * (2 ^ 51 * P)) as H1
      by (apply Z.mul_le_mono_nonneg_r; lia).
    assert (2 ^ 51 * (c * P) * (2 * a) <= (2 ^ 51 + 1) * (Zpos m * b) * (2 * a)) as H2
      by (apply Z.mul_le_mono_nonneg_r; lia).
    assert (b * (3 * 2 ^ 51 * P) <= b * (2 * (2 ^ 51 + 1) * (a * Zpos m))) as H3 by nia.
    apply Z.mul_le_mono_pos_l in H3; [|lia]. nia. }
  assert (a * Zpos m < 2 ^ 45 * P) as Hhigh.
  { assert (a * ((2 ^ 51 - 1) * (Zpos m * b)) <= a * (2 ^ 51 * (c * P))) as H1
      by (apply Z.mul_le_mono_nonneg_l; lia).
    assert (a * Zpos m <= a * Zpos m * b) as H2 by nia.
    assert (a * c < 2 ^ 44) as H3 by (change (2 ^ 44) with (2 ^ 28 * 2 ^ 16); nia).
    assert (2 ^ 51 * (a * c) * P <= 2 ^ 51 * 2 ^ 44 * P) as H4
      by (apply Z.mul_le_mono_nonneg_r; nia).
    change (2 ^ 44) with 17592186044416 in *. change (2 ^ 45) with 35184372088832. nia. }
  set (M := (xa * m)%positive).
  assert (Zpos M = a * Zpos m * 2 ^ (53 - da)) as HM.
  { unfold M. rewrite Pos2Z.inj_mul, Hxa. ring. }
  set (D := Zpos (digits2_pos M)).
  pose proof (digits2_pos_bounds M) as [HDl HDh]. fold D in HDl, HDh.
  (* so 1 <= D + E <= 45 *)
  assert (2 ^ (- E) <= Zpos M) as HM1.
  { rewrite HM. replace (- E) with (- e + (53 - da)) by (unfold E; lia).
    rewrite Z.pow_add_r by lia. fold P. apply Z.mul_le_mono_nonneg_r; lia. }
  assert (Zpos M < 2 ^ (45 - E)) as HM2.
  { rewrite HM. replace (45 - E) with (45 + - e + (53 - da)) by (unfold E; lia).
    rewrite !Z.pow_add_r by lia. fold P. apply Z.mul_lt_mono_pos_r; lia. }
  assert (1 <= D + E <= 45) as HDE.
  { split.
    - destruct (Z.le_gt_cases 1 (D + E)) as [H|H]; [done|].
      assert (2 ^ D <= 2 ^ (- E)) by (apply Z.pow_le_mono_r; lia). lia.
    - destruct (Z.le_gt_cases (D + E) 45) as [H|H]; [done|].
      assert (2 ^ (45 - E) <= 2 ^ (D - 1)) by (apply Z.pow_le_mono_r; lia). lia. }
  assert (53 <= D) as HD53.
  { destruct (Z.le_gt_cases 53 D) as [H|H]; [done|].
    pose proof (digits2_pos_bounds xa) as [Hxl _]. rewrite Hdxa in Hxl.
    change (2 ^ (53 - 1)) with (2 ^ 52) in Hxl.
    assert (2 ^ D <= 2 ^ 53) by (apply Z.pow_le_mono_r; lia).
    assert (2 ^ 52 * 2 ^ 52 <= Zpos xa * Zpos m) by (apply Z.mul_le_mono_nonneg; lia).
    unfold M in HDh. rewrite Pos2Z.inj_mul in HDh. lia. }
  destruct (binary_round_aux_bounds false M E loc_Exact)
    as (m' & e' & -> & Hm' & Hcases); [cbv zeta; fold D; lia..|].
  fold D in Hcases.
  assert (-52 <= e' <= -7) as He' by (destruct Hcases as [[-> _]|[-> _]]; lia).
  simpl Py.int_of_float. unfold cond_Zopp.
  exists (Z.shiftl (Zpos m') e'). split; [done|].
  assert (Z.shiftl (Zpos m') e' = Zpos m' / 2 ^ (- e')) as ->.
  { rewrite <- Z.shiftl_div_pow2 by lia. f_equal; lia. }
  assert (2 ^ 1 <= 2 ^ (- e') <= 2 ^ 52) as [Hp1 Hp2]
    by (split; apply Z.pow_le_mono_r; lia).
  change (2 ^ 1) with 2 in Hp1. split.
  - apply Z.div_le_lower_bound; lia.
  - apply Z.div_lt_upper_bound; lia.
Qed.

(** *** Cover and crop *)

Lemma int_truediv_Some a b : b <> 0 -> Py.int_truediv a b = Some (Py.quotient a b).
Proof.
  intros Hb. unfold Py.int_truediv.
  by destruct (Z.eqb_spec b 0).
Qed.

(** The crop of a resized picture that overflows one axis. *)
Lemma crop_overflow_x im r tw th :
  Z.even tw = true -> Z.even th = true ->
  0 < tw < 2 ^ 16 -> 0 < th < 2 ^ 16 -> 1 <= r < 2 ^ 52 ->
  PIL.crop im
    (Py.quotient (r - tw) 2, Py.quotient (th - th) 2,
     Py.float_add (Py.quotient (r - tw) 2) (Py.float_of_int tw),
     Py.float_add (Py.quotient (th - th) 2) (Py.float_of_int th))
  = Some (tw, th).
Proof.
  intros Etw Eth Htw Hth Hr.
  powers_of_two.
  destruct (crop_axis (r - tw) tw Etw ltac:(lia) ltac:(lia))
    as (Hx & x0 & x1 & Hx0 & Hx1 & Hdx).
  destruct (crop_axis (th - th) th Eth ltac:(lia) ltac:(lia))
    as (Hy & y0 & y1 & Hy0 & Hy1 & Hdy).
  unfold PIL.crop. rewrite Hx, Hy, Hx0, Hx1, Hy0, Hy1. simpl.
  do 2 f_equal; lia.
Qed.

Lemma crop_overflow_y im r tw th :
  Z.even tw = true -> Z.even th = true ->
  0 < tw < 2 ^ 16 -> 0 < th < 2 ^ 16 -> 1 <= r < 2 ^ 52 ->
  PIL.crop im
    (Py.quotient (tw - tw) 2, Py.quotient (r - th) 2,
     Py.float_add (Py.quotient (tw - tw) 2) (Py.float_of_int tw),
     Py.float_add (Py.quotient (r - th) 2) (Py.float_of_int th))
  = Some (tw, th).
Proof.
  intros Etw Eth Htw Hth Hr.
  powers_of_two.
  destruct (crop_axis (tw - tw) tw Etw ltac:(lia) ltac:(lia))
    as (Hx & x0 & x1 & Hx0 & Hx1 & Hdx).
  destruct (crop_axis (r - th) th Eth ltac:(lia) ltac:(lia))
    as (Hy & y0 & y1 & Hy0 & Hy1 & Hdy).
  unfold PIL.crop. rewrite Hx, Hy, Hx0, Hx1, Hy0, Hy1. simpl.
  do 2 f_equal; lia.
Qed.

(** Cover and crop to an even target gives exactly the target size. *)
Lemma cover_crop_even w h tw th :
  0 < w < 2 ^ 28 -> 0 < h < 2 ^ 28 ->
  0 < tw < 2 ^ 16 -> 0 < th < 2 ^ 16 ->
  Z.even tw = true -> Z.even th = true ->
  cover_crop (w, h) (tw, th) = Return (tw, th).
Proof.
  intros Hw Hh Htw Hth Etw Eth.
  powers_of_two.
  assert (2 <= tw /\ 2 <= th) as [Htw2 Hth2].
  { split.
    - destruct (Z.eq_dec tw 1) as [->|]; [done|lia].
    - destruct (Z.eq_dec th 1) as [->|]; [done|lia]. }
  unfold cover_crop. cbn [fst snd].
  rewrite !int_truediv_Some by lia. cbn [of_option mbind raising_bind].
  pose proof (ratio_comparison w h tw th ltac:(lia) ltac:(lia) ltac:(lia) ltac:(lia))
    as Hcmp.
  destruct (Py.float_gt (Py.quotient w h) (Py.quotient tw th)).
  - (* wider: the height is the target's, the width overflows *)
    assert (3 * h <= 2 * (w * th)) as Hratio by nia.
    destruct (scaled_side w h th Hw Hh Hth Hratio) as (r & Hr & Hrange).
    cbn [of_option mbind raising_bind].
    rewrite Hr. cbn [of_sum mbind raising_bind].
    unfold PIL.resize. cbn [fst snd].
    replace (1 <=? r) with true by lia. replace (1 <=? th) with true by lia.
    cbn [andb of_option mbind raising_bind].
    by rewrite crop_overflow_x.
  - (* taller: the width is the target's, the height overflows *)
    assert (3 * w <= 2 * (h * tw)) as Hratio by nia.
    destruct (scaled_side h w tw Hh Hw Htw Hratio) as (r & Hr & Hrange).
    cbn [of_option mbind raising_bind].
    rewrite Hr. cbn [of_sum mbind raising_bind].
    unfold PIL.resize. cbn [fst snd].
    replace (1 <=? tw) with true by lia. replace (1 <=? r) with true by lia.
    cbn [andb of_option mbind raising_bind].
    by rewrite crop_overflow_y.
Qed.

Lemma quotient_self a :
  0 < a < 2 ^ 53 -> Py.quotient a a = dyadic 1 0.
Proof.
  intros Ha. destruct a as [|a|a]; [lia| |lia].
  unfold Py.quotient. change (Z.abs (Zpos a)) with (Zpos a).
  rewrite SFdiv_core_binary_ints by lia.
  replace (53 + Zpos (digits2_pos a) - Zpos (digits2_pos a)) with 53 by lia.
  rewrite Z.mul_comm, Z.div_mul, Z.mod_mul by lia.
  assert (new_location (Zpos a) 0 = loc_Exact) as ->.
  { unfold new_location. by destruct (Z.even (Zpos a)). }
  change (2 ^ 53) with (Zpos 4503599627370496 * 2 ^ 1).
  rewrite binary_round_aux_exact by (done || lia).
  reflexivity.
Qed.

Lemma float_mul_one n :
  0 < n < 2 ^ 53 ->
  Py.float_mul (Py.float_of_int n) (dyadic 1 0) = dyadic n 0.
Proof.
  intros Hn. rewrite float_of_int_dyadic by lia.
  destruct (dyadic_finite n 0) as (x & -> & Hx & Hdx & Hd); [lia..|].
  change (dyadic 1 0) with (S754_finite false 4503599627370496 (-52)).
  unfold Py.float_mul, SFmul. rewrite Pos2Z.inj_mul.
  change (Zpos 4503599627370496) with (2 ^ 52).
  rewrite binary_round_aux_exact by (done || lia).
  replace (n <? 0) with false by lia. simpl xorb. f_equal. lia.
Qed.

Lemma int_of_float_dyadic n :
  0 < n < 2 ^ 53 -> Py.int_of_float (dyadic n 0) = inr n.
Proof.
  intros Hn.
  destruct (dyadic_finite n 0) as (x & -> & Hx & Hdx & Hd); [lia..|].
  replace (n <? 0) with false by lia. simpl. f_equal.
  rewrite Hx. replace (Z.abs n) with n by lia.
  rewrite Z.shiftl_div_pow2 by lia.
  replace (- (0 + Zdigits2 n - 53)) with (53 - Zdigits2 n) by lia.
  apply Z.div_mul. apply Z.pow_nonzero; lia.
Qed.

Lemma round_dyadic_int n :
  0 < n < 2 ^ 52 -> Py.round (dyadic n 0) = inr n.
Proof.
  intros Hn.
  powers_of_two.
  destruct (dyadic_finite n 0) as (x & -> & Hx & Hdx & Hd); [lia..|].
  replace (n <? 0) with false by lia. replace (Z.abs n) with n in Hx by lia.
  assert (Zdigits2 n <= 52) as Hd52.
  { destruct (Z.le_gt_cases (Zdigits2 n) 52) as [H|H]; [done|].
    destruct n as [|p|p]; try lia. simpl in *.
    pose proof (digits2_pos_bounds p) as [Hl _].
    assert (2 ^ 52 <= 2 ^ (Zpos (digits2_pos p) - 1)) by (apply Z.pow_le_mono_r; lia).
    lia. }
  unfold Py.round, cond_Zopp. f_equal.
  destruct (0 + Zdigits2 n - 53) as [|k|k] eqn:Hk; [lia|lia|].
  unfold Py.scaled_round, Py.half_even_div.
  replace (Zpos k) with (53 - Zdigits2 n) by lia.
  rewrite Z.mul_1_r, Hx.
  assert (0 < 2 ^ (53 - Zdigits2 n)) by (apply Z.pow_pos_nonneg; lia).
  rewrite Z.div_mul, Z.mod_mul by lia.
  by destruct (Z.compare_spec (2 * 0) (2 ^ (53 - Zdigits2 n))); try lia.
Qed.

Lemma SFltb_irrefl s m e :
  SFltb (S754_finite s m e) (S754_finite s m e) = false.
Proof.
  unfold SFltb, SFcompare. rewrite Z.compare_refl.
  change (Pos.compare_cont Eq m m) with (Pos.compare m m).
  rewrite Pos.compare_refl. by destruct s.
Qed.

(** The crop of a picture that has the target size already. *)
Lemma crop_no_overflow im tw th :
  0 < tw < 2 ^ 52 -> 0 < th < 2 ^ 52 ->
  PIL.crop im
    (Py.quotient (tw - tw) 2, Py.quotient (th - th) 2,
     Py.float_add (Py.quotient (tw - tw) 2) (Py.float_of_int tw),
     Py.float_add (Py.quotient (th - th) 2) (Py.float_of_int th))
  = Some (tw, th).
Proof.
  intros Htw Hth.
  powers_of_two.
  rewrite !Z.sub_diag.
  change (Py.quotient 0 2) with (S754_zero false).
  assert (forall t, 0 < t < 2 ^ 52 ->
            Py.float_add (S754_zero false) (Py.float_of_int t) = dyadic t 0) as Hadd.
  { intros t Ht. rewrite float_of_int_dyadic by lia.
    by destruct (dyadic_finite t 0) as (x & -> & _); [lia..|]. }
  rewrite !Hadd by done.
  unfold PIL.crop. rewrite !round_dyadic_int by done.
  destruct (dyadic_finite tw 0) as (x & -> & _); [lia..|].
  destruct (dyadic_finite th 0) as (y & -> & _); [lia..|].
  replace (tw <? 0) with false by lia. replace (th <? 0) with false by lia.
  simpl. do 2 f_equal; lia.
Qed.

(** A picture that has the target size keeps it, whatever the target. *)
Lemma cover_crop_same tw th :
  0 < tw < 2 ^ 28 -> 0 < th < 2 ^ 28 ->
  cover_crop (tw, th) (tw, th) = Return (tw, th).
Proof.
  intros Htw Hth.
  powers_of_two.
  unfold cover_crop. cbn [fst snd].
  rewrite !int_truediv_Some by lia. cbn [of_option mbind raising_bind].
  destruct (quotient_bounds tw th Htw Hth) as (m & e & -> & _).
  unfold Py.float_gt. rewrite SFltb_irrefl.
  rewrite quotient_self, float_mul_one, int_of_float_dyadic by lia.
  cbn [of_sum mbind raising_bind].
  unfold PIL.resize. cbn [fst snd].
  replace (1 <=? tw) with true by lia. replace (1 <=? th) with true by lia.
  cbn [andb of_option mbind raising_bind].
  rewrite crop_no_overflow by lia. done.
Qed.

(** The size of the file the normaliser writes.  For an accepted upload
    whose picture has sides below [2^28] (anything Pillow opens under its
    default pixel limit) and a target with even sides below [2^16], such
    as the 600 by 400 of every call in the application, the normaliser
    writes one file, under the generated name, and the picture in it has
    the size of the target, whether the scaled picture covered the crop
    box or fell short of it.  A picture that has the target size already
    keeps it, whether the target's sides are even or odd. *)
Theorem normalizer_output_size file uuid_hex folder w h tw th :
  allowed_file (filename file) = true ->
  stream file = Some (w, h) ->
  0 < w < 2 ^ 28 -> 0 < h < 2 ^ 28 ->
  0 < tw < 2 ^ 16 -> 0 < th < 2 ^ 16 ->
  (Z.even tw = true /\ Z.even th = true) \/ (w, h) = (tw, th) ->
  let unique_name :=
    uuid_hex +:+ "." +:+ Py.lower (Py.rsplit_dot_last (filename file)) in
  save_and_resize_image file (tw, th) uuid_hex folder
  = (<[unique_name := (tw, th)]> folder, Return (Some unique_name)).
Proof.
  intros Hallowed Hstream Hw Hh Htw Hth Hcase unique_name.
  assert (cover_crop (w, h) (tw, th) = Return (tw, th)) as Hcrop.
  { destruct Hcase as [[Etw Eth]|[= -> ->]].
    - by apply cover_crop_even.
    - apply cover_crop_same; lia. }
  unfold save_and_resize_image. rewrite Hallowed, Hstream.
  cbn [negb of_option mbind raising_bind]. by rewrite Hcrop.
Qed.

Lemma normalizer_output_size_witness :
  save_and_resize_image {| filename := "Front View.JPG"; stream := Some (1000, 333) |}
    (600, 400) "0f3a" ∅
  = (<["0f3a.jpg" := (600, 400)]> ∅, Return (Some "0f3a.jpg")) /\
  save_and_resize_image {| filename := "thumb.png"; stream := Some (75, 51) |}
    (75, 51) "0f3b" ∅
  = (<["0f3b.png" := (75, 51)]> ∅, Return (Some "0f3b.png")).
Proof.
  split.
  - apply (normalizer_output_size
             {| filename := "Front View.JPG"; stream := Some (1000, 333) |}
             "0f3a" ∅ 1000 333 600 400);
      [reflexivity | reflexivity | simpl; lia | simpl; lia | simpl; lia | simpl; lia |].
    left. split; reflexivity.
  - apply (normalizer_output_size
             {| filename := "thumb.png"; stream := Some (75, 51) |}
             "0f3b" ∅ 75 51 75 51);
      [reflexivity | reflexivity | simpl; lia | simpl; lia | simpl; lia | simpl; lia |].
    right. reflexivity.
Defined.

(** [cover_resize] and [crop_box] are the two halves of [cover_crop]. *)
Lemma cover_crop_steps im output_size :
  cover_crop im output_size
  = new_size ← cover_resize im output_size;
    im_resized ← of_option (PIL.resize im new_size);
    of_option (PIL.crop im_resized (crop_box new_size output_size)).
Proof.
  destruct output_size as [target_w target_h].
  unfold cover_crop, cover_resize, crop_box.
  destruct (of_option (Py.int_truediv im.1 im.2)) as [im_ratio|]; [|done].
  cbn [mbind raising_bind].
  destruct (of_option (Py.int_truediv target_w target_h)) as [target_ratio|]; [|done].
  cbn [mbind raising_bind].
  destruct (Py.float_gt im_ratio target_ratio).
  - destruct (of_option (Py.int_truediv target_h im.2)) as [scale|]; [|done].
    cbn [mbind raising_bind].
    by destruct (of_sum (Py.int_of_float (Py.float_mul (Py.float_of_int im.1) scale))).
  - destruct (of_option (Py.int_truediv target_w im.1)) as [scale|]; [|done].
    cbn [mbind raising_bind].
    by destruct (of_sum (Py.int_of_float (Py.float_mul (Py.float_of_int im.2) scale))).
Qed.

(** C7, at the uploads where the code leaves the claim.  A 291 by 194
    picture sent to the 600 by 400 target of the admin forms has the
    target's aspect ratio, so it is scaled by width; the height it gets is
    [int(194 * (600 / 291))], and the product is the binary64 just below
    400, which [int] cuts down to 399.  The scaled picture, 600 by 399,
    does not cover the target.  The crop box runs from -0.5 to 399.5,
    Pillow rounds its ends to 0 and 400, and the file written is 600 by
    400 with a bottom row that lies outside the scaled picture: the size
    is the target's, a cover-scale followed by a crop it is not.  With the
    odd target width 3, which no caller passes, a 4 by 2 picture comes out
    4 by 2 and a 6 by 2 picture 2 by 2, since the crop box starts on a
    half pixel and both ends are rounded to the even neighbour; with the
    target 1 by 1 a 49 by 49 picture is scaled to a height of
    [int(49 * (1 / 49)) = 0] and the resize raises. *)
Lemma normalizer_scales_short_of_the_target :
  Py.float_gt (Py.quotient 291 194) (Py.quotient 600 400) = false /\
  Py.int_of_float (Py.float_mul (Py.float_of_int 194) (Py.quotient 600 291))
  = inr 399 /\
  cover_resize (291, 194) (600, 400) = Return (600, 399) /\
  (let '(x_left, y_top, x_right, y_bottom) := crop_box (600, 399) (600, 400) in
   Py.round x_left = inr 0 /\ Py.round y_top = inr 0 /\
   Py.round x_right = inr 600 /\ Py.round y_bottom = inr 400) /\
  save_and_resize_image {| filename := "side.png"; stream := Some (291, 194) |}
    (600, 400) "0f3a" ∅
  = (<["0f3a.png" := (600, 400)]> ∅, Return (Some "0f3a.png")) /\
  save_and_resize_image {| filename := "a.png"; stream := Some (4, 2) |}
    (3, 2) "0f3a" ∅
  = (<["0f3a.png" := (4, 2)]> ∅, Return (Some "0f3a.png")) /\
  save_and_resize_image {| filename := "a.png"; stream := Some (6, 2) |}
    (3, 2) "0f3a" ∅
  = (<["0f3a.png" := (2, 2)]> ∅, Return (Some "0f3a.png")) /\
  save_and_resize_image {| filename := "a.png"; stream := Some (49, 49) |}
    (1, 1) "0f3a" ∅
  = (∅, Raise).
Proof. repeat split; vm_compute; reflexivity. Qed.

(** * Further properties of the routes *)

(** ** The cart as a dictionary *)

Lemma dict_get_set k key value d :
  dict_get k (dict_set key value d)
  = if decide (k = key) then value else dict_get k d.
Proof.
  induction d as [|[k' v'] d IH]; cbn [dict_set dict_get].
  - destruct (Z.eqb_spec key k) as [->|Hne].
    + by rewrite decide_True.
    + by rewrite decide_False by congruence.
  - destruct (Z.eqb_spec k' key) as [->|Hne]; cbn [dict_get].
    + destruct (Z.eqb_spec key k) as [->|Hne]; [by rewrite decide_True|].
      by rewrite decide_False by congruence.
    + destruct (Z.eqb_spec k' k) as [->|Hne']; [by rewrite decide_False|].
      apply IH.
Qed.

Lemma dict_get_pop k key d :
  dict_get k (dict_pop key d) = if decide (k = key) then 0 else dict_get k d.
Proof.
  unfold dict_pop. induction d as [|[k' v'] d IH]; cbn [dict_get].
  - by destruct (decide (k = key)).
  - rewrite filter_cons. cbn [fst].
    destruct (decide (k' ≠ key)) as [Hne|Heq]; cbn [dict_get].
    + destruct (Z.eqb_spec k' k) as [->|Hne']; [by rewrite decide_False|]. apply IH.
    + assert (k' = key) as -> by (destruct (decide (k' = key)); [done|contradiction]).
      rewrite IH. destruct (decide (k = key)) as [->|Hne]; [done|].
      by destruct (Z.eqb_spec key k) as [->|_].
Qed.

Lemma dict_pop_absent key d : key ∉ d.*1 -> dict_pop key d = d.
Proof.
  unfold dict_pop. induction d as [|[k v] d IH]; [done|].
  rewrite fmap_cons. cbn [fst]. intros [Hne Hout]%not_elem_of_cons.
  rewrite filter_cons, decide_True by (cbn; congruence).
  by rewrite IH.
Qed.

Lemma dict_pop_keys key d : key ∉ (dict_pop key d).*1.
Proof.
  unfold dict_pop. intros ([k v] & -> & Hin)%list_elem_of_fmap.
  apply list_elem_of_filter in Hin as [Hne _]. by apply Hne.
Qed.

Lemma dict_pop_set key value d :
  dict_pop key (dict_set key value d) = dict_pop key d.
Proof.
  unfold dict_pop. induction d as [|[k v] d IH]; cbn [dict_set].
  - rewrite filter_cons, decide_False by (cbn; tauto). done.
  - destruct (Z.eqb_spec k key) as [->|Hne].
    + rewrite !filter_cons, !decide_False by (cbn; tauto). done.
    + rewrite !filter_cons, !decide_True by (cbn; congruence). by rewrite IH.
Qed.

Lemma fold_left_add (l : list Z) (t : Z) : fold_left Z.add l t = t + sum_Z l.
Proof.
  revert t. induction l as [|x l IH]; intros t; simpl; [unfold sum_Z; simpl; lia|].
  rewrite IH. unfold sum_Z. simpl. lia.
Qed.

Lemma inject_cart_count_quantities st : inject_cart_count st = quantities (cart st).
Proof.
  unfold inject_cart_count, quantities.
  destruct (cart st) as [|e c]; [done|]. by rewrite fold_left_add.
Qed.

Lemma quantities_dict_set key q d :
  quantities (dict_set key (dict_get key d + q) d) = quantities d + q.
Proof.
  unfold quantities. induction d as [|[k v] d IH]; cbn [dict_set dict_get].
  - unfold sum_Z. simpl. lia.
  - destruct (Z.eqb_spec k key) as [->|Hne].
    + rewrite !fmap_cons. unfold sum_Z. simpl. lia.
    + rewrite !fmap_cons. unfold sum_Z in *. simpl. rewrite IH. lia.
Qed.

Lemma quantities_dict_pop key d :
  NoDup d.*1 -> quantities (dict_pop key d) = quantities d - dict_get key d.
Proof.
  unfold quantities, dict_pop. induction d as [|[k v] d IH]; intros Hnd.
  - done.
  - rewrite fmap_cons in Hnd. apply NoDup_cons in Hnd as [Hk Hnd]. cbn [fst] in Hk.
    rewrite filter_cons. cbn [fst dict_get].
    destruct (Z.eqb_spec k key) as [->|Hne].
    + rewrite decide_False by tauto.
      fold (dict_pop key d). rewrite dict_pop_absent by done.
      rewrite fmap_cons. unfold sum_Z. simpl. lia.
    + rewrite decide_True by done. rewrite !fmap_cons. unfold sum_Z in *. simpl.
      rewrite IH by done. lia.
Qed.

Lemma grand_total_dict_set ps key q d p :
  ps !! key = Some p ->
  grand_total ps (dict_set key (dict_get key d + q) d)
  = grand_total ps d + Product.price_cents p * q.
Proof.
  intros Hp. induction d as [|[k v] d IH]; cbn [dict_set dict_get].
  - rewrite grand_total_cons, Hp, grand_total_nil. lia.
  - destruct (Z.eqb_spec k key) as [->|Hne].
    + rewrite !grand_total_cons, Hp. lia.
    + rewrite !grand_total_cons, IH. destruct (ps !! k); lia.
Qed.

Lemma grand_total_dict_pop ps key d :
  NoDup d.*1 ->
  grand_total ps (dict_pop key d)
  = grand_total ps d
    - match ps !! key with
      | Some p => Product.price_cents p * dict_get key d
      | None => 0
      end.
Proof.
  unfold dict_pop. induction d as [|[k v] d IH]; intros Hnd.
  - rewrite filter_nil, grand_total_nil. cbn [dict_get]. destruct (ps !! key); lia.
  - rewrite fmap_cons in Hnd. apply NoDup_cons in Hnd as [Hk Hnd]. cbn [fst] in Hk.
    rewrite filter_cons. cbn [fst dict_get].
    destruct (Z.eqb_spec k key) as [->|Hne].
    + rewrite decide_False by tauto.
      fold (dict_pop key d). rewrite dict_pop_absent by done.
      rewrite grand_total_cons. destruct (ps !! key); lia.
    + rewrite decide_True by done. rewrite !grand_total_cons, IH by done.
      destruct (ps !! k), (ps !! key); lia.
Qed.

(** ** The cart routes *)

(** X1.  A request to add a quantity that does not exceed the product's
    stock is merged into the cart: the product's entry grows by that
    quantity (from 0 when it had none), every other entry keeps its
    quantity, the keys of the cart are those it had and the product's, the
    count shown beside the cart link grows by the quantity, and nothing
    but the cart changes. *)
Theorem add_to_cart_accumulates int_of_str product_id form_qty qty p st :
  form_quantity int_of_str form_qty = Some qty ->
  products st !! product_id = Some p ->
  qty <= Product.stock p ->
  exists c' location,
    add_to_cart int_of_str product_id form_qty st
    = (with_cart st c', Redirect (Some "Added to cart") location) /\
    (forall k, dict_get k c'
               = if decide (k = product_id) then dict_get k (cart st) + qty
                 else dict_get k (cart st)) /\
    (forall k, k ∈ c'.*1 <-> k ∈ (cart st).*1 \/ k = product_id) /\
    inject_cart_count (with_cart st c') = inject_cart_count st + qty.
Proof.
  intros Hqty Hp Hle. unfold form_quantity in Hqty.
  exists (dict_set product_id (dict_get product_id (cart st) + qty) (cart st)), "/".
  split; [|split; [|split]].
  - unfold add_to_cart. rewrite Hqty, Hp.
    by destruct (Z.ltb_spec (Product.stock p) qty) as [Hlt|_]; [lia|].
  - intros k. rewrite dict_get_set. by destruct (decide (k = product_id)) as [->|].
  - intros k. rewrite dict_set_keys.
    destruct (decide (product_id ∈ (cart st).*1)) as [Hin|Hnin].
    + split; [by left | by intros [?| ->]].
    + by rewrite elem_of_app, list_elem_of_singleton.
  - rewrite !inject_cart_count_quantities. cbn [with_cart cart].
    apply quantities_dict_set.
Qed.

Lemma add_to_cart_accumulates_witness :
  exists c' location,
    add_to_cart Py.int_of_literal 4 (Some "3") (seeded [(1, 1); (4, 2)] false)
    = (with_cart (seeded [(1, 1); (4, 2)] false) c',
       Redirect (Some "Added to cart") location) /\
    dict_get 4 c' = 5 /\ dict_get 1 c' = 1 /\ 4 ∈ c'.*1 /\
    inject_cart_count (with_cart (seeded [(1, 1); (4, 2)] false) c') = 6.
Proof.
  destruct (add_to_cart_accumulates Py.int_of_literal 4 (Some "3") 3 mechanical_keyboard
              (seeded [(1, 1); (4, 2)] false))
    as (c' & location & Heq & Hget & Hkeys & Hcount);
    [vm_compute; reflexivity | vm_compute; reflexivity | simpl; lia |].
  exists c', location. split; [exact Heq|].
  split; [rewrite Hget; reflexivity|]. split; [rewrite Hget; reflexivity|].
  split; [apply Hkeys; by right|]. rewrite Hcount. reflexivity.
Defined.

(** X2.  The cart routes never write to the product table, the upload
    folder or the admin flag.  A request for more than the stock is
    refused with a flashed message and leaves the cart as it was too; a
    request for a product that does not exist, or with a quantity that is
    not an integer, ends in an error status with nothing changed. *)
Theorem cart_routes_leave_tables int_of_str st :
  (forall product_id form_qty,
     let st' := (add_to_cart int_of_str product_id form_qty st).1 in
     products st' = products st /\ uploads st' = uploads st /\
     admin st' = admin st) /\
  (forall product_id form_qty qty p,
     form_quantity int_of_str form_qty = Some qty ->
     products st !! product_id = Some p ->
     Product.stock p < qty ->
     exists location,
       add_to_cart int_of_str product_id form_qty st
       = (st, Redirect (Some "Not enough stock for that product.") location)) /\
  (forall product_id form_qty,
     products st !! product_id = None \/ form_quantity int_of_str form_qty = None ->
     exists status, add_to_cart int_of_str product_id form_qty st = (st, Abort status)) /\
  (forall product_id,
     let st' := (remove_from_cart product_id st).1 in
     products st' = products st /\ uploads st' = uploads st /\
     admin st' = admin st) /\
  (view_cart st).1 = st.
Proof.
  split; [|split; [|split; [|split]]].
  - intros product_id form_qty. unfold add_to_cart.
    destruct (match form_qty with Some s => int_of_str s | None => Some 1 end)
      as [qty|]; [|done].
    destruct (products st !! product_id) as [p|]; [|done].
    by destruct (Product.stock p <? qty).
  - intros product_id form_qty qty p Hqty Hp Hlt. unfold form_quantity in Hqty.
    exists "/". unfold add_to_cart. rewrite Hqty, Hp.
    by destruct (Z.ltb_spec (Product.stock p) qty) as [_|Hge]; [|lia].
  - intros product_id form_qty Hcase. unfold add_to_cart, form_quantity in *.
    destruct (match form_qty with Some s => int_of_str s | None => Some 1 end)
      as [qty|]; [|eauto].
    destruct Hcase as [-> | ?]; [eauto|done].
  - done.
  - done.
Qed.

Lemma cart_routes_leave_tables_witness :
  (exists location,
     add_to_cart Py.int_of_literal 3 (Some "3") (seeded [(3, 1)] false)
     = (seeded [(3, 1)] false,
        Redirect (Some "Not enough stock for that product.") location)) /\
  (exists status,
     add_to_cart Py.int_of_literal 9 (Some "1") (seeded [] false)
     = (seeded [] false, Abort status)) /\
  (exists status,
     add_to_cart Py.int_of_literal 1 (Some "two") (seeded [] false)
     = (seeded [] false, Abort status)).
Proof.
  destruct (cart_routes_leave_tables Py.int_of_literal (seeded [(3, 1)] false))
    as (_ & Hrefuse & _).
  destruct (cart_routes_leave_tables Py.int_of_literal (seeded [] false))
    as (_ & _ & Habort & _).
  split; [|split].
  - apply (Hrefuse 3 (Some "3") 3 gaming_pc);
      [vm_compute; reflexivity | vm_compute; reflexivity | simpl; lia].
  - apply (Habort 9 (Some "1")). left. vm_compute. reflexivity.
  - apply (Habort 1 (Some "two")). right. vm_compute. reflexivity.
Defined.

(** X3.  Removing a product takes its entry out of the cart and nothing
    else: the other entries keep their quantities and their order, a
    product that is not in the cart is removed without error or change,
    and the count beside the cart link drops by the quantity removed. *)
Theorem remove_from_cart_drops_entry product_id st :
  exists c',
    remove_from_cart product_id st
    = (with_cart st c', Redirect (Some "Removed from cart") "/cart") /\
    (product_id ∉ c'.*1) /\
    (forall k, k <> product_id -> dict_get k c' = dict_get k (cart st)) /\
    (c' `sublist_of` cart st) /\
    (product_id ∉ (cart st).*1 -> c' = cart st) /\
    (NoDup (cart st).*1 ->
     inject_cart_count (with_cart st c')
     = inject_cart_count st - dict_get product_id (cart st)).
Proof.
  exists (dict_pop product_id (cart st)).
  split; [done|]. split; [apply dict_pop_keys|]. split; [|split; [|split]].
  - intros k Hne. rewrite dict_get_pop. by rewrite decide_False.
  - apply sublist_filter.
  - apply dict_pop_absent.
  - intros Hnd. rewrite !inject_cart_count_quantities. cbn [with_cart cart].
    by apply quantities_dict_pop.
Qed.

Lemma remove_from_cart_drops_entry_witness :
  exists c',
    remove_from_cart 4 (seeded [(1, 1); (4, 2); (5, 3)] false)
    = (with_cart (seeded [(1, 1); (4, 2); (5, 3)] false) c',
       Redirect (Some "Removed from cart") "/cart") /\
    c' = [(1, 1); (5, 3)] /\
    inject_cart_count (with_cart (seeded [(1, 1); (4, 2); (5, 3)] false) c') = 4.
Proof.
  destruct (remove_from_cart_drops_entry 4 (seeded [(1, 1); (4, 2); (5, 3)] false))
    as (c' & Heq & _ & _ & _ & _ & Hcount).
  exists c'. split; [exact Heq|].
  split; [by injection Heq as <-|].
  rewrite Hcount; [reflexivity|]. simpl. compute_done.
Defined.

(** X4.  Removing a product right after a request to add it, whatever
    that request did, leaves the state that removing it straight away
    leaves; adding a product that was not in the cart and removing it
    gives back the state before the two requests. *)
Theorem remove_after_add int_of_str product_id form_qty st :
  (remove_from_cart product_id (add_to_cart int_of_str product_id form_qty st).1).1
  = (remove_from_cart product_id st).1 /\
  (product_id ∉ (cart st).*1 ->
   (remove_from_cart product_id (add_to_cart int_of_str product_id form_qty st).1).1
   = st).
Proof.
  assert ((remove_from_cart product_id
             (add_to_cart int_of_str product_id form_qty st).1).1
          = (remove_from_cart product_id st).1) as Heq.
  { unfold add_to_cart.
    destruct (match form_qty with Some s => int_of_str s | None => Some 1 end)
      as [qty|]; [|done].
    destruct (products st !! product_id) as [p|]; [|done].
    destruct (Product.stock p <? qty); [done|].
    unfold remove_from_cart, with_cart. cbn [fst cart products orders uploads admin].
    by rewrite dict_pop_set. }
  split; [exact Heq|].
  intros Hout. rewrite Heq. unfold remove_from_cart, with_cart. cbn [fst].
  rewrite dict_pop_absent by done. by destruct st.
Qed.

Lemma remove_after_add_witness :
  (remove_from_cart 2
     (add_to_cart Py.int_of_literal 2 (Some "3") (seeded [(1, 1)] false)).1).1
  = seeded [(1, 1)] false.
Proof.
  apply (remove_after_add Py.int_of_literal 2 (Some "3") (seeded [(1, 1)] false)).
  simpl. compute_done.
Defined.

(** X5.  The grand total of the cart page follows the cart: a request
    that adds a quantity of a product raises it by that quantity times the
    product's price, and removing the product lowers it by the price times
    the quantity the cart held. *)
Theorem cart_total_follows_the_cart int_of_str product_id st p :
  products st !! product_id = Some p ->
  (forall form_qty qty,
     form_quantity int_of_str form_qty = Some qty ->
     qty <= Product.stock p ->
     exists items total items' total',
       (view_cart st).2 = CartPage items total /\
       (view_cart (add_to_cart int_of_str product_id form_qty st).1).2
       = CartPage items' total' /\
       total' = total + Product.price_cents p * qty) /\
  (NoDup (cart st).*1 ->
   exists items total items' total',
     (view_cart st).2 = CartPage items total /\
     (view_cart (remove_from_cart product_id st).1).2 = CartPage items' total' /\
     total' = total - Product.price_cents p * dict_get product_id (cart st)).
Proof.
  intros Hp. split.
  - intros form_qty qty Hqty Hle. unfold form_quantity in Hqty.
    unfold add_to_cart. rewrite Hqty, Hp.
    destruct (Z.ltb_spec (Product.stock p) qty) as [Hlt|_]; [lia|].
    cbn [fst]. unfold view_cart. cbn [snd with_cart products cart].
    eexists _, _, _, _. split; [reflexivity|]. split; [reflexivity|].
    rewrite !cart_total_cents_grand_total. by apply grand_total_dict_set.
  - intros Hnd. unfold remove_from_cart, view_cart.
    cbn [fst snd with_cart products cart].
    eexists _, _, _, _. split; [reflexivity|]. split; [reflexivity|].
    rewrite !cart_total_cents_grand_total, grand_total_dict_pop by done.
    by rewrite Hp.
Qed.

Lemma cart_total_follows_the_cart_witness :
  exists items total items' total',
    (view_cart (seeded [(1, 1); (4, 2)] false)).2 = CartPage items total /\
    (view_cart
       (add_to_cart Py.int_of_literal 4 (Some "3") (seeded [(1, 1); (4, 2)] false)).1).2
    = CartPage items' total' /\
    total' = total + 250000 * 3.
Proof.
  destruct (cart_total_follows_the_cart Py.int_of_literal 4
              (seeded [(1, 1); (4, 2)] false) mechanical_keyboard)
    as [Hadd _]; [vm_compute; reflexivity|].
  apply (Hadd (Some "3") 3); [vm_compute; reflexivity | simpl; lia].
Defined.

(** ** Checkout, further *)




Lemma same_but_stock_refl p : same_but_stock p p.
Proof. unfold same_but_stock. by destruct p. Qed.

Lemma checkout_decrement_rows ps c ps' :
  checkout_decrement ps c = Some ps' ->
  forall i,
    match ps !! i, ps' !! i with
    | Some p, Some p' => same_but_stock p p' /\ (i ∉ c.*1 -> p' = p)
    | None, None => True
    | _, _ => False
    end.
Proof.
  revert ps. induction c as [|[k q] c IH]; intros ps Hdec i.
  - simpl in Hdec. injection Hdec as <-.
    destruct (ps !! i) as [p|]; [|done]. split; [apply same_but_stock_refl|done].
  - simpl in Hdec. destruct (ps !! k) as [pk|] eqn:Hpk; [|done].
    specialize (IH _ Hdec i).
    destruct (decide (k = i)) as [->|Hne].
    + rewrite lookup_insert_eq in IH. rewrite Hpk.
      destruct (ps' !! i) as [p'|]; [|done].
      destruct IH as [Hsame _]. split.
      * unfold same_but_stock in *. rewrite Hsame. by destruct pk.
      * intros Hout. exfalso. apply Hout. rewrite fmap_cons. apply list_elem_of_here.
    + rewrite lookup_insert_ne in IH by done.
      destruct (ps !! i) as [p|], (ps' !! i) as [p'|]; try done.
      destruct IH as [Hsame Hout]. split; [done|].
      intros Hnot. apply Hout. rewrite fmap_cons in Hnot.
      by apply not_elem_of_cons in Hnot as [_ ?].
Qed.

(** X7.  Whatever its outcome, checkout writes nothing to a product but
    its stock: no row appears or disappears, every row keeps its name,
    slug, description, price and image, a row whose product is not in the
    cart is not touched at all, and the upload folder and the admin flag
    stay as they were. *)
Theorem checkout_changes_only_stock page name address now st :
  let st' := (checkout page name address now st).1 in
  uploads st' = uploads st /\ admin st' = admin st /\
  forall i,
    match products st !! i, products st' !! i with
    | Some p, Some p' => same_but_stock p p' /\ (i ∉ (cart st).*1 -> p' = p)
    | None, None => True
    | _, _ => False
    end.
Proof.
  assert (forall i,
            match products st !! i, products st !! i with
            | Some p, Some p' => same_but_stock p p' /\ (i ∉ (cart st).*1 -> p' = p)
            | None, None => True
            | _, _ => False
            end) as Hsame.
  { intros i. destruct (products st !! i); [|done].
    split; [apply same_but_stock_refl|done]. }
  unfold checkout.
  destruct (cart st) as [|entry c] eqn:Hc; [done|].
  destruct (checkout_verify _ _ _ _) as [message|[items_summary total]]; [done|].
  destruct (checkout_decrement _ _) as [ps'|] eqn:Hdec; [|done].
  cbn [fst products uploads admin]. split; [done|]. split; [done|].
  by apply checkout_decrement_rows.
Qed.

Lemma checkout_decrement_no_rise ps c ps' :
  checkout_decrement ps c = Some ps' ->
  Forall (fun entry => 0 <= entry.2) c ->
  (forall k q p, (k, q) ∈ c -> ps !! k = Some p -> 0 <= Product.stock p) ->
  forall i p p', ps !! i = Some p -> ps' !! i = Some p' ->
    Product.stock p' <= Product.stock p.
Proof.
  revert ps. induction c as [|[k q] c IH]; intros ps Hdec Hq Hpos i p p' Hi Hi'.
  - simpl in Hdec. injection Hdec as <-. rewrite Hi in Hi'. injection Hi' as <-. lia.
  - simpl in Hdec. destruct (ps !! k) as [pk|] eqn:Hpk; [|done].
    apply Forall_cons in Hq as [Hq0 Hq]. simpl in Hq0.
    assert (0 <= Product.stock pk) as Hpk0.
    { apply (Hpos k q); [apply list_elem_of_here|done]. }
    assert (forall k' q' p0, (k', q') ∈ c ->
              <[k := Product.with_stock pk (Z.max (Product.stock pk - q) 0)]> ps !! k'
              = Some p0 -> 0 <= Product.stock p0) as Hpos'.
    { intros k' q' p0 Hin Hl. destruct (decide (k = k')) as [->|Hne].
      - rewrite lookup_insert_eq in Hl. injection Hl as <-. simpl. lia.
      - rewrite lookup_insert_ne in Hl by done.
        apply (Hpos k' q'); [by apply list_elem_of_further|done]. }
    destruct (decide (k = i)) as [->|Hne].
    + assert (Product.stock p'
              <= Product.stock
                   (Product.with_stock pk (Z.max (Product.stock pk - q) 0))) as Hle.
      { apply (IH _ Hdec Hq Hpos' i); [|done]. by rewrite lookup_insert_eq. }
      simpl in Hle. assert (pk = p) as -> by congruence. lia.
    + apply (IH _ Hdec Hq Hpos' i p p'); [|done].
      by rewrite lookup_insert_ne.
Qed.

(** X8.  With no negative quantity in the cart, checkout never raises
    the stock of a product, whatever its outcome. *)
Theorem checkout_never_raises_stock page name address now st :
  Forall (fun entry => 0 <= entry.2) (cart st) ->
  forall i p p',
    products st !! i = Some p ->
    products (checkout page name address now st).1 !! i = Some p' ->
    Product.stock p' <= Product.stock p.
Proof.
  intros Hq i p p' Hi. unfold checkout.
  assert (forall q, products st !! i = Some q -> Product.stock q <= Product.stock p)
    as Hsame by (intros q Hq'; assert (q = p) as -> by congruence; lia).
  destruct (cart st) as [|entry c] eqn:Hc; [apply Hsame|].
  destruct (checkout_verify _ _ _ _) as [message|[items_summary total]] eqn:Hv;
    [apply Hsame|].
  destruct (checkout_decrement _ _) as [ps'|] eqn:Hdec; [|apply Hsame].
  cbn [fst products]. intros Hi'.
  eapply (checkout_decrement_no_rise _ _ _ Hdec Hq); [|exact Hi|exact Hi'].
  intros k q pk Hin Hk.
  apply checkout_verify_inr in Hv. rewrite Forall_forall in Hv, Hq.
  destruct (Hv _ Hin) as (pk' & Hk' & Hle). specialize (Hq _ Hin).
  simpl in *. assert (pk' = pk) as -> by congruence. lia.
Qed.

Lemma checkout_never_raises_stock_witness :
  exists p',
    products (checkout "page" None None 0 (seeded [(1, 2); (5, 0)] false)).1 !! 1
    = Some p' /\
    Product.stock p' = 3 /\ Product.stock p' <= 5.
Proof.
  exists (Product.with_stock lenovo_ideapad 3).
  assert (products (checkout "page" None None 0 (seeded [(1, 2); (5, 0)] false)).1 !! 1
          = Some (Product.with_stock lenovo_ideapad 3)) as Hrow
    by (vm_compute; reflexivity).
  split; [exact Hrow|]. split; [reflexivity|].
  apply (checkout_never_raises_stock "page" None None 0
           (seeded [(1, 2); (5, 0)] false)
           ltac:(simpl; repeat constructor; simpl; lia) 1 lenovo_ideapad
           (Product.with_stock lenovo_ideapad 3)
           ltac:(vm_compute; reflexivity) Hrow).
Defined.

Lemma next_id_above (l : list Z) k : k ∈ l -> k < next_id l.
Proof.
  unfold next_id. induction l as [|x l IH]; intros Hk.
  - by apply elem_of_nil in Hk.
  - apply elem_of_cons in Hk as [->|Hk]; simpl; [lia|].
    specialize (IH Hk). lia.
Qed.

(** X9.  A successful checkout appends one order that records the
    customer name and address of the form, the time of the request, and
    as its items the summary lines of the cart entries, in cart order,
    joined by [; ].  Its identifier is above that of every earlier order,
    so order identifiers stay distinct. *)
Theorem checkout_records_order page name address now st st' url :
  checkout page name address now st = (st', Redirect None url) ->
  exists order,
    orders st' = orders st ++ [order] /\
    Order.customer_name order = name /\
    Order.customer_address order = address /\
    Order.created_at order = now /\
    Order.items order
    = Py.join "; " ((fun '(p, q) => summary_line p q)
                      <$> priced_entries (products st) (cart st)) /\
    (forall o, o ∈ orders st -> Order.id o < Order.id order) /\
    (NoDup (Order.id <$> orders st) -> NoDup (Order.id <$> orders st')).
Proof.
  intros Hco.
  destruct (checkout_redirect_none _ _ _ _ _ _ _ Hco) as [Hne Hall].
  destruct (checkout_success page name address now st Hne Hall)
    as (ps' & Hdec & Heq).
  rewrite Heq in Hco. injection Hco as <- _.
  eexists. split; [reflexivity|]. cbn [Order.customer_name Order.customer_address
    Order.created_at Order.items Order.id orders].
  repeat split.
  - intros o Ho. apply next_id_above. apply list_elem_of_fmap. by exists o.
  - intros Hnd. rewrite fmap_app. apply NoDup_app. split; [done|].
    split; [|apply NoDup_singleton].
    intros k Hk Hk'. cbn in Hk'. apply list_elem_of_singleton in Hk' as ->.
    apply next_id_above in Hk. lia.
Qed.

Lemma checkout_records_order_witness :
  exists st' url order,
    checkout "page" (Some "Ann") (Some "1 Main St") 7 (seeded [(1, 2); (5, 1)] false)
    = (st', Redirect None url) /\
    orders st' = [order] /\
    Order.customer_name order = Some "Ann" /\
    Order.created_at order = 7 /\
    Order.items order
    = "Lenovo IdeaPad x2 @ " +:+ peso +:+ "25000.00; Gaming Mouse x1 @ "
      +:+ peso +:+ "1200.00".
Proof.
  destruct (checkout "page" (Some "Ann") (Some "1 Main St") 7
              (seeded [(1, 2); (5, 1)] false))
    as [st' [flashed url| |]] eqn:Hco; try (vm_compute in Hco; discriminate Hco).
  destruct flashed as [message|]; [vm_compute in Hco; discriminate Hco|].
  destruct (checkout_records_order _ _ _ _ _ _ _ Hco)
    as (order & Horders & Hname & _ & Hnow & Hitems & _).
  exists st', url, order. split; [reflexivity|]. split; [exact Horders|].
  split; [exact Hname|]. split; [exact Hnow|].
  rewrite Hitems. vm_compute. reflexivity.
Defined.

(** X10.  Repeating the checkout request after a successful checkout
    places no second order: the cart is empty, the request is refused with
    [Cart is empty], and the state stays as the first checkout left it. *)
Theorem checkout_twice page name address now st st' url name' address' now' :
  checkout page name address now st = (st', Redirect None url) ->
  checkout page name' address' now' st'
  = (st', Redirect (Some "Cart is empty") "/cart").
Proof.
  intros Hco.
  destruct (checkout_redirect_none _ _ _ _ _ _ _ Hco) as [Hne Hall].
  destruct (checkout_success page name address now st Hne Hall)
    as (ps' & Hdec & Heq).
  rewrite Heq in Hco. injection Hco as <- _. reflexivity.
Qed.

Lemma checkout_twice_witness :
  exists st' url,
    checkout "page" (Some "Ann") (Some "1 Main St") 0 (seeded [(1, 2)] false)
    = (st', Redirect None url) /\
    checkout "page" (Some "Ann") (Some "1 Main St") 1 st'
    = (st', Redirect (Some "Cart is empty") "/cart").
Proof.
  destruct (checkout "page" (Some "Ann") (Some "1 Main St") 0 (seeded [(1, 2)] false))
    as [st' [flashed url| |]] eqn:Hco; try (vm_compute in Hco; discriminate Hco).
  destruct flashed as [message|]; [vm_compute in Hco; discriminate Hco|].
  exists st', url. split; [reflexivity|].
  exact (checkout_twice _ _ _ _ _ _ _ (Some "Ann") (Some "1 Main St") 1 Hco).
Defined.

(** X11.  No route edits or deletes an order.  Checkout leaves the order
    table as it was or appends one order to it; every other route leaves
    it as it was. *)
Theorem orders_are_append_only page admin_pass float_of_str int_of_str st :
  (forall product_id form_qty,
     orders (add_to_cart int_of_str product_id form_qty st).1 = orders st) /\
  (forall product_id, orders (remove_from_cart product_id st).1 = orders st) /\
  orders (view_cart st).1 = orders st /\
  (forall password, orders (admin_login admin_pass password st).1 = orders st) /\
  orders (admin_logout st).1 = orders st /\
  (forall f uuid_hex,
     orders (admin_add float_of_str int_of_str f uuid_hex st).1 = orders st) /\
  (forall product_id f uuid_hex,
     orders (admin_edit float_of_str int_of_str product_id f uuid_hex st).1
     = orders st) /\
  (forall name address now,
     let st' := (checkout page name address now st).1 in
     orders st' = orders st \/ exists order, orders st' = orders st ++ [order]).
Proof.
  repeat split.
  - intros product_id form_qty. unfold add_to_cart.
    destruct (match form_qty with Some s => int_of_str s | None => Some 1 end)
      as [qty|]; [|done].
    destruct (products st !! product_id) as [p|]; [|done].
    by destruct (Product.stock p <? qty).
  - intros password. unfold admin_login. by case_bool_decide.
  - intros f uuid_hex. unfold admin_add.
    destruct (admin st); [|done]. cbn [negb].
    destruct (price_field float_of_str f); [|done].
    destruct (stock_field int_of_str f); [|done].
    destruct (match has_upload (form_image f) with
              | Some img => save_and_resize_image img (600, 400) uuid_hex (uploads st)
              | None => (uploads st, Return None)
              end) as [folder [filename|]]; [|done].
    destruct (Py.int_of_float _); [done|].
    by destruct (insert_product _ _ _ _ _ _ _).
  - intros product_id f uuid_hex. unfold admin_edit.
    destruct (admin st); [|done]. cbn [negb].
    destruct (products st !! product_id) as [p|]; [|done].
    destruct (edit_fields _ _ _ _ p) as [[|]|p']; [done..|].
    by destruct (match has_upload (form_image f) with
                 | Some img => save_and_resize_image img (600, 400) uuid_hex (uploads st)
                 | None => (uploads st, Return None)
                 end) as [folder [[filename|]|]].
  - intros name address now. unfold checkout.
    destruct (cart st) as [|entry c]; [by left|].
    destruct (checkout_verify _ _ _ _) as [message|[items_summary total]]; [by left|].
    destruct (checkout_decrement _ _); [|by left].
    right. by eexists.
Qed.

(** ** Adding and checking out *)

Lemma add_to_cart_empty int_of_str product_id form_qty qty p st :
  cart st = [] ->
  form_quantity int_of_str form_qty = Some qty ->
  products st !! product_id = Some p ->
  qty <= Product.stock p ->
  (add_to_cart int_of_str product_id form_qty st).1
  = with_cart st [(product_id, qty)].
Proof.
  intros Hc Hqty Hp Hle. unfold form_quantity in Hqty.
  unfold add_to_cart. rewrite Hqty, Hp.
  destruct (Z.ltb_spec (Product.stock p) qty) as [Hlt|_]; [lia|].
  rewrite Hc. by cbn.
Qed.

(** X12.  [add_to_cart] compares the stock with the quantity of the
    request, not with the quantity the cart ends up holding.  Two requests
    that each fit the stock are both accepted although their sum does
    not, and the entry they leave is refused at checkout, which names the
    product and its stock and changes nothing. *)
Theorem add_to_cart_checks_one_request page int_of_str product_id form_qty1 form_qty2
    qty1 qty2 p name address now st :
  cart st = [] ->
  form_quantity int_of_str form_qty1 = Some qty1 ->
  form_quantity int_of_str form_qty2 = Some qty2 ->
  products st !! product_id = Some p ->
  qty1 <= Product.stock p -> qty2 <= Product.stock p ->
  Product.stock p < qty1 + qty2 ->
  let st1 := (add_to_cart int_of_str product_id form_qty1 st).1 in
  let st2 := (add_to_cart int_of_str product_id form_qty2 st1).1 in
  st2 = with_cart st [(product_id, qty1 + qty2)] /\
  checkout page name address now st2
  = (st2, Redirect
            (Some ("Not enough stock for " +:+ Product.name p +:+ ". Available: "
                   +:+ Py.str (Product.stock p)))
            "/cart").
Proof.
  intros Hc Hq1 Hq2 Hp Hle1 Hle2 Hlt st1 st2.
  assert (st1 = with_cart st [(product_id, qty1)]) as Hst1
    by (by apply (add_to_cart_empty _ _ _ qty1 p)).
  assert (st2 = with_cart st [(product_id, qty1 + qty2)]) as Hst2.
  { unfold st2. rewrite Hst1. unfold form_quantity in Hq2.
    unfold add_to_cart. cbn [with_cart products cart]. rewrite Hq2, Hp.
    destruct (Z.ltb_spec (Product.stock p) qty2) as [Hlt'|_]; [lia|].
    cbn [dict_get dict_set]. rewrite Z.eqb_refl. by cbn. }
  split; [exact Hst2|]. rewrite Hst2.
  unfold checkout. cbn [with_cart cart products checkout_verify]. rewrite Hp.
  by destruct (Z.ltb_spec (Product.stock p) (qty1 + qty2)) as [_|Hge]; [|lia].
Qed.

Lemma add_to_cart_checks_one_request_witness :
  let st2 :=
    (add_to_cart Py.int_of_literal 3 (Some "2")
       (add_to_cart Py.int_of_literal 3 (Some "2") (seeded [] false)).1).1 in
  st2 = seeded [(3, 4)] false /\
  checkout "page" (Some "Ann") (Some "1 Main St") 0 st2
  = (st2, Redirect (Some "Not enough stock for Gaming PC. Available: 2") "/cart").
Proof.
  apply (add_to_cart_checks_one_request "page" Py.int_of_literal 3 (Some "2") (Some "2")
           2 2 gaming_pc (Some "Ann") (Some "1 Main St") 0 (seeded [] false));
    [reflexivity | vm_compute; reflexivity | vm_compute; reflexivity
    | vm_compute; reflexivity | simpl; lia | simpl; lia | simpl; lia].
Defined.



(** ** The admin session *)

(** X14.  The admin flag is set by a login with the configured password
    and by nothing else, and cleared by logout; both leave the tables,
    the folder and the cart alone.  Without the flag the create and edit
    routes redirect to the login page and change nothing; so after a
    logout, and a login with a wrong password, a create request is
    refused. *)
Theorem admin_routes_need_a_session admin_pass float_of_str int_of_str st :
  (forall password,
     let st' := (admin_login admin_pass password st).1 in
     (admin st' = true <-> admin st = true \/ password = Some admin_pass) /\
     products st' = products st /\ uploads st' = uploads st /\ cart st' = cart st) /\
  (let st' := (admin_logout st).1 in
   admin st' = false /\
   products st' = products st /\ uploads st' = uploads st /\ cart st' = cart st) /\
  (forall st0, admin st0 = false ->
     (forall f uuid_hex,
        admin_add float_of_str int_of_str f uuid_hex st0 = (st0, Redirect None "/admin")) /\
     (forall product_id f uuid_hex,
        admin_edit float_of_str int_of_str product_id f uuid_hex st0
        = (st0, Redirect None "/admin"))) /\
  (forall password f uuid_hex,
     password <> Some admin_pass ->
     let st' := (admin_login admin_pass password (admin_logout st).1).1 in
     admin_add float_of_str int_of_str f uuid_hex st' = (st', Redirect None "/admin")).
Proof.
  split; [|split; [|split]].
  - intros password. unfold admin_login. case_bool_decide as Hpw; cbn.
    + repeat split; auto.
    + repeat split; [by left|]. by intros [?|?].
  - done.
  - intros st0 Hno. split.
    + intros f uuid_hex. unfold admin_add. by rewrite Hno.
    + intros product_id f uuid_hex. unfold admin_edit. by rewrite Hno.
  - intros password f uuid_hex Hpw. unfold admin_login.
    rewrite bool_decide_eq_false_2 by done. done.
Qed.

Lemma admin_routes_need_a_session_witness :
  let f := {| form_name := Some "Used Case"; form_slug := Some "used-case";
              form_description := None; form_price := Some "150";
              form_stock := Some "7"; form_image := None |} in
  admin_add Py.float_of_literal Py.int_of_literal f "0f3a" (seeded [] false)
  = (seeded [] false, Redirect None "/admin") /\
  admin_add Py.float_of_literal Py.int_of_literal f "0f3a"
    (admin_login "s3cret" (Some "guess") (admin_logout (seeded [] true)).1).1
  = (seeded [] false, Redirect None "/admin").
Proof.
  intros f.
  destruct (admin_routes_need_a_session "s3cret" Py.float_of_literal Py.int_of_literal
              (seeded [] true)) as (_ & _ & Hgate & Hlogin).
  split.
  - apply (Hgate (seeded [] false)). reflexivity.
  - apply (Hlogin (Some "guess") f "0f3a"). discriminate.
Defined.

(** ** Creating a product *)

Lemma insert_product_fresh name slug description price_cents image stock ps ps' :
  insert_product name slug description price_cents image stock ps = Some ps' ->
  exists i name' slug',
    name = Some name' /\ slug = Some slug' /\
    ps !! i = None /\
    ps' = <[i := Product.mk name' slug' description price_cents image stock]> ps /\
    forall j q, ps !! j = Some q -> j < i /\ Product.slug q <> slug'.
Proof.
  unfold insert_product. destruct name as [name'|], slug as [slug'|]; try done.
  destruct (existsb _ _) eqn:Hex; [done|]. intros [= <-].
  exists (next_id (map_to_list ps).*1), name', slug'.
  split; [done|]. split; [done|]. split; [apply next_id_fresh|]. split; [done|].
  intros j q Hj. apply elem_of_map_to_list in Hj. split.
  - apply next_id_above. apply list_elem_of_fmap. by exists (j, q).
  - intros Hslug. apply not_true_iff_false in Hex. apply Hex.
    apply existsb_exists. exists (j, q). split; [by apply list_elem_of_In|].
    by apply String.eqb_eq.
Qed.

Lemma save_and_resize_image_outcomes file size uuid_hex folder :
  let unique_name :=
    uuid_hex +:+ "." +:+ Py.lower (Py.rsplit_dot_last (filename file)) in
  (save_and_resize_image file size uuid_hex folder = (folder, Return None) /\
   allowed_file (filename file) = false) \/
  (save_and_resize_image file size uuid_hex folder = (folder, Raise) /\
   allowed_file (filename file) = true) \/
  (exists im,
     save_and_resize_image file size uuid_hex folder
     = (<[unique_name := im]> folder, Return (Some unique_name)) /\
     allowed_file (filename file) = true).
Proof.
  intros unique_name. unfold save_and_resize_image.
  destruct (allowed_file (filename file)); cbn [negb]; [|by left].
  right. destruct (_ ≫= _) as [im|]; [right; by exists im|by left].
Qed.

Lemma admin_add_created float_of_str int_of_str f uuid_hex st st' :
  admin_add float_of_str int_of_str f uuid_hex st
  = (st', Redirect (Some "Product created") "/admin") ->
  exists i p price_php,
    products st !! i = None /\
    products st' = <[i := p]> (products st) /\
    form_name f = Some (Product.name p) /\
    form_slug f = Some (Product.slug p) /\
    Product.description p = form_description f /\
    stock_field int_of_str f = Some (Product.stock p) /\
    price_field float_of_str f = Some price_php /\
    Py.int_of_float (Py.float_mul price_php (Py.float_of_int 100))
    = inr (Product.price_cents p) /\
    (forall name, Product.image_filename p = Some name ->
       is_Some (uploads st' !! name)) /\
    (forall j q, products st !! j = Some q ->
       j < i /\ Product.slug q <> Product.slug p) /\
    orders st' = orders st /\ cart st' = cart st /\ admin st' = true.
Proof.
  unfold admin_add. destruct (admin st) eqn:Hadmin; [|done]. cbn [negb].
  destruct (price_field float_of_str f) as [price_php|] eqn:Hprice; [|done].
  destruct (stock_field int_of_str f) as [stock|] eqn:Hstock; [|done].
  destruct (match has_upload (form_image f) with
            | Some img => save_and_resize_image img (600, 400) uuid_hex (uploads st)
            | None => (uploads st, Return None)
            end) as [folder [image|]] eqn:Hsave; [|done].
  destruct (Py.int_of_float _) as [err|price_cents] eqn:Hcents; [done|].
  destruct (insert_product _ _ _ _ _ _ _) as [ps|] eqn:Hins; [|done].
  intros [= <-].
  apply insert_product_fresh in Hins
    as (i & name' & slug' & Hname & Hslug & Hfree & -> & Hold).
  exists i, (Product.mk name' slug' (form_description f) price_cents image stock),
    price_php.
  cbn [with_products with_uploads products orders uploads cart admin
       Product.name Product.slug Product.description Product.stock
       Product.price_cents Product.image_filename].
  repeat split; try done.
  - intros name ->. destruct (has_upload (form_image f)) as [img|]; [|by injection Hsave].
    destruct (save_and_resize_image_outcomes img (600, 400) uuid_hex (uploads st))
      as [[Heq _]|[[Heq _]|(im & Heq & _)]]; rewrite Heq in Hsave; try done.
    injection Hsave as <- <-. rewrite lookup_insert_eq. eauto.
  - by apply (Hold j q).
  - by apply (Hold j q).
Qed.

(** X15.  A create request that reports [Product created] has added
    exactly one row, under an identifier above every existing one, and
    left every existing row as it was.  The row carries the name, slug
    and description of the form, the stock and the price the form's fields
    convert to, a slug no other row has, and an image name only if a file
    of that name is now in the upload folder.  Cart and admin flag are
    unchanged. *)
Theorem admin_add_inserts_one_row float_of_str int_of_str f uuid_hex st st' :
  admin_add float_of_str int_of_str f uuid_hex st
  = (st', Redirect (Some "Product created") "/admin") ->
  exists i p price_php,
    products st !! i = None /\
    products st' = <[i := p]> (products st) /\
    form_name f = Some (Product.name p) /\
    form_slug f = Some (Product.slug p) /\
    Product.description p = form_description f /\
    stock_field int_of_str f = Some (Product.stock p) /\
    price_field float_of_str f = Some price_php /\
    Py.int_of_float (Py.float_mul price_php (Py.float_of_int 100))
    = inr (Product.price_cents p) /\
    (forall name, Product.image_filename p = Some name ->
       is_Some (uploads st' !! name)) /\
    (forall j q, products st !! j = Some q ->
       j < i /\ Product.slug q <> Product.slug p) /\
    orders st' = orders st /\ cart st' = cart st /\ admin st' = true.
Proof. apply admin_add_created. Qed.

Lemma admin_add_inserts_one_row_witness :
  let f := {| form_name := Some "Used Case"; form_slug := Some "used-case";
              form_description := Some "A case."; form_price := Some "150";
              form_stock := Some "7";
              form_image := Some {| filename := "case.PNG"; stream := Some (800, 600) |} |} in
  exists st' i p,
    admin_add Py.float_of_literal Py.int_of_literal f "0f3a" (seeded [] true)
    = (st', Redirect (Some "Product created") "/admin") /\
    init_db !! i = None /\
    products st' = <[i := p]> init_db /\
    p = Product.mk "Used Case" "used-case" (Some "A case.") 15000 (Some "0f3a.png") 7.
Proof.
  intros f.
  destruct (admin_add Py.float_of_literal Py.int_of_literal f "0f3a" (seeded [] true))
    as [st' r] eqn:Hadd.
  assert (r = Redirect (Some "Product created") "/admin") as ->.
  { vm_compute in Hadd. by injection Hadd as _ <-. }
  destruct (admin_add_inserts_one_row _ _ _ _ _ _ Hadd)
    as (i & p & price_php & Hfree & Hps & Hname & Hslug & Hdesc & Hstock & _).
  exists st', i, p. split; [reflexivity|]. split; [exact Hfree|]. split; [exact Hps|].
  assert (products st' !! 6
          = Some (Product.mk "Used Case" "used-case" (Some "A case.") 15000
                    (Some "0f3a.png") 7)) as H6.
  { vm_compute in Hadd. injection Hadd as <-. vm_compute. reflexivity. }
  rewrite Hps in H6. destruct (decide (i = 6)) as [->|Hne].
  - rewrite lookup_insert_eq in H6. by injection H6.
  - rewrite lookup_insert_ne in H6 by done. vm_compute in H6. discriminate H6.
Defined.

Lemma insert_product_conflict name slug description price_cents image stock ps i q :
  ps !! i = Some q -> slug = Some (Product.slug q) ->
  insert_product name slug description price_cents image stock ps = None.
Proof.
  intros Hi ->. unfold insert_product. destruct name as [name'|]; [|done].
  assert (existsb (fun kp => String.eqb (Product.slug kp.2) (Product.slug q))
            (map_to_list ps) = true) as ->; [|done].
  apply existsb_exists. exists (i, q). split.
  - apply list_elem_of_In. by apply elem_of_map_to_list.
  - by apply String.eqb_eq.
Qed.

(** X16.  A create request whose form lacks the name or the slug, or
    whose slug is that of an existing product, leaves the product table
    as it was and does not report [Product created]. *)
Theorem admin_add_refuses_a_taken_slug float_of_str int_of_str f uuid_hex st :
  form_name f = None \/ form_slug f = None \/
  (exists i q, products st !! i = Some q /\ form_slug f = Some (Product.slug q)) ->
  let '(st', response) := admin_add float_of_str int_of_str f uuid_hex st in
  products st' = products st /\
  response <> Redirect (Some "Product created") "/admin".
Proof.
  intros Hcase.
  assert (forall price_cents image stock,
            insert_product (form_name f) (form_slug f) (form_description f)
              price_cents image stock (products st) = None) as Hins.
  { intros price_cents image stock.
    destruct Hcase as [Hn|[Hs|(i & q & Hi & Hs)]].
    - unfold insert_product. by rewrite Hn.
    - unfold insert_product. rewrite Hs. by destruct (form_name f).
    - by eapply insert_product_conflict. }
  unfold admin_add. destruct (admin st); [|done]. cbn [negb].
  destruct (price_field float_of_str f) as [price_php|]; [|done].
  destruct (stock_field int_of_str f) as [stock|]; [|done].
  destruct (match has_upload (form_image f) with
            | Some img => save_and_resize_image img (600, 400) uuid_hex (uploads st)
            | None => (uploads st, Return None)
            end) as [folder [image|]]; [|done].
  destruct (Py.int_of_float _) as [err|price_cents]; [done|].
  by rewrite Hins.
Qed.

Lemma admin_add_refuses_a_taken_slug_witness :
  let f := {| form_name := Some "Second PC"; form_slug := Some "gaming-pc";
              form_description := None; form_price := Some "150";
              form_stock := Some "7"; form_image := None |} in
  let '(st', response) :=
    admin_add Py.float_of_literal Py.int_of_literal f "0f3a" (seeded [] true) in
  products st' = init_db /\
  response <> Redirect (Some "Product created") "/admin".
Proof.
  intros f.
  apply (admin_add_refuses_a_taken_slug Py.float_of_literal Py.int_of_literal f "0f3a"
           (seeded [] true)).
  right. right. exists 3, gaming_pc. split; [vm_compute; reflexivity|reflexivity].
Defined.

(** X17.  The picture of a create request is written before the row is
    committed and is not taken back when the commit fails: an admin's
    request with an accepted picture and a slug that is taken leaves the
    product table as it was, and the normalised 600 by 400 picture in the
    upload folder under its generated name. *)
Theorem failed_create_keeps_the_picture float_of_str int_of_str f uuid_hex st
    i q file w h price_php price_cents stock :
  admin st = true ->
  products st !! i = Some q ->
  form_slug f = Some (Product.slug q) ->
  price_field float_of_str f = Some price_php ->
  Py.int_of_float (Py.float_mul price_php (Py.float_of_int 100)) = inr price_cents ->
  stock_field int_of_str f = Some stock ->
  has_upload (form_image f) = Some file ->
  allowed_file (filename file) = true ->
  stream file = Some (w, h) ->
  0 < w < 2 ^ 28 -> 0 < h < 2 ^ 28 ->
  let unique_name :=
    uuid_hex +:+ "." +:+ Py.lower (Py.rsplit_dot_last (filename file)) in
  exists message,
    admin_add float_of_str int_of_str f uuid_hex st
    = (with_uploads st (<[unique_name := (600, 400)]> (uploads st)),
       Redirect (Some message) "/admin") /\
    message <> "Product created".
Proof.
  intros Hadmin Hi Hslug Hprice Hcents Hstock Hup Hallowed Hstream Hw Hh unique_name.
  assert (save_and_resize_image file (600, 400) uuid_hex (uploads st)
          = (<[unique_name := (600, 400)]> (uploads st), Return (Some unique_name)))
    as Hsave.
  { unfold save_and_resize_image. rewrite Hallowed, Hstream.
    cbn [negb of_option mbind raising_bind].
    by rewrite cover_crop_even by (done || (simpl; lia)). }
  unfold admin_add. rewrite Hadmin, Hprice, Hstock, Hup, Hsave, Hcents. cbn [negb].
  rewrite (insert_product_conflict _ _ _ _ _ _ _ i q) by done.
  by eexists.
Qed.

Lemma failed_create_keeps_the_picture_witness :
  let f := {| form_name := Some "Second PC"; form_slug := Some "gaming-pc";
              form_description := None; form_price := Some "150";
              form_stock := Some "7";
              form_image := Some {| filename := "pc.webp"; stream := Some (640, 480) |} |} in
  exists message,
    admin_add Py.float_of_literal Py.int_of_literal f "0f3a" (seeded [] true)
    = (with_uploads (seeded [] true) (<["0f3a.webp" := (600, 400)]> ∅),
       Redirect (Some message) "/admin") /\
    message <> "Product created".
Proof.
  intros f.
  apply (failed_create_keeps_the_picture Py.float_of_literal Py.int_of_literal f "0f3a"
           (seeded [] true) 3 gaming_pc
           {| filename := "pc.webp"; stream := Some (640, 480) |} 640 480
           (S754_finite false 5277655813324800 (-45)) 15000 7);
    [reflexivity | vm_compute; reflexivity | reflexivity | vm_compute; reflexivity
    | vm_compute; reflexivity | vm_compute; reflexivity | reflexivity | reflexivity
    | reflexivity | simpl; lia | simpl; lia].
Defined.

Lemma edit_fields_keeps_identity float_of_str int_of_str price_in stock_in p p' :
  edit_fields float_of_str int_of_str price_in stock_in p = inr p' ->
  Product.name p' = Product.name p /\
  Product.slug p' = Product.slug p /\
  Product.description p' = Product.description p /\
  Product.image_filename p' = Product.image_filename p.
Proof.
  unfold edit_fields.
  assert (forall q, match price_in with
                    | None | Some "" => inr p
                    | Some s =>
                        match float_of_str s with
                        | None => inl Py.ValueError
                        | Some x =>
                            match Py.int_of_float (Py.float_mul x (Py.float_of_int 100)) with
                            | inl e => inl e
                            | inr c => inr (Product.with_price_cents p c)
                            end
                        end
                    end = inr q ->
                    Product.name q = Product.name p /\
                    Product.slug q = Product.slug p /\
                    Product.description q = Product.description p /\
                    Product.image_filename q = Product.image_filename p) as Hq.
  { intros q. destruct price_in as [[|a s]|]; try (by intros [= <-]).
    destruct (float_of_str (String a s)) as [x|]; [|done].
    destruct (Py.int_of_float _) as [err|c]; [done|]. by intros [= <-]. }
  destruct (match price_in with None | Some "" => _ | Some _ => _ end)
    as [err|q]; [done|].
  destruct (Hq q eq_refl) as (Hn & Hs & Hd & Hi).
  destruct stock_in as [s|]; [|by intros [= <-]].
  destruct (int_of_str s) as [n|]; [|done].
  by intros [= <-].
Qed.

(** ** Slugs and the product page *)

Lemma slugs_unique_same_slugs (ps ps' : gmap Z Product.t) :
  (forall i p', ps' !! i = Some p' ->
     exists p, ps !! i = Some p /\ Product.slug p' = Product.slug p) ->
  slugs_unique ps -> slugs_unique ps'.
Proof.
  intros Hrows Huniq i j p' q' Hi Hj Hslug.
  destruct (Hrows _ _ Hi) as (p & Hp & Hsp). destruct (Hrows _ _ Hj) as (q & Hq & Hsq).
  apply (Huniq i j p q); congruence.
Qed.

Lemma slugs_unique_update ps i p p' :
  ps !! i = Some p -> Product.slug p' = Product.slug p ->
  slugs_unique ps -> slugs_unique (<[i := p']> ps).
Proof.
  intros Hi Hslug. apply slugs_unique_same_slugs. intros j q Hj.
  destruct (decide (i = j)) as [->|Hne].
  - rewrite lookup_insert_eq in Hj. injection Hj as <-. eauto.
  - rewrite lookup_insert_ne in Hj by done. eauto.
Qed.

Lemma checkout_slugs_unique page name address now st :
  slugs_unique (products st) ->
  slugs_unique (products (checkout page name address now st).1).
Proof.
  intros Huniq. unfold checkout.
  destruct (cart st) as [|entry c]; [done|].
  destruct (checkout_verify _ _ _ _) as [message|[items_summary total]]; [done|].
  destruct (checkout_decrement _ _) as [ps'|] eqn:Hdec; [|done].
  cbn [fst products]. revert Huniq. apply slugs_unique_same_slugs. intros i p' Hi.
  pose proof (checkout_decrement_rows _ _ _ Hdec i) as Hrows. rewrite Hi in Hrows.
  destruct (products st !! i) as [p|]; [|done].
  destruct Hrows as [Hsame _]. exists p. split; [done|].
  unfold same_but_stock in Hsame. by rewrite Hsame.
Qed.

Lemma admin_add_slugs_unique float_of_str int_of_str f uuid_hex st :
  slugs_unique (products st) ->
  slugs_unique (products (admin_add float_of_str int_of_str f uuid_hex st).1).
Proof.
  intros Huniq. unfold admin_add.
  destruct (admin st); [|done]. cbn [negb].
  destruct (price_field float_of_str f) as [price_php|]; [|done].
  destruct (stock_field int_of_str f) as [stock|]; [|done].
  destruct (match has_upload (form_image f) with
            | Some img => save_and_resize_image img (600, 400) uuid_hex (uploads st)
            | None => (uploads st, Return None)
            end) as [folder [image|]]; [|done].
  destruct (Py.int_of_float _) as [err|price_cents]; [done|].
  destruct (insert_product _ _ _ _ _ _ _) as [ps|] eqn:Hins; [|done].
  apply insert_product_fresh in Hins
    as (i & name' & slug' & _ & _ & Hfree & -> & Hold).
  cbn [fst with_products products].
  intros j k p q Hj Hk Hslug.
  destruct (decide (i = j)) as [Hij|Hij], (decide (i = k)) as [Hik|Hik].
  - congruence.
  - subst j. rewrite lookup_insert_eq in Hj. rewrite lookup_insert_ne in Hk by done.
    injection Hj as <-. destruct (Hold _ _ Hk) as [_ Hne]. by destruct Hne.
  - subst k. rewrite lookup_insert_eq in Hk. rewrite lookup_insert_ne in Hj by done.
    injection Hk as <-. destruct (Hold _ _ Hj) as [_ Hne]. by destruct Hne.
  - rewrite lookup_insert_ne in Hj, Hk by done. by apply (Huniq j k p q).
Qed.

Lemma admin_edit_slugs_unique float_of_str int_of_str product_id f uuid_hex st :
  slugs_unique (products st) ->
  slugs_unique
    (products (admin_edit float_of_str int_of_str product_id f uuid_hex st).1).
Proof.
  intros Huniq. unfold admin_edit.
  destruct (admin st); [|done]. cbn [negb].
  destruct (products st !! product_id) as [p|] eqn:Hp; [|done].
  destruct (edit_fields _ _ _ _ p) as [[|]|p'] eqn:Hedit; [done..|].
  apply edit_fields_keeps_identity in Hedit as (_ & Hslug & _).
  destruct (match has_upload (form_image f) with
            | Some img => save_and_resize_image img (600, 400) uuid_hex (uploads st)
            | None => (uploads st, Return None)
            end) as [folder [[filename|]|]]; [| |done];
    cbn [fst with_products products]; by eapply slugs_unique_update.
Qed.

(** X18.  The slugs of the product table stay distinct: checkout, create
    and edit each turn a table in which no two rows share a slug into
    such a table. *)
Theorem slugs_stay_unique page float_of_str int_of_str st :
  slugs_unique (products st) ->
  (forall name address now,
     slugs_unique (products (checkout page name address now st).1)) /\
  (forall f uuid_hex,
     slugs_unique (products (admin_add float_of_str int_of_str f uuid_hex st).1)) /\
  (forall product_id f uuid_hex,
     slugs_unique
       (products (admin_edit float_of_str int_of_str product_id f uuid_hex st).1)).
Proof.
  intros Huniq. split; [|split].
  - intros. by apply checkout_slugs_unique.
  - intros. by apply admin_add_slugs_unique.
  - intros. by apply admin_edit_slugs_unique.
Qed.

Lemma init_db_slugs_unique : slugs_unique init_db.
Proof.
  intros i j p q Hi Hj Hslug. unfold init_db, samples in Hi, Hj. simpl in Hi, Hj.
  repeat (rewrite lookup_insert in Hi; case_decide;
          [injection Hi as <-|]); [..|by rewrite lookup_empty in Hi];
  repeat (rewrite lookup_insert in Hj; case_decide;
          [injection Hj as <-|]); try (by rewrite lookup_empty in Hj);
  first [congruence | discriminate Hslug].
Qed.

Lemma slugs_stay_unique_witness :
  let f := {| form_name := Some "Used Case"; form_slug := Some "used-case";
              form_description := None; form_price := Some "150";
              form_stock := Some "7"; form_image := None |} in
  slugs_unique
    (products (admin_add Py.float_of_literal Py.int_of_literal f "0f3a"
                 (seeded [] true)).1) /\
  slugs_unique (products (checkout "page" None None 0 (seeded [(1, 2)] false)).1).
Proof.
  intros f. split.
  - apply (slugs_stay_unique "page" Py.float_of_literal Py.int_of_literal
             (seeded [] true) init_db_slugs_unique).
  - apply (slugs_stay_unique "page" Py.float_of_literal Py.int_of_literal
             (seeded [(1, 2)] false) init_db_slugs_unique).
Defined.

Lemma find_slug_Some (slug : string) (l : list (Z * Product.t)) kp :
  List.find (fun kp => String.eqb (Product.slug kp.2) slug) l = Some kp ->
  kp ∈ l /\ Product.slug kp.2 = slug.
Proof.
  intros H. apply find_some in H as [Hin Heq].
  split; [by apply list_elem_of_In|by apply String.eqb_eq].
Qed.

Lemma find_slug_None (slug : string) (l : list (Z * Product.t)) :
  List.find (fun kp => String.eqb (Product.slug kp.2) slug) l = None <->
  forall kp, kp ∈ l -> Product.slug kp.2 <> slug.
Proof.
  split.
  - intros H kp Hin Heq. apply list_elem_of_In in Hin.
    pose proof (find_none _ _ H kp Hin) as Hf. simpl in Hf.
    apply String.eqb_neq in Hf. done.
  - intros H. destruct (List.find _ l) as [kp|] eqn:Hf; [|done].
    apply find_slug_Some in Hf as [Hin Heq]. by destruct (H kp Hin).
Qed.

Lemma product_missing slug st :
  Route.product slug st = None <->
  forall i p, products st !! i = Some p -> Product.slug p <> slug.
Proof.
  unfold Route.product. rewrite fmap_None, find_slug_None. split.
  - intros H i p Hi. apply (H (i, p)). by apply elem_of_map_to_list.
  - intros H [i p] Hin. apply (H i p). by apply elem_of_map_to_list.
Qed.

Lemma product_found slug st i p :
  slugs_unique (products st) ->
  products st !! i = Some p -> Product.slug p = slug ->
  Route.product slug st = Some p.
Proof.
  intros Huniq Hi Hslug. unfold Route.product.
  destruct (List.find _ _) as [[j q]|] eqn:Hf.
  - apply find_slug_Some in Hf as [Hin Heq]. apply elem_of_map_to_list in Hin.
    simpl in Heq. assert (j = i) as -> by (apply (Huniq j i q p); congruence).
    simpl. congruence.
  - exfalso. rewrite find_slug_None in Hf.
    apply (Hf (i, p)); [by apply elem_of_map_to_list|done].
Qed.

(** X19.  The product page answers 404 exactly when no row has the slug
    asked for; a row it serves has that slug and is in the table; and in
    a table whose slugs are distinct it serves the one row with the
    slug. *)
Theorem product_page_serves_the_slug slug st :
  (Route.product slug st = None <->
   forall i p, products st !! i = Some p -> Product.slug p <> slug) /\
  (forall p, Route.product slug st = Some p ->
     Product.slug p = slug /\ exists i, products st !! i = Some p) /\
  (slugs_unique (products st) ->
   forall i p, products st !! i = Some p -> Product.slug p = slug ->
     Route.product slug st = Some p).
Proof.
  split; [apply product_missing|]. split.
  - unfold Route.product. intros p Hp. apply fmap_Some in Hp as ([i p'] & Hf & ->).
    apply find_slug_Some in Hf as [Hin Heq]. split; [done|].
    exists i. by apply elem_of_map_to_list.
  - intros Huniq i p. by apply product_found.
Qed.

Lemma product_page_serves_the_slug_witness :
  Route.product "gaming-pc" (seeded [] false) = Some gaming_pc.
Proof.
  destruct (product_page_serves_the_slug "gaming-pc" (seeded [] false))
    as (_ & _ & Hserved).
  apply (Hserved init_db_slugs_unique 3 gaming_pc); [vm_compute|]; reflexivity.
Defined.

(** X20.  A product that a create request reports as created has a
    page: its slug, which led to a 404 before, now leads to the new row,
    with the name and description of the form. *)
Theorem created_product_has_a_page float_of_str int_of_str f uuid_hex st st' slug :
  slugs_unique (products st) ->
  form_slug f = Some slug ->
  admin_add float_of_str int_of_str f uuid_hex st
  = (st', Redirect (Some "Product created") "/admin") ->
  Route.product slug st = None /\
  exists p, Route.product slug st' = Some p /\
    form_name f = Some (Product.name p) /\
    Product.description p = form_description f.
Proof.
  intros Huniq Hslug Hadd.
  pose proof (admin_add_slugs_unique float_of_str int_of_str f uuid_hex st Huniq)
    as Huniq'.
  rewrite Hadd in Huniq'. cbn [fst] in Huniq'.
  destruct (admin_add_created _ _ _ _ _ _ Hadd)
    as (i & p & _ & Hfree & Hps & Hname & Hslug' & Hdesc & _ & _ & _ & _ & Hold & _).
  assert (Product.slug p = slug) as Hp by congruence.
  split.
  - apply product_missing. intros j q Hj.
    destruct (Hold j q Hj) as [_ Hne]. congruence.
  - exists p. split; [|done].
    apply (product_found slug st' i); [done| |done].
    rewrite Hps. by rewrite lookup_insert_eq.
Qed.

Lemma created_product_has_a_page_witness :
  let f := {| form_name := Some "Used Case"; form_slug := Some "used-case";
              form_description := Some "A case."; form_price := Some "150";
              form_stock := Some "7"; form_image := None |} in
  Route.product "used-case" (seeded [] true) = None /\
  exists p,
    Route.product "used-case"
      (admin_add Py.float_of_literal Py.int_of_literal f "0f3a" (seeded [] true)).1
    = Some p /\
    form_name f = Some (Product.name p) /\
    Product.description p = form_description f.
Proof.
  intros f.
  destruct (admin_add Py.float_of_literal Py.int_of_literal f "0f3a" (seeded [] true))
    as [st' r] eqn:Hadd.
  assert (r = Redirect (Some "Product created") "/admin") as ->.
  { vm_compute in Hadd. by injection Hadd as _ <-. }
  exact (created_product_has_a_page _ _ f "0f3a" (seeded [] true) st' "used-case"
           init_db_slugs_unique eq_refl Hadd).
Defined.

(** ** Editing a product *)

Lemma with_uploads_id st : with_uploads st (uploads st) = st.
Proof. by destruct st. Qed.

Lemma with_products_id st : with_products st (products st) = st.
Proof. by destruct st. Qed.

(** X21.  An edit request touches at most the row it names: every other
    row, the cart and the admin flag are as before, no row appears or
    disappears, and the row itself keeps its name, slug and description
    whatever the form holds. *)
Theorem admin_edit_changes_one_row float_of_str int_of_str product_id f uuid_hex st :
  let st' := (admin_edit float_of_str int_of_str product_id f uuid_hex st).1 in
  cart st' = cart st /\ admin st' = admin st /\
  (forall j, j <> product_id -> products st' !! j = products st !! j) /\
  match products st !! product_id, products st' !! product_id with
  | Some p, Some p' =>
      Product.name p' = Product.name p /\
      Product.slug p' = Product.slug p /\
      Product.description p' = Product.description p
  | None, None => True
  | _, _ => False
  end.
Proof.
  unfold admin_edit. cbv zeta. destruct (admin st) eqn:Hadmin; cbn [negb fst].
  2: { repeat split; try done. by destruct (products st !! product_id). }
  destruct (products st !! product_id) as [p|] eqn:Hp; cbn [fst].
  2: { rewrite Hp. by repeat split. }
  destruct (edit_fields _ _ _ _ p) as [[|]|p'] eqn:Hedit; cbn [fst];
    [rewrite Hp; by repeat split..|].
  apply edit_fields_keeps_identity in Hedit as (Hn & Hs & Hd & _).
  destruct (match has_upload (form_image f) with
            | Some img => save_and_resize_image img (600, 400) uuid_hex (uploads st)
            | None => (uploads st, Return None)
            end) as [folder [[filename|]|]];
    cbn [fst with_products with_uploads products cart admin];
    [| |rewrite Hp; by repeat split].
  - split; [done|]. split; [done|]. split.
    + intros j Hj. by rewrite lookup_insert_ne.
    + by rewrite lookup_insert_eq.
  - split; [done|]. split; [done|]. split.
    + intros j Hj. by rewrite lookup_insert_ne.
    + by rewrite lookup_insert_eq.
Qed.

(** X22.  The two fields of the edit form are not treated alike.  A
    price field that is missing or blank keeps the price.  A stock field
    that is missing keeps the stock, and with no file sent the request
    reports [Product updated] with the state unchanged; a stock field
    that is present and does not parse, a blank one included, makes the
    request fail with [Invalid price or stock] and the state unchanged. *)
Theorem admin_edit_blank_fields float_of_str int_of_str product_id f uuid_hex st p :
  admin st = true ->
  products st !! product_id = Some p ->
  form_price f = None \/ form_price f = Some "" ->
  (form_stock f = None -> has_upload (form_image f) = None ->
   admin_edit float_of_str int_of_str product_id f uuid_hex st
   = (st, Redirect (Some "Product updated") "/admin")) /\
  (forall s, form_stock f = Some s -> int_of_str s = None ->
   admin_edit float_of_str int_of_str product_id f uuid_hex st
   = (st, Redirect (Some "Invalid price or stock") "/admin")).
Proof.
  intros Hadmin Hp Hprice. split.
  - intros Hstock Hup. unfold admin_edit, edit_fields.
    rewrite Hadmin, Hp, Hstock, Hup. cbn [negb].
    assert (<[product_id := p]> (products st) = products st) as Hid
      by (by apply insert_id).
    destruct Hprice as [-> | ->]; rewrite Hid;
      by rewrite with_uploads_id, with_products_id.
  - intros s Hstock Hs. unfold admin_edit, edit_fields.
    rewrite Hadmin, Hp, Hstock, Hs. cbn [negb].
    by destruct Hprice as [-> | ->].
Qed.

Lemma admin_edit_blank_fields_witness :
  let blank := {| form_name := None; form_slug := None; form_description := None;
                  form_price := Some ""; form_stock := Some "";
                  form_image := None |} in
  let absent := {| form_name := None; form_slug := None; form_description := None;
                   form_price := Some ""; form_stock := None;
                   form_image := None |} in
  admin_edit Py.float_of_literal Py.int_of_literal 1 blank "0f3a" (seeded [] true)
  = (seeded [] true, Redirect (Some "Invalid price or stock") "/admin") /\
  admin_edit Py.float_of_literal Py.int_of_literal 1 absent "0f3a" (seeded [] true)
  = (seeded [] true, Redirect (Some "Product updated") "/admin").
Proof.
  intros blank absent. split.
  - destruct (admin_edit_blank_fields Py.float_of_literal Py.int_of_literal 1 blank
                "0f3a" (seeded [] true) lenovo_ideapad) as [_ Hinvalid];
      [reflexivity | vm_compute; reflexivity | by right |].
    apply (Hinvalid ""); reflexivity.
  - destruct (admin_edit_blank_fields Py.float_of_literal Py.int_of_literal 1 absent
                "0f3a" (seeded [] true) lenovo_ideapad) as [Hkept _];
      [reflexivity | vm_compute; reflexivity | by right |].
    apply Hkept; reflexivity.
Defined.

(** X23.  An edit request with an accepted picture, and with a price and
    a stock that fit SQLite's 64-bit integers, replaces the image of the
    product: the normalised 600 by 400 picture is in the upload folder
    under the generated name, the row refers to it, the file the row
    referred to before is gone from the folder, and every other file is
    as it was. *)
Theorem admin_edit_replaces_image float_of_str int_of_str product_id f uuid_hex st
    p p' file w h :
  admin st = true ->
  products st !! product_id = Some p ->
  edit_fields float_of_str int_of_str (form_price f) (form_stock f) p = inr p' ->
  int64 (Product.price_cents p') ->
  int64 (Product.stock p') ->
  has_upload (form_image f) = Some file ->
  allowed_file (filename file) = true ->
  stream file = Some (w, h) ->
  0 < w < 2 ^ 28 -> 0 < h < 2 ^ 28 ->
  let unique_name :=
    uuid_hex +:+ "." +:+ Py.lower (Py.rsplit_dot_last (filename file)) in
  Product.image_filename p <> Some unique_name ->
  exists st',
    admin_edit float_of_str int_of_str product_id f uuid_hex st
    = (st', Redirect (Some "Product updated") "/admin") /\
    products st' !! product_id
    = Some (Product.with_image_filename p' (Some unique_name)) /\
    uploads st' !! unique_name = Some (600, 400) /\
    (forall old, Product.image_filename p = Some old -> uploads st' !! old = None) /\
    (forall name, name <> unique_name -> Product.image_filename p <> Some name ->
       uploads st' !! name = uploads st !! name).
Proof.
  intros Hadmin Hp Hedit _ _ Hup Hallowed Hstream Hw Hh unique_name Hold.
  assert (save_and_resize_image file (600, 400) uuid_hex (uploads st)
          = (<[unique_name := (600, 400)]> (uploads st), Return (Some unique_name)))
    as Hsave.
  { unfold save_and_resize_image. rewrite Hallowed, Hstream.
    cbn [negb of_option mbind raising_bind].
    by rewrite cover_crop_even by (done || (simpl; lia)). }
  pose proof (edit_fields_keeps_identity _ _ _ _ _ _ Hedit) as (_ & _ & _ & Himage).
  unfold admin_edit. rewrite Hadmin, Hp, Hedit, Hup, Hsave. cbn [negb].
  eexists. split; [reflexivity|].
  cbn [with_products with_uploads products uploads]. rewrite Himage.
  split; [by rewrite lookup_insert_eq|].
  destruct (Product.image_filename p) as [old|] eqn:Hname.
  - assert (old <> unique_name) as Hne by congruence.
    split; [by rewrite lookup_delete_ne, lookup_insert_eq|]. split.
    + intros old' [= <-]. by rewrite lookup_delete_eq.
    + intros name Hn Hn'. rewrite lookup_delete_ne by congruence.
      by rewrite lookup_insert_ne.
  - split; [by rewrite lookup_insert_eq|]. split; [done|].
    intros name Hn _. by rewrite lookup_insert_ne.
Qed.

Lemma admin_edit_replaces_image_witness :
  let st := {| products := <[1 := Product.with_image_filename lenovo_ideapad
                                    (Some "77aa.jpg")]> init_db;
               orders := []; uploads := {["77aa.jpg" := (600, 400)]};
               cart := []; admin := true |} in
  let f := {| form_name := None; form_slug := None; form_description := None;
              form_price := Some ""; form_stock := Some "4";
              form_image := Some {| filename := "new.PNG"; stream := Some (1024, 768) |} |} in
  exists st',
    admin_edit Py.float_of_literal Py.int_of_literal 1 f "0f3a" st
    = (st', Redirect (Some "Product updated") "/admin") /\
    Product.image_filename <$> products st' !! 1 = Some (Some "0f3a.png") /\
    Product.stock <$> products st' !! 1 = Some 4 /\
    uploads st' !! "0f3a.png" = Some (600, 400) /\
    uploads st' !! "77aa.jpg" = None.
Proof.
  intros st f.
  destruct (admin_edit_replaces_image Py.float_of_literal Py.int_of_literal 1 f "0f3a"
              st (Product.with_image_filename lenovo_ideapad (Some "77aa.jpg"))
              (Product.with_stock
                 (Product.with_image_filename lenovo_ideapad (Some "77aa.jpg")) 4)
              {| filename := "new.PNG"; stream := Some (1024, 768) |} 1024 768)
    as (st' & Heq & Hrow & Hnew & Hold & _);
    [reflexivity | vm_compute; reflexivity | vm_compute; reflexivity
    | int64_bound | int64_bound | reflexivity
    | reflexivity | reflexivity | simpl; lia | simpl; lia
    | vm_compute; discriminate |].
  exists st'. split; [exact Heq|].
  split; [by rewrite Hrow|]. split; [by rewrite Hrow|].
  split; [exact Hnew|]. by apply Hold.
Defined.

(** X24.  An edit request whose file has a rejected name goes on as if
    no file had been sent: price and stock are updated as the form says,
    the upload folder and the image of the product stay as they were. *)
Theorem admin_edit_skips_a_rejected_upload float_of_str int_of_str product_id f file
    uuid_hex st :
  has_upload (form_image f) = Some file ->
  allowed_file (filename file) = false ->
  admin_edit float_of_str int_of_str product_id f uuid_hex st
  = admin_edit float_of_str int_of_str product_id (without_image f) uuid_hex st /\
  let st' := (admin_edit float_of_str int_of_str product_id f uuid_hex st).1 in
  uploads st' = uploads st /\
  Product.image_filename <$> products st' !! product_id
  = Product.image_filename <$> products st !! product_id.
Proof.
  intros Hup Hno.
  assert (save_and_resize_image file (600, 400) uuid_hex (uploads st)
          = (uploads st, Return None)) as Hsave
    by (by apply save_and_resize_image_rejects).
  unfold admin_edit. cbn [without_image form_price form_stock form_image has_upload].
  rewrite Hup, Hsave. split; [done|]. cbv zeta.
  destruct (admin st); cbn [negb fst]; [|done].
  destruct (products st !! product_id) as [p|] eqn:Hp; cbn [fst]; [|by rewrite Hp].
  destruct (edit_fields _ _ _ _ p) as [[|]|p'] eqn:Hedit; cbn [fst];
    [by rewrite Hp..|].
  apply edit_fields_keeps_identity in Hedit as (_ & _ & _ & Himage).
  cbn [fst with_products with_uploads products uploads].
  split; [done|]. rewrite lookup_insert_eq. cbn. by rewrite Himage.
Qed.

Lemma admin_edit_skips_a_rejected_upload_witness :
  let file := {| filename := "notes.txt"; stream := None |} in
  let f := {| form_name := None; form_slug := None; form_description := None;
              form_price := Some "300"; form_stock := Some "4";
              form_image := Some file |} in
  admin_edit Py.float_of_literal Py.int_of_literal 1 f "0f3a" (seeded [] true)
  = admin_edit Py.float_of_literal Py.int_of_literal 1 (without_image f) "0f3a"
      (seeded [] true) /\
  Product.price_cents <$>
    products (admin_edit Py.float_of_literal Py.int_of_literal 1 f "0f3a"
                (seeded [] true)).1 !! 1 = Some 30000.
Proof.
  intros file f.
  destruct (admin_edit_skips_a_rejected_upload Py.float_of_literal Py.int_of_literal 1
              f file "0f3a" (seeded [] true)) as [Heq _];
    [reflexivity | reflexivity |].
  split; [exact Heq|]. vm_compute. reflexivity.
Defined.

(** X25.  A file with an accepted name that Pillow cannot open is not
    skipped: it aborts an admin's create request with status 500, and an
    edit request whose price and stock parse likewise; no edit request
    carrying it changes the state. *)
Theorem undecodable_upload_aborts float_of_str int_of_str f file uuid_hex st :
  admin st = true ->
  has_upload (form_image f) = Some file ->
  allowed_file (filename file) = true ->
  stream file = None ->
  admin_add float_of_str int_of_str f uuid_hex st = (st, Abort 500) /\
  forall product_id,
    (admin_edit float_of_str int_of_str product_id f uuid_hex st).1 = st /\
    forall p p',
      products st !! product_id = Some p ->
      edit_fields float_of_str int_of_str (form_price f) (form_stock f) p = inr p' ->
      admin_edit float_of_str int_of_str product_id f uuid_hex st = (st, Abort 500).
Proof.
  intros Hadmin Hup Hallowed Hstream.
  assert (save_and_resize_image file (600, 400) uuid_hex (uploads st)
          = (uploads st, Raise)) as Hsave.
  { unfold save_and_resize_image. by rewrite Hallowed, Hstream. }
  split.
  - unfold admin_add. rewrite Hadmin, Hup, Hsave. cbn [negb].
    destruct (price_field float_of_str f); [|done].
    destruct (stock_field int_of_str f); [|done].
    by rewrite with_uploads_id.
  - intros product_id. unfold admin_edit. rewrite Hadmin, Hup, Hsave. cbn [negb].
    split.
    + destruct (products st !! product_id) as [p|]; [|done].
      destruct (edit_fields _ _ _ _ p) as [[|]|p']; [done..|].
      cbn [fst]. apply with_uploads_id.
    + intros p p' -> ->. by rewrite with_uploads_id.
Qed.

Lemma undecodable_upload_aborts_witness :
  let file := {| filename := "notes.jpg"; stream := None |} in
  let f := {| form_name := Some "Used Case"; form_slug := Some "used-case";
              form_description := None; form_price := Some "150";
              form_stock := Some "7"; form_image := Some file |} in
  admin_add Py.float_of_literal Py.int_of_literal f "0f3a" (seeded [] true)
  = (seeded [] true, Abort 500) /\
  admin_edit Py.float_of_literal Py.int_of_literal 1 f "0f3a" (seeded [] true)
  = (seeded [] true, Abort 500).
Proof.
  intros file f.
  destruct (undecodable_upload_aborts Py.float_of_literal Py.int_of_literal f file "0f3a"
              (seeded [] true)) as [Hadd Hedit];
    [reflexivity | reflexivity | reflexivity | reflexivity |].
  split; [exact Hadd|].
  destruct (Hedit 1) as [_ Habort].
  apply (Habort lenovo_ideapad
           (Product.with_stock (Product.with_price_cents lenovo_ideapad 15000) 7));
    vm_compute; reflexivity.
Defined.

(** ** Amounts in binary64 *)

Lemma Zdigits2_le n k : 0 < n < 2 ^ k -> 0 <= k -> 0 < Zdigits2 n <= k.
Proof.
  intros Hn Hk. destruct n as [|p|p]; [lia| |lia]. simpl. split; [lia|].
  destruct (Z.le_gt_cases (Zpos (digits2_pos p)) k) as [H|H]; [done|].
  pose proof (digits2_pos_bounds p) as [Hl _].
  assert (2 ^ k <= 2 ^ (Zpos (digits2_pos p) - 1)) by (apply Z.pow_le_mono_r; lia).
  lia.
Qed.

(** The product of two integers that fits in 53 bits is exact. *)
Lemma float_mul_ints a b :
  0 < a -> 0 < b -> a * b < 2 ^ 53 ->
  Py.float_mul (Py.float_of_int a) (Py.float_of_int b) = dyadic (a * b) 0.
Proof.
  intros Ha Hb Hab.
  assert (a < 2 ^ 53 /\ b < 2 ^ 53) as [Ha' Hb'] by nia.
  rewrite !float_of_int_dyadic by lia.
  destruct (dyadic_finite a 0) as (xa & -> & Hxa & Hdxa & Hda); [lia..|].
  destruct (dyadic_finite b 0) as (xb & -> & Hxb & Hdxb & Hdb); [lia..|].
  destruct (dyadic_finite (a * b) 0) as (x & -> & Hx & Hdx & Hd); [nia|nia|].
  replace (Z.abs a) with a in Hxa by lia. replace (Z.abs b) with b in Hxb by lia.
  replace (Z.abs (a * b)) with (a * b) in Hx by nia.
  replace (a <? 0) with false by lia. replace (b <? 0) with false by lia.
  replace (a * b <? 0) with false by nia.
  set (da := Zdigits2 a) in *. set (db := Zdigits2 b) in *.
  set (d := Zdigits2 (a * b)) in *.
  assert (da + db - 1 <= d) as Hdd.
  { destruct a as [|pa|pa]; [lia| |lia]. destruct b as [|pb|pb]; [lia| |lia].
    pose proof (digits2_pos_bounds pa) as [Hla _].
    pose proof (digits2_pos_bounds pb) as [Hlb _].
    pose proof (digits2_pos_bounds (pa * pb)) as [_ Hh].
    change (Zpos (digits2_pos pa)) with da in Hla.
    change (Zpos (digits2_pos pb)) with db in Hlb.
    change (Zpos (digits2_pos (pa * pb))) with d in Hh.
    rewrite Pos2Z.inj_mul in Hh.
    destruct (Z.le_gt_cases (da + db - 1) d) as [H|H]; [done|].
    assert (2 ^ d <= 2 ^ (da - 1 + (db - 1))) as Hp by (apply Z.pow_le_mono_r; lia).
    rewrite Z.pow_add_r in Hp by lia.
    assert (2 ^ (da - 1) * 2 ^ (db - 1) <= Zpos pa * Zpos pb)
      by (apply Z.mul_le_mono_nonneg; lia).
    lia. }
  unfold Py.float_mul, SFmul. cbn [xorb].
  assert (Zpos (xa * xb) = Zpos x * 2 ^ (53 + d - da - db)) as ->.
  { rewrite Pos2Z.inj_mul, Hxa, Hxb, Hx.
    replace (a * 2 ^ (53 - da) * (b * 2 ^ (53 - db)))
      with (a * b * (2 ^ (53 - da) * 2 ^ (53 - db))) by ring.
    replace (a * b * 2 ^ (53 - d) * 2 ^ (53 + d - da - db))
      with (a * b * (2 ^ (53 - d) * 2 ^ (53 + d - da - db))) by ring.
    rewrite <- !Z.pow_add_r by lia. do 2 f_equal. lia. }
  rewrite binary_round_aux_exact by (done || lia).
  f_equal. lia.
Qed.

Lemma whole_amount_in_minor_units n :
  0 <= n -> n * 100 < 2 ^ 53 ->
  Py.int_of_float (Py.float_mul (Py.float_of_int n) (Py.float_of_int 100))
  = inr (n * 100).
Proof.
  intros Hn Hr. destruct (Z.eq_dec n 0) as [->|Hnz]; [reflexivity|].
  rewrite float_mul_ints by lia. apply int_of_float_dyadic. lia.
Qed.

(** [c / 100.0] on a float made of an [int] is the quotient [c / 100] of
    the two [int]s. *)
Lemma price_is_quotient c :
  0 <= c < 2 ^ 53 ->
  Py.float_div (Py.float_of_int c) (Py.float_of_int 100) = Py.quotient c 100.
Proof.
  intros Hc. destruct (Z.eq_dec c 0) as [->|Hnz]; [reflexivity|].
  rewrite float_of_int_dyadic by lia.
  destruct (dyadic_finite c 0) as (x & -> & Hx & Hdx & Hd); [lia..|].
  replace (Z.abs c) with c in Hx by lia. replace (c <? 0) with false by lia.
  set (dc := Zdigits2 c) in *.
  change (Py.float_of_int 100) with (S754_finite false 7036874417766400 (-46)).
  destruct c as [|pc|pc]; [lia| |lia].
  unfold Py.quotient, Py.float_div, SFdiv.
  change (Z.abs (Zpos pc)) with (Zpos pc). change (Z.abs 100) with 100.
  rewrite SFdiv_core_binary_ints
    by (change (Zpos (digits2_pos 100)) with 7;
        change (Zpos (digits2_pos pc)) with dc; lia).
  change (Zpos (digits2_pos 100)) with 7.
  change (Zpos (digits2_pos pc)) with dc.
  replace (53 + 7 - dc) with (60 - dc) by lia.
  set (A := Zpos pc * 2 ^ (60 - dc)).
  assert (SFdiv_core_binary Py.prec Py.emax (Zpos x) (0 + dc - 53)
            (Zpos 7036874417766400) (-46)
          = (A / 100, - (60 - dc), new_location 100 (A mod 100))) as ->.
  { unfold SFdiv_core_binary, Zdigits2. rewrite Hdx.
    change (Zpos (digits2_pos 7036874417766400)) with 53.
    rewrite fexp_normal by lia.
    replace (Z.min _ _) with (- (60 - dc)) by lia.
    replace (0 + dc - 53 - -46 - - (60 - dc)) with 53 by lia.
    rewrite Z.shiftl_mul_pow2 by lia.
    assert (Zpos x * 2 ^ 53 = A * 2 ^ 46) as ->.
    { unfold A. rewrite Hx, <- !Z.mul_assoc, <- !Z.pow_add_r by lia.
      do 2 f_equal. lia. }
    change (Zpos 7036874417766400) with (100 * 2 ^ 46).
    assert (Z.div_eucl (A * 2 ^ 46) (100 * 2 ^ 46)
            = (A / 100, A mod 100 * 2 ^ 46)) as ->.
    { pose proof (Z.div_mul_cancel_r A 100 (2 ^ 46) ltac:(lia) ltac:(lia)) as Hdiv.
      pose proof (Z.mul_mod_distr_r A 100 (2 ^ 46) ltac:(lia) ltac:(lia)) as Hmod.
      unfold Z.div, Z.modulo in *.
      destruct (Z.div_eucl (A * 2 ^ 46) (100 * 2 ^ 46)) as [q r].
      destruct (Z.div_eucl A 100) as [q0 r0]. congruence. }
    f_equal.
    pose proof (Z.mod_pos_bound A 100 ltac:(lia)) as Hr.
    set (r0 := A mod 100) in *.
    unfold new_location.
    change (Z.even (100 * 2 ^ 46)) with true. change (Z.even 100) with true.
    unfold new_location_even.
    destruct (Z.eqb_spec r0 0) as [->|Hr0]; [done|].
    destruct (Z.eqb_spec (r0 * 2 ^ 46) 0) as [Hz|_]; [lia|].
    f_equal. rewrite Z.mul_assoc.
    by rewrite <- Zmult_compare_compat_r by lia. }
  done.
Qed.

(** The quotient of a positive integer below [2^51] by one below [2^53]
    is a positive binary64 within a factor [1 ± 2^-51] of the exact
    quotient. *)
Lemma quotient_within (a b : Z) :
  0 < a < 2 ^ 51 -> 0 < b < 2 ^ 53 ->
  let s := 53 + Zdigits2 b - Zdigits2 a in
  exists m e,
    Py.quotient a b = S754_finite false m e /\
    2 ^ 52 <= Zpos m < 2 ^ 53 /\
    - s <= e <= - s + 2 /\
    (2 ^ 51 - 1) * (Zpos m * b) <= 2 ^ 51 * (a * 2 ^ (- e)) /\
    2 ^ 51 * (a * 2 ^ (- e)) <= (2 ^ 51 + 1) * (Zpos m * b).
Proof.
  intros Ha Hb. cbv zeta.
  pose proof (Zdigits2_le a 51 Ha ltac:(lia)) as Hda.
  pose proof (Zdigits2_le b 53 Hb ltac:(lia)) as Hdb.
  destruct a as [|a|a]; [lia| |lia]. destruct b as [|b|b]; [lia| |lia].
  cbn [Zdigits2] in *.
  powers_of_two.
  set (da := Zpos (digits2_pos a)) in *. set (db := Zpos (digits2_pos b)) in *.
  set (s := 53 + db - da).
  set (a2s := Zpos a * 2 ^ s).
  set (q0 := a2s / Zpos b).
  assert (Py.quotient (Zpos a) (Zpos b)
          = binary_round_aux Py.prec Py.emax false q0 (- s)
              (new_location (Zpos b) (a2s mod Zpos b))) as ->.
  { unfold Py.quotient.
    change (Z.abs (Zpos a)) with (Zpos a). change (Z.abs (Zpos b)) with (Zpos b).
    by rewrite SFdiv_core_binary_ints by (fold da db; lia). }
  assert (0 < 2 ^ s) as Hps by (apply Z.pow_pos_nonneg; lia).
  assert (q0 * Zpos b <= a2s < (q0 + 1) * Zpos b) as [Hq1 Hq2].
  { unfold q0. pose proof (Z.mul_div_le a2s (Zpos b) ltac:(lia)).
    pose proof (Z.mul_succ_div_gt a2s (Zpos b) ltac:(lia)). lia. }
  assert (2 ^ (52 + db) <= a2s < 2 ^ (53 + db)) as [Ha1 Ha2].
  { pose proof (digits2_pos_bounds a) as [Hl Hh]. fold da in Hl, Hh.
    unfold a2s.
    replace (52 + db) with ((da - 1) + s) by (unfold s; lia).
    replace (53 + db) with (da + s) by (unfold s; lia).
    rewrite !Z.pow_add_r by lia. split.
    - apply Z.mul_le_mono_nonneg_r; lia.
    - apply Z.mul_lt_mono_pos_r; lia. }
  assert (2 ^ (db - 1) <= Zpos b < 2 ^ db) as [Hb1 Hb2]
    by (apply digits2_pos_bounds).
  assert (2 ^ 52 <= q0 < 2 ^ 54) as Hq0.
  { replace (52 + db) with (52 + 1 + (db - 1)) in Ha1 by lia.
    rewrite Z.pow_add_r in Ha1, Ha2 by lia.
    change (2 ^ (52 + 1)) with (2 ^ 53) in Ha1.
    replace (2 ^ db) with (2 * 2 ^ (db - 1)) in *
      by (rewrite <- Z.pow_succ_r by lia; f_equal; lia).
    assert (0 < 2 ^ (db - 1)) by (apply Z.pow_pos_nonneg; lia).
    split.
    - apply Z.div_le_lower_bound; [lia|]. nia.
    - apply Z.div_lt_upper_bound; [lia|]. nia. }
  destruct q0 as [|q|q] eqn:Hq0e; [lia| |lia].
  set (D := Zpos (digits2_pos q)).
  assert ((D = 53 /\ Zpos q < 2 ^ 53) \/ (D = 54 /\ 2 ^ 53 <= Zpos q)) as HD.
  { destruct (Z.lt_ge_cases (Zpos q) (2 ^ 53)) as [H|H].
    - left. split; [|done]. apply digits2_pos_unique. simpl. lia.
    - right. split; [|done]. apply digits2_pos_unique. simpl. lia. }
  destruct (binary_round_aux_bounds false q (- s)
              (new_location (Zpos b) (a2s mod Zpos b)))
    as (m & e & -> & Hm & Hcases); [fold D; unfold s; lia..|].
  fold D in Hcases.
  exists m, e. split; [done|]. split; [done|].
  assert (2 ^ 52 * Zpos b <= Zpos m * Zpos b) as HP
    by (apply Z.mul_le_mono_nonneg_r; lia).
  assert (forall c, 0 <= c <= 2 -> e = - s + c ->
            a2s = Zpos a * 2 ^ (- e) * 2 ^ c) as Hsplit.
  { intros c Hc ->. unfold a2s. rewrite <- Z.mul_assoc, <- Z.pow_add_r by (unfold s; lia).
    do 2 f_equal. lia. }
  destruct HD as [[HD Hq53]|[HD Hq53]]; rewrite HD in Hcases.
  - change (2 ^ (53 - 53)) with 1 in Hcases. rewrite Z.div_1_r in Hcases.
    destruct Hcases as [[-> Hmq]|(-> & Hmq & Hov)].
    + pose proof (Hsplit 0 ltac:(lia) ltac:(lia)) as Hs. rewrite Z.pow_0_r in Hs.
      split; [lia|]. nia.
    + pose proof (Hsplit 1 ltac:(lia) ltac:(lia)) as Hs. rewrite Z.pow_1_r in Hs.
      split; [lia|]. nia.
  - change (2 ^ (54 - 53)) with 2 in Hcases.
    pose proof (Z.div_mod (Zpos q) 2 ltac:(lia)) as Hdm.
    pose proof (Z.mod_pos_bound (Zpos q) 2 ltac:(lia)) as Hmb.
    destruct Hcases as [[-> Hmq]|(-> & Hmq & Hov)].
    + pose proof (Hsplit 1 ltac:(lia) ltac:(lia)) as Hs. rewrite Z.pow_1_r in Hs.
      split; [lia|]. nia.
    + pose proof (Hsplit 2 ltac:(lia) ltac:(lia)) as Hs.
      change (2 ^ 2) with 4 in Hs.
      split; [lia|]. nia.
Qed.

Lemma half_even_div_near n d c :
  0 < d -> 2 * Z.abs (n - c * d) < d -> Py.half_even_div n d = c.
Proof.
  intros Hd Hnear. unfold Py.half_even_div.
  destruct (Z.le_gt_cases (c * d) n) as [Hle|Hgt].
  - assert (n / d = c /\ n mod d = n - c * d) as [-> ->].
    { assert (n = d * c + (n - c * d)) as Heq by lia.
      pose proof (Z.div_mod_unique d (n / d) c (n mod d) (n - c * d)) as Hu.
      pose proof (Z.mod_pos_bound n d Hd).
      pose proof (Z.div_mod n d ltac:(lia)).
      destruct Hu; [left; lia|left; lia|lia|]. by split. }
    by destruct (Z.compare_spec (2 * (n - c * d)) d); try lia.
  - assert (n / d = c - 1 /\ n mod d = n - (c - 1) * d) as [-> ->].
    { pose proof (Z.div_mod_unique d (n / d) (c - 1) (n mod d) (n - (c - 1) * d)) as Hu.
      pose proof (Z.mod_pos_bound n d Hd).
      pose proof (Z.div_mod n d ltac:(lia)).
      destruct Hu; [left; lia|left; lia|lia|]. by split. }
    destruct (Z.compare_spec (2 * (n - (c - 1) * d)) d); try lia.
Qed.

Lemma format_2f_quotient c :
  0 <= c < 2 ^ 48 -> Py.format_2f (Py.quotient c 100) = decimal_2 c.
Proof.
  intros Hc. destruct (Z.eq_dec c 0) as [->|Hnz]; [reflexivity|].
  powers_of_two.
  assert (2 ^ 48 = 281474976710656) as Hp48 by reflexivity.
  destruct (quotient_within c 100 ltac:(lia) ltac:(lia))
    as (m & e & -> & Hm & He & Hq1 & Hq2).
  pose proof (Zdigits2_le c 48 ltac:(lia) ltac:(lia)) as Hdc.
  change (Zdigits2 100) with 7 in He. cbv zeta in He.
  assert (-60 < e <= -10) as He' by lia.
  unfold Py.format_2f, decimal_2.
  assert (Py.scaled_round m e 100 = c) as ->; [|done].
  unfold Py.scaled_round. destruct e as [|pe|pe]; [lia|lia|].
  change (- Zneg pe) with (Zpos pe) in *.
  assert (2 ^ 10 <= 2 ^ Zpos pe) as HP by (apply Z.pow_le_mono_r; lia).
  change (2 ^ 10) with 1024 in HP.
  apply half_even_div_near; [lia|].
  set (P := 2 ^ Zpos pe) in *. nia.
Qed.

(** X26.  A price given in whole units is stored without loss: when the
    price field reads as the float of an integer [n] with [0 <= n] and
    [100 n < 2^53], both admin forms store exactly [100 n] minor units. *)
Theorem whole_prices_are_stored_exactly float_of_str int_of_str f uuid_hex st s n :
  form_price f = Some s -> s <> "" ->
  float_of_str s = Some (Py.float_of_int n) ->
  0 <= n -> n * 100 < 2 ^ 53 ->
  (forall st',
     admin_add float_of_str int_of_str f uuid_hex st
     = (st', Redirect (Some "Product created") "/admin") ->
     exists i p,
       products st !! i = None /\ products st' = <[i := p]> (products st) /\
       Product.price_cents p = n * 100) /\
  (forall product_id p,
     admin st = true ->
     products st !! product_id = Some p ->
     form_stock f = None -> has_upload (form_image f) = None ->
     admin_edit float_of_str int_of_str product_id f uuid_hex st
     = (with_products st
          (<[product_id := Product.with_price_cents p (n * 100)]> (products st)),
        Redirect (Some "Product updated") "/admin")).
Proof.
  intros Hprice Hs Hfloat Hn Hr.
  pose proof (whole_amount_in_minor_units n Hn Hr) as Hcents.
  split.
  - intros st' Hadd.
    destruct (admin_add_created _ _ _ _ _ _ Hadd)
      as (i & p & price_php & Hfree & Hps & _ & _ & _ & _ & Hpf & Hint & _).
    exists i, p. split; [done|]. split; [done|].
    unfold price_field in Hpf. rewrite Hprice in Hpf.
    destruct s as [|a s]; [done|]. rewrite Hfloat in Hpf. injection Hpf as <-.
    rewrite Hcents in Hint. by injection Hint.
  - intros product_id p Hadmin Hp Hstock Hup.
    unfold admin_edit, edit_fields. rewrite Hadmin, Hp, Hprice, Hstock, Hup.
    cbn [negb]. destruct s as [|a s]; [done|]. rewrite Hfloat, Hcents.
    by rewrite with_uploads_id.
Qed.

Lemma whole_prices_are_stored_exactly_witness :
  let f := {| form_name := None; form_slug := None; form_description := None;
              form_price := Some "26500"; form_stock := None;
              form_image := None |} in
  admin_edit Py.float_of_literal Py.int_of_literal 1 f "0f3a" (seeded [] true)
  = (with_products (seeded [] true)
       (<[1 := Product.with_price_cents lenovo_ideapad 2650000]> init_db),
     Redirect (Some "Product updated") "/admin").
Proof.
  intros f.
  destruct (whole_prices_are_stored_exactly Py.float_of_literal Py.int_of_literal f
              "0f3a" (seeded [] true) "26500" 26500) as [_ Hedit];
    [reflexivity | discriminate | vm_compute; reflexivity | lia | simpl; lia |].
  apply (Hedit 1 lenovo_ideapad); reflexivity.
Defined.

(** X27.  The amounts of an order are shown to the last minor unit.
    With every price and the total in [0, 2^48), each summary line of the
    order and of the hand-off text ends in the price written as units, a
    point and two digits, and the total line shows the order's total
    written the same way: the float division by 100 and the two-decimal
    format lose nothing. *)
Theorem checkout_shows_exact_amounts page name address now st st' url :
  checkout page name address now st = (st', Redirect None url) ->
  (forall p q, (p, q) ∈ priced_entries (products st) (cart st) ->
     0 <= Product.price_cents p < 2 ^ 48) ->
  0 <= grand_total (products st) (cart st) < 2 ^ 48 ->
  exists order,
    orders st' = orders st ++ [order] /\
    Order.items order
    = Py.join "; "
        ((fun '(p, q) =>
            Product.name p +:+ " x" +:+ Py.str q +:+ " @ " +:+ peso
            +:+ decimal_2 (Product.price_cents p))
           <$> priced_entries (products st) (cart st)) /\
    url = "https://m.me/" +:+ page +:+ "?text=" +:+
          Py.join "%0A"
            (["Laptop Galleria Order"; "Order#: " +:+ Py.str (Order.id order)]
             ++ ((fun '(p, q) =>
                    "- " +:+ Product.name p +:+ " x" +:+ Py.str q +:+ " @ "
                    +:+ peso +:+ decimal_2 (Product.price_cents p))
                   <$> priced_entries (products st) (cart st))
             ++ [""; "Total: " +:+ peso +:+ decimal_2 (Order.total_cents order);
                 "Name: " +:+ Py.format_opt name;
                 "Address: " +:+ Py.format_opt address]).
Proof.
  intros Hco Hprices Htotal.
  destruct (checkout_redirect_none _ _ _ _ _ _ _ Hco) as [Hne Hall].
  destruct (checkout_success page name address now st Hne Hall)
    as (ps' & Hdec & Heq).
  rewrite Heq in Hco. injection Hco as <- <-.
  eexists. split; [reflexivity|].
  cbn [Order.id Order.total_cents Order.items].
  assert (forall p q, (p, q) ∈ priced_entries (products st) (cart st) ->
            Py.format_2f (Product.price p) = decimal_2 (Product.price_cents p))
    as Hshown.
  { intros p q Hin. specialize (Hprices p q Hin).
    assert (2 ^ 48 < 2 ^ 53) by done.
    unfold Product.price. rewrite price_is_quotient by lia.
    by apply format_2f_quotient. }
  split.
  - f_equal. apply list_fmap_ext. intros i [p q] Hi.
    unfold summary_line. do 5 f_equal. apply (Hshown p q).
    by eapply list_elem_of_lookup_2.
  - rewrite order_text_lines, format_2f_quotient by done. do 5 f_equal.
    rewrite <- list_fmap_compose. f_equal. apply list_fmap_ext. intros i [p q] Hi.
    cbn. unfold summary_line. do 6 f_equal. apply (Hshown p q).
    by eapply list_elem_of_lookup_2.
Qed.

Lemma checkout_shows_exact_amounts_witness :
  exists st' url order,
    checkout "page" (Some "Ann") (Some "1 Main St") 0 (seeded [(4, 3)] false)
    = (st', Redirect None url) /\
    orders st' = [order] /\
    Order.items order = "Mechanical Keyboard x3 @ " +:+ peso +:+ "2500.00" /\
    url = "https://m.me/page?text=" +:+
          Py.join "%0A"
            ["Laptop Galleria Order"; "Order#: 1";
             "- Mechanical Keyboard x3 @ " +:+ peso +:+ "2500.00";
             ""; "Total: " +:+ peso +:+ "7500.00";
             "Name: Ann"; "Address: 1 Main St"].
Proof.
  destruct (checkout "page" (Some "Ann") (Some "1 Main St") 0 (seeded [(4, 3)] false))
    as [st' [flashed url| |]] eqn:Hco; try (vm_compute in Hco; discriminate Hco).
  destruct flashed as [message|]; [vm_compute in Hco; discriminate Hco|].
  assert (priced_entries init_db [(4, 3)] = [(mechanical_keyboard, 3)]) as Hentries
    by (vm_compute; reflexivity).
  destruct (checkout_shows_exact_amounts _ _ _ _ _ _ _ Hco)
    as (order & Horders & Hitems & Hurl).
  { intros p q. cbn [seeded products cart]. rewrite Hentries.
    intros [= -> ->]%list_elem_of_singleton. simpl. lia. }
  { cbn [seeded products cart].
    assert (grand_total init_db [(4, 3)] = 750000) as -> by (vm_compute; reflexivity).
    simpl. lia. }
  exists st', url, order. split; [reflexivity|]. split; [exact Horders|].
  cbn [seeded products cart] in Hitems, Hurl. rewrite Hentries in Hitems, Hurl.
  assert (Order.id order = 1 /\ Order.total_cents order = 750000) as [Hid Htotal].
  { injection Hco as <- _. cbn in Horders. injection Horders as <-.
    split; vm_compute; reflexivity. }
  rewrite Hid, Htotal in Hurl. split.
  - rewrite Hitems. vm_compute. reflexivity.
  - rewrite Hurl. vm_compute. reflexivity.
Defined.

(** ** File names *)

Lemma lower_char_dot c : Ascii.eqb (Py.lower_char c) "." = Ascii.eqb c ".".
Proof. by destruct c as [[] [] [] [] [] [] [] []]. Qed.

Lemma lower_char_idemp c : Py.lower_char (Py.lower_char c) = Py.lower_char c.
Proof. by destruct c as [[] [] [] [] [] [] [] []]. Qed.

Lemma lower_idemp s : Py.lower (Py.lower s) = Py.lower s.
Proof.
  induction s as [|c s IH]; [done|]. cbn [Py.lower].
  by rewrite lower_char_idemp, IH.
Qed.

Lemma has_dot_lower s : Py.has_dot (Py.lower s) = Py.has_dot s.
Proof.
  induction s as [|c s IH]; [done|]. cbn [Py.lower Py.has_dot].
  by rewrite lower_char_dot, IH.
Qed.

Lemma rsplit_dot_last_lower s :
  Py.rsplit_dot_last (Py.lower s) = Py.lower (Py.rsplit_dot_last s).
Proof.
  induction s as [|c s IH]; [done|]. cbn [Py.lower Py.rsplit_dot_last].
  rewrite has_dot_lower, lower_char_dot, IH.
  destruct (Py.has_dot s); [done|]. by destruct (Ascii.eqb c ".").
Qed.

Lemma has_dot_app s t : Py.has_dot (s +:+ t) = Py.has_dot s || Py.has_dot t.
Proof.
  induction s as [|c s IH]; [done|].
  change (String c s +:+ t) with (String c (s +:+ t)). cbn [Py.has_dot].
  rewrite IH. by destruct (Ascii.eqb c ".").
Qed.

Lemma rsplit_dot_last_app stem ext :
  Py.has_dot ext = false -> Py.rsplit_dot_last (stem +:+ "." +:+ ext) = ext.
Proof.
  intros Hext. induction stem as [|c stem IH].
  - change ("" +:+ "." +:+ ext) with (String "." ext). cbn [Py.rsplit_dot_last].
    by rewrite Hext.
  - change (String c stem +:+ "." +:+ ext) with (String c (stem +:+ "." +:+ ext)).
    cbn [Py.rsplit_dot_last]. rewrite has_dot_app.
    change ("." +:+ ext) with (String "." ext). cbn [Py.has_dot Ascii.eqb].
    rewrite orb_true_r. exact IH.
Qed.

(** X28.  [allowed_file] reads nothing but what follows the last dot,
    and reads it without regard to case: the stem may be anything, the
    four extensions are accepted in any spelling of upper and lower case,
    and a name that ends in a dot is rejected. *)
Theorem allowed_file_reads_the_last_part :
  (forall stem ext, Py.has_dot ext = false ->
     allowed_file (stem +:+ "." +:+ ext) = allowed_file ext) /\
  (forall name, allowed_file (Py.lower name) = allowed_file name) /\
  (forall stem ext, ext ∈ allowed_extensions ->
     allowed_file (stem +:+ "." +:+ ext) = true) /\
  (forall stem, allowed_file (stem +:+ ".") = false).
Proof.
  assert (forall stem ext, Py.has_dot ext = false ->
            allowed_file (stem +:+ "." +:+ ext) = allowed_file ext) as Hlast.
  { intros stem ext Hext. unfold allowed_file.
    by rewrite rsplit_dot_last_app, rsplit_dot_last_no_dot. }
  split; [exact Hlast|]. split; [|split].
  - intros name. unfold allowed_file.
    by rewrite rsplit_dot_last_lower, lower_idemp.
  - intros stem ext Hext.
    assert (Py.has_dot ext = false /\ allowed_file ext = true) as [Hdot Hok].
    { unfold allowed_extensions in Hext.
      repeat (apply elem_of_cons in Hext as [->|Hext]; [by split|]).
      by apply elem_of_nil in Hext. }
    by rewrite Hlast.
  - intros stem. change (stem +:+ ".") with (stem +:+ "." +:+ "").
    by rewrite Hlast.
Qed.

Lemma allowed_file_reads_the_last_part_witness :
  allowed_file ("../../etc/shell.php" +:+ "." +:+ "JPG") = true /\
  allowed_file ("photo.jpg" +:+ ".") = false.
Proof.
  destruct allowed_file_reads_the_last_part as (Hlast & Hlower & _ & Hempty).
  split; [|apply Hempty].
  rewrite (Hlast "../../etc/shell.php" "JPG") by reflexivity.
  rewrite <- Hlower. reflexivity.
Defined.

(** X29.  The normaliser writes at most one file and names it itself.
    When it returns a name, the name is the generated identifier, a dot
    and one of the four extensions in lower case, the file is in the
    folder, and every other file of the folder is as before; when it
    returns nothing or raises, the folder is as before. *)
Theorem stored_name_is_generated file size uuid_hex folder :
  let '(folder', returned) := save_and_resize_image file size uuid_hex folder in
  match returned with
  | Return (Some name) =>
      (exists ext, ext ∈ allowed_extensions /\ name = uuid_hex +:+ "." +:+ ext) /\
      is_Some (folder' !! name) /\
      (forall other, other <> name -> folder' !! other = folder !! other)
  | Return None => folder' = folder /\ allowed_file (filename file) = false
  | Raise => folder' = folder
  end.
Proof.
  destruct (save_and_resize_image_outcomes file size uuid_hex folder)
    as [[-> Hno]|[[-> _]|(im & -> & Hyes)]]; [done|done|].
  split; [|split].
  - exists (Py.lower (Py.rsplit_dot_last (filename file))).
    split; [by apply allowed_file_spec|done].
  - rewrite lookup_insert_eq. eauto.
  - intros other Hother. by rewrite lookup_insert_ne.
Qed.

(** ** The seed *)

(** X30.  [setup_once] seeds the product table once and only when it is
    empty: a table that has a row is left as it is, an empty table on the
    first request of the process becomes the five sample rows, a second
    call changes nothing, and the table it leaves has no negative stock
    or price and no slug shared by two rows whenever the table it found
    had none. *)
Theorem setup_once_seeds_an_empty_table initialized ps :
  let '(initialized', ps') := setup_once initialized ps in
  initialized' = true /\
  setup_once initialized' ps' = (initialized', ps') /\
  (ps <> ∅ -> ps' = ps) /\
  (initialized = false -> ps = ∅ -> ps' = init_db /\ size ps' = 5%nat) /\
  (products_ok ps -> products_ok ps') /\
  (slugs_unique ps -> slugs_unique ps').
Proof.
  unfold setup_once. destruct initialized.
  - split; [done|]. split; [done|]. split; [done|]. split; [done|]. by split.
  - case_bool_decide as Hempty.
    + split; [done|]. split; [done|]. split; [done|].
      split; [intros _ _; split; [done|vm_compute; reflexivity]|].
      split; intros _; [apply init_db_ok|apply init_db_slugs_unique].
    + split; [done|]. split; [done|]. split; [done|]. split; [done|]. by split.
Qed.
